(** * cmmc-data-pipeline: the data-quality and versioning core

    A shallow embedding of
      - [pipeline/versioning.py]   (class [VersionManager]),
      - [processors/dedup.py]      (class [DedupIndex]),
      - [processors/quality_filter.py] ([filter_record]),
      - [pipeline/validator.py]    ([DataValidator._validate_quality]),
    followed by the properties of the specification that concern them.

    Conventions of the embedding.
      - A Python [str] is a [string]; texts are taken to be ASCII, so that
        [len] is [String.length] and the character classes are the ASCII
        ones.
      - A call that can raise returns [res A = exn + A]; a method that
        mutates [self] returns the outcome together with the new state.
      - JSON values are the inductive type [value]; a line of a JSON-lines
        file is a [Line], which records what [json.loads] makes of it.
      - The file system is a finite map from names to contents. *)

From Stdlib Require Import ZArith NArith List String Ascii Lia Bool.
From Stdlib Require Import Decimal DecimalString DecimalPos DecimalN.
From Stdlib Require Import Floats Uint63 Sorted.
From stdpp Require Import base option list gmap strings.

Set Warnings "-register-all,-clear-no-such-hyp".

Local Open Scope string_scope.
Local Open Scope list_scope.
Local Open Scope nat_scope.

(** ** Python values and exceptions *)

Module Py.

(** The exceptions that the modelled code can meet.  [ValueError] carries
    the message where the repository raises it itself. *)
Inductive exn : Type :=
  | JSONDecodeError
  | AttributeError
  | TypeError
  | KeyError
  | IndexError
  | FileNotFoundError
  | ValueError (msg : string).

Definition res (A : Type) : Type := (exn + A)%type.

Definition raise {A} (e : exn) : res A := inl e.
Definition ret {A} (a : A) : res A := inr a.

Definition bind {A B} (m : res A) (k : A -> res B) : res B :=
  match m with
  | inl e => inl e
  | inr a => k a
  end.

Fixpoint mapM {A B} (f : A -> res B) (l : list A) : res (list B) :=
  match l with
  | [] => ret []
  | a :: l' =>
      bind (f a) (fun b => bind (mapM f l') (fun bs => ret (b :: bs)))
  end.

(** What [json.loads] returns: [None], booleans, integers, strings, lists
    and objects.  (Floating-point numbers are left out: no modelled
    function computes with a number read from a record.) *)
Inductive value : Type :=
  | VNone
  | VBool (b : bool)
  | VInt (z : Z)
  | VStr (s : string)
  | VList (l : list value)
  | VDict (d : list (string * value)).

(** [bool(v)]: the truth value Python gives to [v] in [if v] / [not v]. *)
Definition truthy (v : value) : bool :=
  match v with
  | VNone => false
  | VBool b => b
  | VInt z => negb (Z.eqb z 0)
  | VStr s => negb (String.eqb s "")
  | VList l => match l with [] => false | _ => true end
  | VDict d => match d with [] => false | _ => true end
  end.

(** A [dict] with string keys, as an association list read at the first
    binding of a key. *)
Definition dict : Type := list (string * value).

Fixpoint dict_lookup (k : string) (d : dict) : option value :=
  match d with
  | [] => None
  | (k', v) :: d' => if String.eqb k k' then Some v else dict_lookup k d'
  end.

(** [d.get(k, default)] on a dict. *)
Definition dict_get (k : string) (default : value) (d : dict) : value :=
  match dict_lookup k d with
  | Some v => v
  | None => default
  end.

(** [v.get(k, default)] on any value: only a dict has the method. *)
Definition get (k : string) (default : value) (v : value) : res value :=
  match v with
  | VDict d => ret (dict_get k default d)
  | _ => raise AttributeError
  end.

(** [len(v)]. *)
Definition len (v : value) : res nat :=
  match v with
  | VStr s => ret (String.length s)
  | VList l => ret (List.length l)
  | VDict d => ret (List.length d)
  | _ => raise TypeError
  end.

(** [v[i]] for a literal index [i]. *)
Definition getitem (i : nat) (v : value) : res value :=
  match v with
  | VList l => match nth_error l i with
               | Some x => ret x
               | None => raise IndexError
               end
  | VStr s => match String.get i s with
              | Some c => ret (VStr (String c EmptyString))
              | None => raise IndexError
              end
  | VDict _ => raise KeyError
  | _ => raise TypeError
  end.

(** *** Characters and strings *)

Definition is_space (c : ascii) : bool :=
  let n := nat_of_ascii c in
  ((9 <=? n) && (n <=? 13)) || ((28 <=? n) && (n <=? 32)).

Definition is_digit (c : ascii) : bool :=
  let n := nat_of_ascii c in (48 <=? n) && (n <=? 57).

Definition is_alpha (c : ascii) : bool :=
  let n := nat_of_ascii c in
  ((65 <=? n) && (n <=? 90)) || ((97 <=? n) && (n <=? 122)).

Definition digit_val (c : ascii) : N := N.of_nat (nat_of_ascii c - 48).

(** [s.lstrip(chars)] for the character class [p]. *)
Fixpoint lstrip (p : ascii -> bool) (s : string) : string :=
  match s with
  | EmptyString => EmptyString
  | String c r => if p c then lstrip p r else s
  end.

(** [s.rstrip(chars)] for the character class [p]. *)
Fixpoint rstrip (p : ascii -> bool) (s : string) : string :=
  match s with
  | EmptyString => EmptyString
  | String c r =>
      match rstrip p r with
      | EmptyString => if p c then EmptyString else String c EmptyString
      | r' => String c r'
      end
  end.

(** [s.strip()]. *)
Definition strip (s : string) : string := rstrip is_space (lstrip is_space s).

(** The digits of an [int] literal: decimal digits, where a single
    underscore may stand between two digits.  [seen] tells whether the
    previous character was a digit. *)
Fixpoint digits_val (acc : N) (seen : bool) (s : string) : option N :=
  match s with
  | EmptyString => if seen then Some acc else None
  | String c r =>
      if is_digit c then digits_val (10 * acc + digit_val c)%N true r
      else if Ascii.eqb c "_" then
             (if seen then digits_val acc false r else None)
      else None
  end.

(** [int(s)] in base 10: surrounding white space, an optional sign, then
    the digits.  The library's message is abbreviated. *)
Definition int (s : string) : res Z :=
  let bad := raise (ValueError "invalid literal for int() with base 10") in
  match strip s with
  | String "-" r =>
      match digits_val 0%N false r with
      | Some n => ret (- Z.of_N n)%Z
      | None => bad
      end
  | String "+" r =>
      match digits_val 0%N false r with
      | Some n => ret (Z.of_N n)
      | None => bad
      end
  | t =>
      match digits_val 0%N false t with
      | Some n => ret (Z.of_N n)
      | None => bad
      end
  end.

(** [str(n)] for a natural number. *)
Definition str_N (n : N) : string := NilZero.string_of_uint (N.to_uint n).

(** [s.rjust(width, "0")]. *)
Definition zfill (width : nat) (s : string) : string :=
  (String.concat "" (List.repeat "0" (width - String.length s)) ++ s)%string.

(** The padding of [zfill]. *)
Definition zeros (k : nat) : string := String.concat "" (List.repeat "0" k).

(** [format(z, "03d")]: the sign, if any, counts in the width. *)
Definition format_03d (z : Z) : string :=
  match z with
  | Zneg p => String "-" (zfill 2 (str_N (Npos p)))
  | _ => zfill 3 (str_N (Z.to_N z))
  end.

(** [max(l)] of a non-empty list of integers, [first] being its head. *)
Definition max_int (first : Z) (rest : list Z) : Z :=
  fold_left Z.max rest first.

(** [float(n)] for a length or a count [n]; exact below [2^53], which
    lengths and counts of records in memory are. *)
Definition float_of_nat (n : nat) : float :=
  PrimFloat.of_uint63 (Uint63.of_Z (Z.of_nat n)).

(** [a / b] on two such integers: true division. *)
Definition truediv (a b : nat) : float :=
  PrimFloat.div (float_of_nat a) (float_of_nat b).

(** [round(f)] and the integer that [format(f, ".0f")] prints: the
    nearest integer, ties going to the even one.  (Python raises on an
    infinity or a NaN; a mean of lengths is neither.) *)
Definition round (f : float) : Z :=
  match Prim2SF f with
  | S754_finite sign m e =>
      let mag :=
        (if 0 <=? e then Z.pos m * 2 ^ e
         else
           let d := 2 ^ (- e) in
           let q := Z.pos m / d in
           let r := Z.pos m mod d in
           if 2 * r <? d then q
           else if d <? 2 * r then q + 1
           else if Z.even q then q else q + 1)%Z in
      if sign then (- mag)%Z else mag
  | _ => 0%Z
  end.

(** [str(z)]. *)
Definition str_Z (z : Z) : string :=
  match z with
  | Zneg p => String "-" (str_N (Npos p))
  | _ => str_N (Z.to_N z)
  end.

(** [s.count(needle)]: occurrences that do not overlap, from the left.
    [skip] characters are still covered by the last occurrence. *)
Fixpoint count_from (needle : string) (skip : nat) (s : string) : nat :=
  match s with
  | EmptyString => 0
  | String _ r =>
      match skip with
      | S k => count_from needle k r
      | O =>
          if String.prefix needle s
          then S (count_from needle (String.length needle - 1) r)
          else count_from needle 0 r
      end
  end.

Definition count (needle s : string) : nat := count_from needle 0 s.

Fixpoint forallb_string (p : ascii -> bool) (s : string) : bool :=
  match s with
  | EmptyString => true
  | String c r => p c && forallb_string p r
  end.

(** Every character of [s] is a decimal digit. *)
Definition all_digits (s : string) : Prop := forallb_string is_digit s = true.

Fixpoint count_chars (p : ascii -> bool) (s : string) : nat :=
  match s with
  | EmptyString => 0
  | String c r => (if p c then 1 else 0) + count_chars p r
  end.

(** [s[i:i+k]]. *)
Definition slice (i k : nat) (s : string) : string := String.substring i k s.

End Py.

Notation "'let*' x ':=' e 'in' k" := (Py.bind e (fun x => k))
  (at level 10, x name, e at level 100, k at level 200).

(** ** JSON-lines files *)

Module Jsonl.
Import Py.

(** A line of a JSON-lines file, up to what [json.loads] makes of it: a
    line of white space only, the text of the JSON value [v], or any
    other text [raw], which is not JSON. *)
Inductive Line : Type :=
  | Blank
  | Json (v : value)
  | Garbage (raw : string).

(** [json.loads(line)]. *)
Definition loads (l : Line) : res value :=
  match l with
  | Json v => ret v
  | Blank | Garbage _ => raise JSONDecodeError
  end.

(** [json.dumps(record, default=str) + "\n"]. *)
Definition dumps (v : value) : Line := Json v.

(** [bool(line.strip())]. *)
Definition nonblank (l : Line) : bool :=
  match l with
  | Blank => false
  | _ => true
  end.

(** The reading loop of [versioning.py] and [validator.py]:
    [[
      for line in f:
          line = line.strip()
          if line:
              records.append(json.loads(line))
    ]] *)
Fixpoint read_records (lines : list Line) : res (list value) :=
  match lines with
  | [] => ret []
  | l :: ls =>
      if nonblank l then
        let* v := loads l in
        let* vs := read_records ls in
        ret (v :: vs)
      else read_records ls
  end.

(** The writing loop: one [dumps] per record. *)
Definition write_records (records : list value) : list Line :=
  List.map dumps records.

End Jsonl.

(** ** [pipeline/versioning.py] *)

Module Versioning.
Import Py Jsonl.

Record VersionInfo : Type := mkVersionInfo {
  version : string;
  created_at : string;
  description : string;
  record_count : nat;
  sources : list string;
  parent_version : option string
}.

(** [self.manifest]: [{"versions": [...], "current": ...}]. *)
Record Manifest : Type := mkManifest {
  versions : list VersionInfo;
  current : option string
}.

(** The directory [versions/<id>/] with its two files. *)
Record VersionDir : Type := mkVersionDir {
  records_jsonl : option (list Line);
  version_info_json : option VersionInfo
}.

(** A [VersionManager] with the files it works on.
      - [manifest] is the object's [self.manifest], [manifest_json] the
        file [manifest.json];
      - [version_dirs] maps a name [n] to the directory that
        [versions_dir / n] denotes, different names denoting different
        directories;
      - [versions_dir_exists] tells whether the directory [versions_dir]
        itself is there;
      - [training_data_dir] is the configured destination, [None] when
        none is, and [training_files] maps a name to the lines of that
        file of the destination directory.
    A name is one path component: with a [/] in it, it denotes a
    directory that the store does not describe.  [base_dir] holds
    [manifest.json] and [versions_dir]; the destination directory lies
    outside [base_dir]. *)
Record Store : Type := mkStore {
  manifest : Manifest;
  manifest_json : option Manifest;
  version_dirs : gmap string VersionDir;
  versions_dir_exists : bool;
  training_data_dir : option string;
  training_files : gmap string (list Line)
}.

Definition empty_manifest : Manifest :=
  {| versions := []; current := None |}.

(** [VersionManager(base_dir, training_data_dir)] over the files found
    on disk ([__init__] and [_load_manifest]); [versions_dir] is made if
    it is not there. *)
Definition init (training : option string) (on_disk : option Manifest)
    (dirs : gmap string VersionDir) (files : gmap string (list Line)) : Store :=
  {| manifest := default empty_manifest on_disk;
     manifest_json := on_disk;
     version_dirs := dirs;
     versions_dir_exists := true;
     training_data_dir :=
       match training with
       | Some d => if String.eqb d "" then None else Some d
       | None => None
       end;
     training_files := files |}.

(** The manifest is replaced in memory and written out ([_save_manifest]). *)
Definition with_manifest (m : Manifest) (st : Store) : Store :=
  {| manifest := m;
     manifest_json := Some m;
     version_dirs := version_dirs st;
     versions_dir_exists := versions_dir_exists st;
     training_data_dir := training_data_dir st;
     training_files := training_files st |}.

Definition with_version_dirs (dirs : gmap string VersionDir) (st : Store) : Store :=
  {| manifest := manifest st;
     manifest_json := manifest_json st;
     version_dirs := dirs;
     versions_dir_exists := versions_dir_exists st;
     training_data_dir := training_data_dir st;
     training_files := training_files st |}.

Definition with_training_files (files : gmap string (list Line)) (st : Store) : Store :=
  {| manifest := manifest st;
     manifest_json := manifest_json st;
     version_dirs := version_dirs st;
     versions_dir_exists := versions_dir_exists st;
     training_data_dir := training_data_dir st;
     training_files := files |}.

(** [version_dir.mkdir(parents=True, exist_ok=True)] followed by the two
    files written into the directory [name] of [versions_dir]. *)
Definition with_version_dir (name : string) (dir : VersionDir) (st : Store) : Store :=
  {| manifest := manifest st;
     manifest_json := manifest_json st;
     version_dirs := <[name := dir]> (version_dirs st);
     versions_dir_exists := true;
     training_data_dir := training_data_dir st;
     training_files := training_files st |}.

(** What [versions_dir / name] is, for a name of one path component:
    [versions_dir] itself for the names [""] and ["."], which [pathlib]
    drops; [base_dir] for [".."]; and the directory of that name in
    [versions_dir] for every other name. *)
Inductive Place : Type :=
  | VersionsDir
  | BaseDir
  | Entry (name : string).

Definition place (name : string) : Place :=
  if String.eqb name "" || String.eqb name "." then VersionsDir
  else if String.eqb name ".." then BaseDir
  else Entry name.

(** There is no [/] in the name. *)
Fixpoint one_component (name : string) : bool :=
  match name with
  | EmptyString => true
  | String c rest => negb (Ascii.eqb c "/") && one_component rest
  end.

(** The name of a directory in [versions_dir]: one path component
    other than [""], ["."] and [".."]. *)
Definition is_version_name (name : string) : bool :=
  one_component name
  && match place name with
     | Entry _ => true
     | _ => false
     end.

(** [path.exists()] for such a path.  [versions_dir / ".."] is found
    through [versions_dir]. *)
Definition exists_ (path : Place) (st : Store) : bool :=
  match path with
  | Entry name => bool_decide (is_Some (version_dirs st !! name))
  | VersionsDir | BaseDir => versions_dir_exists st
  end.

(** [shutil.rmtree(path)] for a path that exists: the directory goes
    with all it holds.  For [versions_dir / ".."] that is what [base_dir]
    holds, [manifest.json] and [versions_dir]; the directory itself is
    then removed under its name [versions/..], which is no longer found:
    [rmtree] raises [FileNotFoundError], [base_dir] staying empty. *)
Definition rmtree (path : Place) (st : Store) : res unit * Store :=
  match path with
  | Entry name => (inr tt, with_version_dirs (delete name (version_dirs st)) st)
  | VersionsDir =>
      (inr tt,
       {| manifest := manifest st;
          manifest_json := manifest_json st;
          version_dirs := ∅;
          versions_dir_exists := false;
          training_data_dir := training_data_dir st;
          training_files := training_files st |})
  | BaseDir =>
      (raise FileNotFoundError,
       {| manifest := manifest st;
          manifest_json := None;
          version_dirs := ∅;
          versions_dir_exists := false;
          training_data_dir := training_data_dir st;
          training_files := training_files st |})
  end.

(** [int(v.lstrip("v"))]. *)
Definition version_number (v : string) : res Z :=
  int (lstrip (Ascii.eqb "v") v).

(** [_next_version]. *)
Definition _next_version (st : Store) : res string :=
  let existing := List.map version (versions (manifest st)) in
  match existing with
  | [] => ret "v001"
  | v :: vs =>
      let* n := version_number v in
      let* ns := mapM version_number vs in
      let last_num := max_int n ns in
      ret ("v" ++ format_03d (last_num + 1)%Z)%string
  end.

(** [create_snapshot(records, description, sources)]; [now] is the time
    the clock gives. *)
Definition create_snapshot (records : list value) (descr : string)
    (srcs : option (list string)) (now : string) (st : Store)
  : res string * Store :=
  match _next_version st with
  | inl e => (inl e, st)
  | inr v =>
      let info :=
        {| version := v;
           created_at := now;
           description := descr;
           record_count := List.length records;
           sources := default [] srcs;
           parent_version := current (manifest st) |} in
      let dir :=
        {| records_jsonl := Some (write_records records);
           version_info_json := Some info |} in
      let m :=
        {| versions := versions (manifest st) ++ [info];
           current := Some v |} in
      (inr v, with_manifest m (with_version_dir v dir st))
  end.

(** [_load_version_records(version)]. *)
Definition _load_version_records (v : string) (st : Store) : res (list value) :=
  match version_dirs st !! v with
  | Some {| records_jsonl := Some lines |} => read_records lines
  | _ => ret []
  end.

(** [rollback(target_version)]. *)
Definition rollback (target : string) (st : Store)
  : res (list value) * Store :=
  match version_dirs st !! target with
  | None => (raise (ValueError ("Version " ++ target ++ " not found")%string), st)
  | Some _ =>
      match _load_version_records target st with
      | inl e => (inl e, st)
      | inr records =>
          let m := {| versions := versions (manifest st);
                      current := Some target |} in
          (inr records, with_manifest m st)
      end
  end.

(** [get_current_records()]. *)
Definition get_current_records (st : Store) : res (list value) :=
  match current (manifest st) with
  | None => ret []
  | Some c => if String.eqb c "" then ret [] else _load_version_records c st
  end.

(** [list_versions()]. *)
Definition list_versions (st : Store) : list VersionInfo :=
  versions (manifest st).

(** [delete_version(version)]. *)
Definition delete_version (v : string) (st : Store) : res unit * Store :=
  if decide (current (manifest st) = Some v) then
    (raise (ValueError "Cannot delete the current version. Rollback first."), st)
  else
    let version_dir := place v in
    match (if exists_ version_dir st then rmtree version_dir st
           else (inr tt, st)) with
    | (inl e, st') => (inl e, st')
    | (inr _, st') =>
        let m :=
          {| versions :=
               List.filter (fun i => negb (String.eqb (version i) v))
                           (versions (manifest st'));
             current := current (manifest st') |} in
        (inr tt, with_manifest m st')
    end.

Definition train_jsonl : string := "train.jsonl".

(** [f"train.jsonl.bak.{version}"]. *)
Definition backup_name (v : string) : string :=
  ("train.jsonl.bak." ++ v)%string.

(** [version or self.manifest.get("current")]. *)
Definition version_or_current (v : option string) (st : Store) : option string :=
  match v with
  | Some s => if String.eqb s "" then current (manifest st) else Some s
  | None => current (manifest st)
  end.

(** [merge_to_training(version)]; the path returned is that of
    [train.jsonl] in the destination directory. *)
Definition merge_to_training (v : option string) (st : Store)
  : res string * Store :=
  match training_data_dir st with
  | None => (raise (ValueError "No training_data_dir configured"), st)
  | Some dir =>
      match version_or_current v st with
      | None | Some "" =>
          (raise (ValueError "No version specified and no current version"), st)
      | Some ver =>
          match _load_version_records ver st with
          | inl e => (inl e, st)
          | inr [] => (raise (ValueError ("No records in version " ++ ver)%string), st)
          | inr records =>
              let old := training_files st !! train_jsonl in
              match (match old with
                     | Some lines => read_records lines
                     | None => ret []
                     end) with
              | inl e => (inl e, st)
              | inr existing =>
                  let backed_up :=
                    match old with
                    | Some lines => <[backup_name ver := lines]> (training_files st)
                    | None => training_files st
                    end in
                  let merged := existing ++ records in
                  (inr (dir ++ "/" ++ train_jsonl)%string,
                   with_training_files
                     (<[train_jsonl := write_records merged]> backed_up) st)
              end
          end
      end
  end.

(** [f"v{n:03d}"]. *)
Definition version_id (n : nat) : string :=
  ("v" ++ format_03d (Z.of_nat n))%string.

(** The arguments of one call of [create_snapshot], with the time of the
    call. *)
Record SnapshotCall : Type := mkSnapshotCall {
  call_records : list value;
  call_description : string;
  call_sources : option (list string);
  call_now : string
}.

(** Calls of [create_snapshot] one after the other; the ids returned, in
    order, up to the first call that raises. *)
Fixpoint create_snapshots (calls : list SnapshotCall) (st : Store)
  : res (list string) * Store :=
  match calls with
  | [] => (inr [], st)
  | c :: rest =>
      match create_snapshot (call_records c) (call_description c)
                            (call_sources c) (call_now c) st with
      | (inl e, st') => (inl e, st')
      | (inr v, st') =>
          match create_snapshots rest st' with
          | (inl e, st'') => (inl e, st'')
          | (inr vs, st'') => (inr (v :: vs), st'')
          end
      end
  end.

(** The manifest invariant of the specification. *)
Definition manifest_ok (m : Manifest) : Prop :=
  match current m with
  | None => True
  | Some c => exists i, In i (versions m) /\ version i = c
  end.

End Versioning.

(** ** [processors/dedup.py] *)

Module Dedup.
Import Py Jsonl.

(** The two libraries the index is built on, by their interface:
    [xxhash.xxh64(b).hexdigest()] and, from [datasketch], [MinHash] with
    [update] and [MinHashLSH] with [insert] and [query].  [lsh_insert]
    gives [None] where the library raises [ValueError] because the key
    is already there. *)
Class Sketch : Type := mkSketch {
  xxh64_hexdigest : string -> string;
  MinHash : Type;
  minhash_new : nat -> MinHash;
  minhash_update : string -> MinHash -> MinHash;
  MinHashLSH : Type;
  lsh_new : float -> nat -> MinHashLSH;
  lsh_insert : string -> MinHash -> MinHashLSH -> option MinHashLSH;
  lsh_query : MinHash -> MinHashLSH -> list string
}.

Record DedupStats : Type := mkDedupStats {
  total_input : nat;
  exact_dupes : nat;
  near_dupes : nat;
  unique : nat
}.

Section Index.
Context `{Sketch}.

Record DedupIndex : Type := mkDedupIndex {
  num_perm : nat;
  shingle_size : nat;
  exact_hashes : gset string;
  lsh : MinHashLSH;
  minhashes : gmap string (MinHash * nat);
  _counter : nat
}.

(** [DedupIndex(num_perm, lsh_threshold, shingle_size)]. *)
Definition new (perm : nat) (lsh_threshold : float) (shingle : nat) : DedupIndex :=
  {| num_perm := perm;
     shingle_size := shingle;
     exact_hashes := ∅;
     lsh := lsh_new lsh_threshold perm;
     minhashes := ∅;
     _counter := 0 |}.

(** [_make_minhash(text)]: one [update] per character n-gram. *)
Definition _make_minhash (text : string) (idx : DedupIndex) : MinHash :=
  fold_left
    (fun m i => minhash_update (slice i (shingle_size idx) text) m)
    (seq 0 (String.length text + 1 - shingle_size idx))
    (minhash_new (num_perm idx)).

(** [content.encode()]: only a [str] has the method. *)
Definition encode (content : value) : res string :=
  match content with
  | VStr s => ret s
  | _ => raise AttributeError
  end.

(** [_add_to_index(content, key)]. *)
Definition _add_to_index (content : value) (key : option string)
    (idx : DedupIndex) : res unit * DedupIndex :=
  match encode content with
  | inl e => (inl e, idx)
  | inr text =>
      let h := xxh64_hexdigest text in
      let hashes := {[h]} ∪ exact_hashes idx in
      let key' :=
        match key with
        | Some k => k
        | None => ("rec_" ++ str_N (N.of_nat (_counter idx)))%string
        end in
      let counter' :=
        match key with
        | Some _ => _counter idx
        | None => S (_counter idx)
        end in
      let mh := _make_minhash text idx in
      match lsh_insert key' mh (lsh idx) with
      | Some lsh' =>
          (inr tt,
           {| num_perm := num_perm idx;
              shingle_size := shingle_size idx;
              exact_hashes := hashes;
              lsh := lsh';
              minhashes := <[key' := (mh, String.length text)]> (minhashes idx);
              _counter := counter' |})
      | None =>
          (inr tt,
           {| num_perm := num_perm idx;
              shingle_size := shingle_size idx;
              exact_hashes := hashes;
              lsh := lsh idx;
              minhashes := minhashes idx;
              _counter := counter' |})
      end
  end.

(** [is_duplicate(content)]. *)
Definition is_duplicate (content : value) (idx : DedupIndex)
  : res (bool * string) :=
  let* text := encode content in
  let h := xxh64_hexdigest text in
  if bool_decide (h ∈ exact_hashes idx) then ret (true, "exact")
  else
    let mh := _make_minhash text idx in
    match lsh_query mh (lsh idx) with
    | [] => ret (false, "")
    | _ => ret (true, "near")
    end.

Definition count_exact (st : DedupStats) : DedupStats :=
  {| total_input := total_input st; exact_dupes := S (exact_dupes st);
     near_dupes := near_dupes st; unique := unique st |}.

Definition count_near (st : DedupStats) : DedupStats :=
  {| total_input := total_input st; exact_dupes := exact_dupes st;
     near_dupes := S (near_dupes st); unique := unique st |}.

Definition count_unique (st : DedupStats) : DedupStats :=
  {| total_input := total_input st; exact_dupes := exact_dupes st;
     near_dupes := near_dupes st; unique := S (unique st) |}.

(** The loop of [deduplicate_batch], from the state it is in: the list
    [kept] of the records kept so far, the counters and the index. *)
Fixpoint dedup_loop (records : list dict) (content_key : string)
    (kept : list dict) (stats : DedupStats) (idx : DedupIndex)
  : res (list dict * DedupStats) * DedupIndex :=
  match records with
  | [] => (inr (kept, stats), idx)
  | record :: rest =>
      let content := dict_get content_key (VStr "") record in
      if negb (truthy content) then dedup_loop rest content_key kept stats idx
      else
        match is_duplicate content idx with
        | inl e => (inl e, idx)
        | inr (is_dup, reason) =>
            if is_dup && String.eqb reason "exact" then
              dedup_loop rest content_key kept (count_exact stats) idx
            else if is_dup && String.eqb reason "near" then
              dedup_loop rest content_key kept (count_near stats) idx
            else
              match _add_to_index content None idx with
              | (inl e, idx') => (inl e, idx')
              | (inr _, idx') =>
                  dedup_loop rest content_key (kept ++ [record])
                             (count_unique stats) idx'
              end
        end
  end.

(** The content of a record under [content_key], as the loop reads it. *)
Definition content_of (key : string) (record : dict) : value :=
  dict_get key (VStr "") record.

(** The outcome of the loop with one more exact duplicate counted. *)
Definition one_more_exact
    (out : res (list dict * DedupStats) * DedupIndex)
  : res (list dict * DedupStats) * DedupIndex :=
  match out with
  | (inr (kept, stats), idx) => (inr (kept, count_exact stats), idx)
  | (inl e, idx) => (inl e, idx)
  end.

(** The records of a batch whose content is missing or empty. *)
Definition without_content (key : string) (records : list dict) : list dict :=
  List.filter (fun r => negb (truthy (content_of key r))) records.

(** A record is fit for the loop when its content is a string or is
    missing or empty. *)
Definition text_or_nothing (key : string) (r : dict) : Prop :=
  (exists t, content_of key r = VStr t) \/ truthy (content_of key r) = false.

(** [deduplicate_batch(records, content_key)]. *)
Definition deduplicate_batch (records : list dict) (content_key : string)
    (idx : DedupIndex) : res (list dict * DedupStats) * DedupIndex :=
  dedup_loop records content_key []
    {| total_input := List.length records; exact_dupes := 0;
       near_dupes := 0; unique := 0 |} idx.

(** The body of the inner loop of [load_existing] for one line; [loaded]
    is the running count. *)
Definition load_line (line : Line) (loaded : nat) (idx : DedupIndex)
  : res nat * DedupIndex :=
  match (let* record := loads line in
         let* messages := get "messages" (VList []) record in
         let* n := len messages in
         if 3 <=? n then
           let* third := getitem 2 messages in
           let* content := get "content" (VStr "") third in
           ret (Some content)
         else ret None) with
  | inl e => (inl e, idx)
  | inr None => (inr loaded, idx)
  | inr (Some content) =>
      let key := ("existing_" ++ str_N (N.of_nat loaded))%string in
      match _add_to_index content (Some key) idx with
      | (inl e, idx') => (inl e, idx')
      | (inr _, idx') => (inr (S loaded), idx')
      end
  end.

Fixpoint load_lines (lines : list Line) (loaded : nat) (idx : DedupIndex)
  : res nat * DedupIndex :=
  match lines with
  | [] => (inr loaded, idx)
  | line :: rest =>
      match load_line line loaded idx with
      | (inl e, idx') => (inl e, idx')
      | (inr loaded', idx') => load_lines rest loaded' idx'
      end
  end.

(** The inner loop over one file of the directory, if the file exists. *)
Definition load_file (jsonl_file : string) (corpus : gmap string (list Line))
    (loaded : nat) (idx : DedupIndex) : res nat * DedupIndex :=
  match corpus !! jsonl_file with
  | None => (inr loaded, idx)
  | Some lines => load_lines lines loaded idx
  end.

(** A line that holds a chat record: a JSON object whose [messages], if
    present, is a list, and whose third message, if there is one, is an
    object with a string as [content], if it has one. *)
Definition chat_line (line : Line) : Prop :=
  exists d ms,
    line = Json (VDict d)
    /\ dict_get "messages" (VList []) d = VList ms
    /\ (3 <= List.length ms ->
        exists m t, nth_error ms 2 = Some (VDict m)
                    /\ dict_get "content" (VStr "") m = VStr t).

(** [load_existing(training_data_path)] over the files of that
    directory; the number returned is the one the method prints. *)
Definition load_existing (corpus : gmap string (list Line)) (idx : DedupIndex)
  : res nat * DedupIndex :=
  fold_left
    (fun (acc : res nat * DedupIndex) (jsonl_file : string) =>
       match acc with
       | (inl e, idx') => (inl e, idx')
       | (inr loaded, idx') => load_file jsonl_file corpus loaded idx'
       end)
    ["train.jsonl"; "validation.jsonl"]
    (inr 0, idx).

End Index.

(** An instance of the interface in which nothing is approximate: the
    digest of a text is the text, a [MinHash] is the set of the n-grams
    it was updated with, and a query returns the keys whose set has a
    Jaccard similarity with the queried one of at least the threshold.
    (Two sets that are both empty have equal signatures.) *)
Definition jaccard_at_least (threshold : float) (a b : gset string) : bool :=
  let inter := size (a ∩ b) in
  let union := size (a ∪ b) in
  (union =? 0) || PrimFloat.leb threshold (truediv inter union).

#[export] Instance exact_sketch : Sketch :=
  {| xxh64_hexdigest := fun text => text;
     MinHash := gset string;
     minhash_new := fun _ => ∅;
     minhash_update := fun gram m => {[gram]} ∪ m;
     MinHashLSH := float * list (string * gset string);
     lsh_new := fun threshold _ => (threshold, []);
     lsh_insert := fun key m l =>
       if existsb (fun e => String.eqb (fst e) key) (snd l) then None
       else Some (fst l, snd l ++ [(key, m)]);
     lsh_query := fun m l =>
       List.map fst (List.filter (fun e => jaccard_at_least (fst l) (snd e) m) (snd l)) |}.

End Dedup.

(** ** [processors/quality_filter.py] *)

Module QualityFilter.
Import Py.

Record FilterConfig : Type := mkFilterConfig {
  min_content_length : Z;
  min_answer_length : Z;
  max_answer_length : Z;
  max_table_ratio : float;
  min_alpha_ratio : float;
  max_image_artifacts : Z
}.

(** The double that the literal [0.3] denotes. *)
Definition float_0_3 : float := 0x1.3333333333333p-2%float.

(** [FilterConfig()]. *)
Definition default_config : FilterConfig :=
  {| min_content_length := 100;
     min_answer_length := 200;
     max_answer_length := 8000;
     max_table_ratio := float_0_3;
     min_alpha_ratio := float_0_3;
     max_image_artifacts := 2 |}.

(** [re.match(r"^\s*[\d\.]+\s*$", t)] on a stripped text [t]: as [t]
    neither starts nor ends with white space, the whole of it is the
    digits and dots, and there is at least one. *)
Definition section_numbers_only (t : string) : bool :=
  negb (String.eqb t "") &&
  forallb_string (fun c => is_digit c || Ascii.eqb c ".") t.

(** [re.match(r"^[\s\|_\-=]+$", t)] on a stripped text [t]. *)
Definition table_borders_only (t : string) : bool :=
  negb (String.eqb t "") &&
  forallb_string
    (fun c => is_space c || Ascii.eqb c "|" || Ascii.eqb c "_"
              || Ascii.eqb c "-" || Ascii.eqb c "=") t.

(** [min_length or config.min_content_length]. *)
Definition length_threshold (config : FilterConfig) (min_length : option Z) : Z :=
  match min_length with
  | Some n => if (n =? 0)%Z then min_content_length config else n
  | None => min_content_length config
  end.

(** [filter_record(text, config, min_length)]. *)
Definition filter_record (text : string) (config : option FilterConfig)
    (min_length : option Z) : bool * string :=
  let config := default default_config config in
  let n := String.length text in
  if (Z.of_nat n <? length_threshold config min_length)%Z then
    (false, "too_short")
  else if negb (max_answer_length config =? 0)%Z
          && (max_answer_length config <? Z.of_nat n)%Z then
    (false, "too_long")
  else if section_numbers_only (strip text) then
    (false, "section_numbers_only")
  else if table_borders_only (strip text) then
    (false, "table_borders_only")
  else
    let table_chars := count "|" text + count "---" text * 3 + count "===" text * 3 in
    if (0 <? n) && PrimFloat.ltb (max_table_ratio config) (truediv table_chars n) then
      (false, "table_heavy")
    else
      let alpha_count := count_chars is_alpha text in
      if (0 <? n) && PrimFloat.ltb (truediv alpha_count n) (min_alpha_ratio config) then
        (false, "low_alpha")
      else if (max_image_artifacts config <? Z.of_nat (count "<!-- image -->" text))%Z then
        (false, "image_artifacts")
      else (true, "").

End QualityFilter.

(** ** [pipeline/validator.py] *)

Module Validator.
Import Py.

Record ValidationResult : Type := mkValidationResult {
  passed : bool;
  total_records : nat;
  format_errors : list string;
  quality_warnings : list string;
  comparison_notes : list string;
  stats : gmap string value
}.

(** The fields that [DataValidator.__init__] reads from its config. *)
Record DataValidator : Type := mkDataValidator {
  min_records : nat;
  max_quality_drop : nat;
  min_avg_length : nat;
  max_avg_length : nat;
  required_system_prompt_substring : string
}.

(** [DataValidator()]: every field at its default. *)
Definition default_validator : DataValidator :=
  {| min_records := 10;
     max_quality_drop := 5;
     min_avg_length := 200;
     max_avg_length := 5000;
     required_system_prompt_substring := "CMMC" |}.

(** [ValidationResult(total_records=n)]. *)
Definition new_result (n : nat) : ValidationResult :=
  {| passed := true; total_records := n; format_errors := [];
     quality_warnings := []; comparison_notes := []; stats := ∅ |}.

Definition add_format_error (msg : string) (r : ValidationResult) : ValidationResult :=
  {| passed := passed r; total_records := total_records r;
     format_errors := format_errors r ++ [msg];
     quality_warnings := quality_warnings r;
     comparison_notes := comparison_notes r; stats := stats r |}.

Definition add_quality_warning (msg : string) (r : ValidationResult) : ValidationResult :=
  {| passed := passed r; total_records := total_records r;
     format_errors := format_errors r;
     quality_warnings := quality_warnings r ++ [msg];
     comparison_notes := comparison_notes r; stats := stats r |}.

(** [result.stats[key] = v]. *)
Definition set_stat (key : string) (v : value) (r : ValidationResult) : ValidationResult :=
  {| passed := passed r; total_records := total_records r;
     format_errors := format_errors r;
     quality_warnings := quality_warnings r;
     comparison_notes := comparison_notes r;
     stats := <[key := v]> (stats r) |}.

(** One turn of the loop that collects the answer lengths: [None] when
    the record has fewer than three messages. *)
Definition answer_length (record : dict) : res (option nat) :=
  let messages := dict_get "messages" (VList []) record in
  let* n := len messages in
  if 3 <=? n then
    let* third := getitem 2 messages in
    let* content := get "content" (VStr "") third in
    let* k := len content in
    ret (Some k)
  else ret None.

Fixpoint answer_lengths (records : list dict) : res (list nat) :=
  match records with
  | [] => ret []
  | record :: rest =>
      let* o := answer_length record in
      let* ks := answer_lengths rest in
      ret (match o with Some k => k :: ks | None => ks end)
  end.

(** Equality of two values that can be members of a [set]: [True] is
    [1] and [False] is [0]. *)
Definition as_number (v : value) : option Z :=
  match v with
  | VInt z => Some z
  | VBool b => Some (if b then 1 else 0)%Z
  | _ => None
  end.

Definition member_eqb (a b : value) : bool :=
  match a, b with
  | VNone, VNone => true
  | VStr s, VStr t => String.eqb s t
  | _, _ =>
      match as_number a, as_number b with
      | Some x, Some y => (x =? y)%Z
      | _, _ => false
      end
  end.

(** [sources.add(v)]; the set is the list of its members. *)
Definition set_add (v : value) (members : list value) : res (list value) :=
  match v with
  | VList _ | VDict _ => raise TypeError
  | _ => if existsb (member_eqb v) members then ret members
         else ret (members ++ [v])
  end.

Fixpoint collect_sources (records : list dict) (members : list value)
  : res (list value) :=
  match records with
  | [] => ret members
  | record :: rest =>
      let* members' := set_add (dict_get "source" (VStr "unknown") record) members in
      collect_sources rest members'
  end.

Fixpoint insert_by {A} (le : A -> A -> bool) (x : A) (l : list A) : list A :=
  match l with
  | [] => [x]
  | y :: l' => if le x y then x :: l else y :: insert_by le x l'
  end.

Definition sort_by {A} (le : A -> A -> bool) (l : list A) : list A :=
  fold_right (insert_by le) [] l.

Definition as_string (v : value) : option string :=
  match v with
  | VStr s => Some s
  | _ => None
  end.

Fixpoint all_some {A} (l : list (option A)) : option (list A) :=
  match l with
  | [] => Some []
  | Some a :: l' => option_map (cons a) (all_some l')
  | None :: _ => None
  end.

(** [sorted(members)] for the members of a set: strings sort among
    themselves and so do numbers; a list of at most one member needs no
    comparison; any other mixture meets a comparison that raises. *)
Definition sorted (members : list value) : res (list value) :=
  match members with
  | [] | [_] => ret members
  | _ =>
      match all_some (List.map as_string members) with
      | Some _ =>
          ret (sort_by
                 (fun a b => match as_string a, as_string b with
                             | Some s, Some t => String.leb s t
                             | _, _ => true
                             end) members)
      | None =>
          match all_some (List.map as_number members) with
          | Some _ =>
              ret (sort_by
                     (fun a b => match as_number a, as_number b with
                                 | Some x, Some y => (x <=? y)%Z
                                 | _, _ => true
                                 end) members)
          | None => raise TypeError
          end
      end
  end.

Definition list_min (first : nat) (rest : list nat) : nat := fold_left Nat.min rest first.
Definition list_max (first : nat) (rest : list nat) : nat := fold_left Nat.max rest first.

(** The block under [if answer_lengths:]. *)
Definition length_stats (v : DataValidator) (lengths : list nat)
    (r : ValidationResult) : ValidationResult :=
  match lengths with
  | [] => r
  | k :: ks =>
      let avg_len := truediv (list_sum lengths) (List.length lengths) in
      let r := set_stat "avg_answer_length" (VInt (round avg_len)) r in
      let r := set_stat "min_answer_length" (VInt (Z.of_nat (list_min k ks))) r in
      let r := set_stat "max_answer_length" (VInt (Z.of_nat (list_max k ks))) r in
      let r :=
        if PrimFloat.ltb avg_len (float_of_nat (min_avg_length v)) then
          add_quality_warning
            ("Average answer length (" ++ str_Z (round avg_len)
             ++ ") below threshold (" ++ str_N (N.of_nat (min_avg_length v)) ++ ")")%string r
        else r in
      if PrimFloat.ltb (float_of_nat (max_avg_length v)) avg_len then
        add_quality_warning
          ("Average answer length (" ++ str_Z (round avg_len)
           ++ ") above threshold (" ++ str_N (N.of_nat (max_avg_length v)) ++ ")")%string r
      else r
  end.

(** The [source] of a record when it is a string, ["unknown"] when the
    record has none. *)
Definition source_text (record : dict) : string :=
  match dict_get "source" (VStr "unknown") record with
  | VStr s => s
  | _ => ""
  end.

Definition has_text_source (record : dict) : Prop :=
  exists s, dict_get "source" (VStr "unknown") record = VStr s.

(** [_validate_quality(records, result)]: the result object as the
    method leaves it, or the exception that escapes. *)
Definition _validate_quality (v : DataValidator) (records : list dict)
    (result : ValidationResult) : res ValidationResult :=
  if List.length records <? min_records v then
    ret (add_format_error
           ("Too few records: " ++ str_N (N.of_nat (List.length records))
            ++ " < minimum " ++ str_N (N.of_nat (min_records v)))%string result)
  else
    let* lengths := answer_lengths records in
    let result := length_stats v lengths result in
    let* sources := collect_sources records [] in
    let result :=
      set_stat "unique_sources" (VInt (Z.of_nat (List.length sources))) result in
    let* ordered := sorted sources in
    ret (set_stat "source_list" (VList (firstn 20 ordered)) result).

End Validator.

(** ** Sample data *)

Module Samples.
Import Py Jsonl Versioning.

(** [make_sample_records] of the test suite, record [i]. *)
Definition sample_record (i : string) : value :=
  VDict [("messages",
          VList [VDict [("role", VStr "system");
                        ("content", VStr "You are a CMMC expert.")];
                 VDict [("role", VStr "user");
                        ("content", VStr ("Question " ++ i ++ "?")%string)];
                 VDict [("role", VStr "assistant");
                        ("content",
                         VStr ("Answer " ++ i ++ " about CMMC compliance.")%string)]]);
         ("source", VStr ("test_" ++ i)%string)].

(** A store on an empty directory. *)
Definition fresh_store : Store := init None None ∅ ∅.

(** A store whose [versions/] holds a directory [v001] that the manifest
    does not list: the record file was written, the manifest was not. *)
Definition orphan_store : Store :=
  init None None
    {["v001" := {| records_jsonl := Some [Json (sample_record "0")];
                   version_info_json := None |}]} ∅.

Definition info_v001 : VersionInfo :=
  {| version := "v001"; created_at := "2024-01-01T00:00:00+00:00";
     description := "first"; record_count := 2; sources := ["nist_csrc"];
     parent_version := None |}.

Definition info_v002 : VersionInfo :=
  {| version := "v002"; created_at := "2024-01-02T00:00:00+00:00";
     description := "second"; record_count := 1; sources := ["ecfr"];
     parent_version := Some "v001" |}.

Definition manifest_two : Manifest :=
  {| versions := [info_v001; info_v002]; current := Some "v002" |}.

(** Two versions, [v002] current, and a training directory with one
    record and a blank line in [train.jsonl]. *)
Definition two_version_store : Store :=
  init (Some "training") (Some manifest_two)
    {["v001" := {| records_jsonl := Some [Json (sample_record "0");
                                          Json (sample_record "1")];
                   version_info_json := Some info_v001 |};
      "v002" := {| records_jsonl := Some [Json (sample_record "2")];
                   version_info_json := Some info_v002 |}]}
    {["train.jsonl" := [Json (sample_record "old"); Blank]]}.

(** The same two versions, the record file of [v001] ending in a line
    that was cut short. *)
Definition torn_store : Store :=
  init None (Some manifest_two)
    {["v001" := {| records_jsonl := Some [Json (sample_record "0");
                                          Garbage "{'messages': [{'role': "];
                   version_info_json := Some info_v001 |};
      "v002" := {| records_jsonl := Some [Json (sample_record "2")];
                   version_info_json := Some info_v002 |}]} ∅.

(** A manifest whose entries are not in the order of their numbers, as
    a [manifest.json] written by hand can have them. *)
Definition unordered_store : Store :=
  init None
    (Some {| versions :=
               [{| version := "v005"; created_at := "t"; description := "";
                   record_count := 0; sources := []; parent_version := None |};
                {| version := "v002"; created_at := "t"; description := "";
                   record_count := 0; sources := []; parent_version := None |}];
             current := Some "v002" |})
    ∅ ∅.

Definition three_calls : list SnapshotCall :=
  [ {| call_records := [sample_record "0"]; call_description := "a";
       call_sources := None; call_now := "t1" |};
    {| call_records := []; call_description := "b";
       call_sources := Some ["ecfr"]; call_now := "t2" |};
    {| call_records := [sample_record "1"; sample_record "2"];
       call_description := "c"; call_sources := None; call_now := "t3" |} ].

(** A chat record with the given answer and source. *)
Definition chat_dict (answer source : string) : dict :=
  [("messages",
    VList [VDict [("role", VStr "system"); ("content", VStr "system prompt")];
           VDict [("role", VStr "user"); ("content", VStr "question")];
           VDict [("role", VStr "assistant"); ("content", VStr answer)]]);
   ("source", VStr source)].

Definition chat_record (answer : string) : value :=
  VDict (chat_dict answer "test").

Definition answer_1 : string :=
  "Access control limits system access to authorized users.".

Definition answer_2 : string :=
  "Incident response needs an operational handling capability.".

(** A corpus whose [train.jsonl] has a line that is not JSON between two
    records. *)
Definition broken_corpus : gmap string (list Line) :=
  {["train.jsonl" := [Json (chat_record answer_1);
                      Garbage "not json";
                      Json (chat_record answer_2)]]}.

(** The same corpus without the bad line, and a validation file. *)
Definition sound_corpus : gmap string (list Line) :=
  {["train.jsonl" := [Json (chat_record answer_1); Json (chat_record answer_2)];
    "validation.jsonl" := [Json (VDict [("messages", VList [])])]]}.

(** A validator that asks for two records at least. *)
Definition small_validator : Validator.DataValidator :=
  {| Validator.min_records := 2;
     Validator.max_quality_drop := 5;
     Validator.min_avg_length := 200;
     Validator.max_avg_length := 5000;
     Validator.required_system_prompt_substring := "CMMC" |}.

Definition three_chats : list dict :=
  [chat_dict answer_1 "nist_csrc"; chat_dict answer_2 "ecfr";
   chat_dict answer_1 "nist_csrc"].

(** [s * n]. *)
Fixpoint times (s : string) (n : nat) : string :=
  match n with
  | O => ""
  | S k => (s ++ times s k)%string
  end.

(** The line feed. *)
Definition lf : string := String (ascii_of_nat 10) "".

(** The texts of [tests/test_quality_filter.py]. *)
Definition good_text : string :=
  times "This is a comprehensive explanation of CMMC Level 2 requirements " 5.

Definition digits_text : string := times "12345 67890 " 50.

Definition borders_text : string := times ("|---|---|---|" ++ lf) 20.

Definition table_text : string :=
  times ("| col1 | col2 | col3 |" ++ lf ++ "|---|---|---|" ++ lf) 20.

Definition custom_config : QualityFilter.FilterConfig :=
  {| QualityFilter.min_content_length := 50;
     QualityFilter.min_answer_length := 200;
     QualityFilter.max_answer_length := 8000;
     QualityFilter.max_table_ratio := QualityFilter.float_0_3;
     QualityFilter.min_alpha_ratio := 0x1.999999999999ap-4%float;
     QualityFilter.max_image_artifacts := 2 |}.

(** The batch of [test_batch_dedup]. *)
Definition dedup_batch : list dict :=
  [ [("text", VStr "Unique content about CMMC compliance requirements and assessment procedures.")];
    [("text", VStr "Unique content about CMMC compliance requirements and assessment procedures.")];
    [("text", VStr "Different content about NIST SP 800-171 security controls and implementation guidance.")] ].

(** The two texts of [test_near_duplicate_detection], which the test
    suite asserts to be near-duplicates at the threshold 0.8. *)
Definition near_text_1 : string :=
  "CMMC Level 2 requires organizations to implement 110 security controls based on NIST SP 800-171. These controls cover access control, awareness training, audit accountability, and more.".

Definition near_text_2 : string :=
  "CMMC Level 2 requires organizations to implement 110 security controls based on NIST SP 800-171. These controls cover access control, awareness training, audit and accountability, and more areas.".

Definition text_record (t : string) : dict := [("text", VStr t)].

(** The double that the literal [0.8] denotes. *)
Definition float_0_8 : float := 0x1.999999999999ap-1%float.

(** [DedupIndex()] over the exact instance of the libraries. *)
Definition empty_index : @Dedup.DedupIndex Dedup.exact_sketch :=
  @Dedup.new Dedup.exact_sketch 128 float_0_8 5.

End Samples.

(** ** [pipeline/versioning.py]: comparing two versions *)

Module VersionDiff.
Import Py Jsonl Versioning.

(** The dict that [diff_versions] returns.  [new_sources] and
    [removed_sources] are lists made from sets: their members matter,
    the order Python gives them does not, and the model lists them in
    the order in which the records brought them. *)
Record Diff : Type := mkDiff {
  diff_version_a : string;
  diff_version_b : string;
  records_a : nat;
  records_b : nat;
  delta : Z;
  new_sources : list value;
  removed_sources : list value
}.

(** The loop that fills [sources_a] (or [sources_b]): the [source] of
    every record with three messages or more. *)
Fixpoint version_sources (records : list value) (members : list value)
  : res (list value) :=
  match records with
  | [] => ret members
  | r :: rest =>
      let* msgs := get "messages" (VList []) r in
      let* n := len msgs in
      if 3 <=? n then
        let* src := get "source" (VStr "") r in
        let* members' := Validator.set_add src members in
        version_sources rest members'
      else version_sources rest members
  end.

(** [s - t] on two sets. *)
Definition set_difference (s t : list value) : list value :=
  List.filter (fun x => negb (existsb (Validator.member_eqb x) t)) s.

(** [diff_versions(version_a, version_b)]. *)
Definition diff_versions (a b : string) (st : Store) : res Diff :=
  let* recs_a := _load_version_records a st in
  let* recs_b := _load_version_records b st in
  let* sources_a := version_sources recs_a [] in
  let* sources_b := version_sources recs_b [] in
  ret {| diff_version_a := a;
         diff_version_b := b;
         records_a := List.length recs_a;
         records_b := List.length recs_b;
         delta := (Z.of_nat (List.length recs_b) - Z.of_nat (List.length recs_a))%Z;
         new_sources := set_difference sources_b sources_a;
         removed_sources := set_difference sources_a sources_b |}.


(** The ids of the manifest, in order. *)
Definition version_ids (st : Store) : list string :=
  List.map version (versions (manifest st)).

(** A new [VersionManager] over the files that [st] leaves on disk. *)
Definition reopen (st : Store) : Store :=
  init (training_data_dir st) (manifest_json st) (version_dirs st)
       (training_files st).

End VersionDiff.

(** ** [processors/dedup.py]: the index on disk *)

Module IndexFile.
Import Py Dedup.

Section WithSketch.
Context `{Sketch}.

(** [save_index(path)]: the file gets the JSON array of the hashes, in
    the order in which Python lists the set.  [files] maps a path to the
    array that the file at this path holds. *)
Definition save_index (path : string) (idx : DedupIndex)
    (files : gmap string (list string)) : gmap string (list string) :=
  <[path := elements (exact_hashes idx)]> files.

(** [load_index(path)]: the set of hashes is replaced by the one read;
    nothing happens when the file does not exist. *)
Definition load_index (path : string) (files : gmap string (list string))
    (idx : DedupIndex) : DedupIndex :=
  match files !! path with
  | Some hashes =>
      {| num_perm := num_perm idx;
         shingle_size := shingle_size idx;
         exact_hashes := list_to_set hashes;
         lsh := lsh idx;
         minhashes := minhashes idx;
         _counter := _counter idx |}
  | None => idx
  end.

(** The text of the answer that [load_existing] indexes for a line, when
    the line holds a record with three messages or more. *)
Definition indexed_text (line : Jsonl.Line) : option string :=
  match line with
  | Jsonl.Json (VDict d) =>
      match dict_get "messages" (VList []) d with
      | VList ms =>
          if 3 <=? List.length ms then
            match nth_error ms 2 with
            | Some (VDict m) =>
                match dict_get "content" (VStr "") m with
                | VStr t => Some t
                | _ => None
                end
            | _ => None
            end
          else None
      | _ => None
      end
  | _ => None
  end.

(** [n] more exact duplicates counted. *)
Definition more_exact (n : nat) (stats : DedupStats) : DedupStats :=
  {| total_input := total_input stats;
     exact_dupes := n + exact_dupes stats;
     near_dupes := near_dupes stats;
     unique := unique stats |}.

(** The record has a non-empty text whose hash is in the index. *)
Definition known_text (key : string) (idx : DedupIndex) (r : dict) : Prop :=
  exists t : string,
    content_of key r = VStr t /\ t <> ""
    /\ xxh64_hexdigest t ∈ exact_hashes idx.

(** The lines of a file of the corpus, none when the file is absent. *)
Definition corpus_lines (name : string) (corpus : gmap string (list Jsonl.Line))
  : list Jsonl.Line :=
  default [] (corpus !! name).

End WithSketch.
End IndexFile.

(** ** [processors/quality_filter.py]: batches *)

Module FilterBatch.
Import Py QualityFilter.

Record FilterStats : Type := mkFilterStats {
  total : nat;
  passed : nat;
  rejected_too_short : nat;
  rejected_too_long : nat;
  rejected_table_heavy : nat;
  rejected_low_alpha : nat;
  rejected_section_numbers_only : nat;
  rejected_table_borders_only : nat;
  rejected_image_artifacts : nat
}.

(** [FilterStats()]. *)
Definition no_stats : FilterStats :=
  {| total := 0; passed := 0; rejected_too_short := 0; rejected_too_long := 0;
     rejected_table_heavy := 0; rejected_low_alpha := 0;
     rejected_section_numbers_only := 0; rejected_table_borders_only := 0;
     rejected_image_artifacts := 0 |}.

(** [filter_record(text, config, min_length)] where [text] is whatever
    the record holds.  A list or a dict has a length, so it can be too
    short or too long, and has no [strip]; anything else but a string
    has no length. *)
Definition filter_record_value (text : value) (config : option FilterConfig)
    (min_length : option Z) : res (bool * string) :=
  match text with
  | VStr s => ret (filter_record s config min_length)
  | VList _ | VDict _ =>
      let* n := len text in
      let config := default default_config config in
      if (Z.of_nat n <? length_threshold config min_length)%Z then
        ret (false, "too_short")
      else if negb (max_answer_length config =? 0)%Z
              && (max_answer_length config <? Z.of_nat n)%Z then
        ret (false, "too_long")
      else raise AttributeError
  | _ => raise TypeError
  end.

(** [stats.total += 1]. *)
Definition count_total (s : FilterStats) : FilterStats :=
  {| total := S (total s); passed := passed s;
     rejected_too_short := rejected_too_short s;
     rejected_too_long := rejected_too_long s;
     rejected_table_heavy := rejected_table_heavy s;
     rejected_low_alpha := rejected_low_alpha s;
     rejected_section_numbers_only := rejected_section_numbers_only s;
     rejected_table_borders_only := rejected_table_borders_only s;
     rejected_image_artifacts := rejected_image_artifacts s |}.

(** [stats.passed += 1]. *)
Definition count_passed (s : FilterStats) : FilterStats :=
  {| total := total s; passed := S (passed s);
     rejected_too_short := rejected_too_short s;
     rejected_too_long := rejected_too_long s;
     rejected_table_heavy := rejected_table_heavy s;
     rejected_low_alpha := rejected_low_alpha s;
     rejected_section_numbers_only := rejected_section_numbers_only s;
     rejected_table_borders_only := rejected_table_borders_only s;
     rejected_image_artifacts := rejected_image_artifacts s |}.

(** [setattr(stats, f"rejected_{reason}", ... + 1)] if [stats] has the
    attribute. *)
Definition count_rejected (reason : string) (s : FilterStats) : FilterStats :=
  if String.eqb reason "too_short" then
    {| total := total s; passed := passed s;
       rejected_too_short := S (rejected_too_short s);
       rejected_too_long := rejected_too_long s;
       rejected_table_heavy := rejected_table_heavy s;
       rejected_low_alpha := rejected_low_alpha s;
       rejected_section_numbers_only := rejected_section_numbers_only s;
       rejected_table_borders_only := rejected_table_borders_only s;
       rejected_image_artifacts := rejected_image_artifacts s |}
  else if String.eqb reason "too_long" then
    {| total := total s; passed := passed s;
       rejected_too_short := rejected_too_short s;
       rejected_too_long := S (rejected_too_long s);
       rejected_table_heavy := rejected_table_heavy s;
       rejected_low_alpha := rejected_low_alpha s;
       rejected_section_numbers_only := rejected_section_numbers_only s;
       rejected_table_borders_only := rejected_table_borders_only s;
       rejected_image_artifacts := rejected_image_artifacts s |}
  else if String.eqb reason "table_heavy" then
    {| total := total s; passed := passed s;
       rejected_too_short := rejected_too_short s;
       rejected_too_long := rejected_too_long s;
       rejected_table_heavy := S (rejected_table_heavy s);
       rejected_low_alpha := rejected_low_alpha s;
       rejected_section_numbers_only := rejected_section_numbers_only s;
       rejected_table_borders_only := rejected_table_borders_only s;
       rejected_image_artifacts := rejected_image_artifacts s |}
  else if String.eqb reason "low_alpha" then
    {| total := total s; passed := passed s;
       rejected_too_short := rejected_too_short s;
       rejected_too_long := rejected_too_long s;
       rejected_table_heavy := rejected_table_heavy s;
       rejected_low_alpha := S (rejected_low_alpha s);
       rejected_section_numbers_only := rejected_section_numbers_only s;
       rejected_table_borders_only := rejected_table_borders_only s;
       rejected_image_artifacts := rejected_image_artifacts s |}
  else if String.eqb reason "section_numbers_only" then
    {| total := total s; passed := passed s;
       rejected_too_short := rejected_too_short s;
       rejected_too_long := rejected_too_long s;
       rejected_table_heavy := rejected_table_heavy s;
       rejected_low_alpha := rejected_low_alpha s;
       rejected_section_numbers_only := S (rejected_section_numbers_only s);
       rejected_table_borders_only := rejected_table_borders_only s;
       rejected_image_artifacts := rejected_image_artifacts s |}
  else if String.eqb reason "table_borders_only" then
    {| total := total s; passed := passed s;
       rejected_too_short := rejected_too_short s;
       rejected_too_long := rejected_too_long s;
       rejected_table_heavy := rejected_table_heavy s;
       rejected_low_alpha := rejected_low_alpha s;
       rejected_section_numbers_only := rejected_section_numbers_only s;
       rejected_table_borders_only := S (rejected_table_borders_only s);
       rejected_image_artifacts := rejected_image_artifacts s |}
  else if String.eqb reason "image_artifacts" then
    {| total := total s; passed := passed s;
       rejected_too_short := rejected_too_short s;
       rejected_too_long := rejected_too_long s;
       rejected_table_heavy := rejected_table_heavy s;
       rejected_low_alpha := rejected_low_alpha s;
       rejected_section_numbers_only := rejected_section_numbers_only s;
       rejected_table_borders_only := rejected_table_borders_only s;
       rejected_image_artifacts := S (rejected_image_artifacts s) |}
  else s.

(** The sum of the seven counters of rejections. *)
Definition rejected (s : FilterStats) : nat :=
  rejected_too_short s + rejected_too_long s + rejected_table_heavy s
  + rejected_low_alpha s + rejected_section_numbers_only s
  + rejected_table_borders_only s + rejected_image_artifacts s.

(** The loop of [filter_batch], from the state it is in. *)
Fixpoint filter_loop (records : list dict) (config : FilterConfig)
    (content_key : string) (kept : list dict) (stats : FilterStats)
  : res (list dict * FilterStats) :=
  match records with
  | [] => ret (kept, stats)
  | record :: rest =>
      let stats := count_total stats in
      let text := dict_get content_key (VStr "") record in
      let* verdict := filter_record_value text (Some config) None in
      if fst verdict then
        filter_loop rest config content_key (kept ++ [record]) (count_passed stats)
      else
        filter_loop rest config content_key kept (count_rejected (snd verdict) stats)
  end.

(** [filter_batch(records, config, content_key)]. *)
Definition filter_batch (records : list dict) (config : option FilterConfig)
    (content_key : string) : res (list dict * FilterStats) :=
  filter_loop records (default default_config config) content_key [] no_stats.

(** The seven reasons of a rejection. *)
Definition reasons : list string :=
  ["too_short"; "too_long"; "section_numbers_only"; "table_borders_only";
   "table_heavy"; "low_alpha"; "image_artifacts"].

(** The text of a record is a string, or the record has none. *)
Definition has_text (content_key : string) (record : dict) : Prop :=
  exists s, dict_get content_key (VStr "") record = VStr s.

(** The text of such a record. *)
Definition text_of (content_key : string) (record : dict) : string :=
  match dict_get content_key (VStr "") record with
  | VStr s => s
  | _ => ""
  end.

End FilterBatch.

(** ** [pipeline/runner.py]: the quality step of [run_pipeline] *)

Module Runner.
Import Py QualityFilter FilterBatch.

(** Step 3 of [run_pipeline]: the converted records whose third message
    passes [filter_record] with [min_length = min_answer_length], and the
    number [filter_rejected] of those whose third message does not.  A
    record with fewer than three messages is in neither. *)
Fixpoint quality_step (config : FilterConfig) (all_converted : list value)
    (filtered : list value) (filter_rejected : nat)
  : res (list value * nat) :=
  match all_converted with
  | [] => ret (filtered, filter_rejected)
  | record :: rest =>
      let* messages := get "messages" (VList []) record in
      let* n := len messages in
      if 3 <=? n then
        let* third := getitem 2 messages in
        let* content := get "content" (VStr "") third in
        let* verdict :=
          filter_record_value content (Some config)
                              (Some (min_answer_length config)) in
        if fst verdict then
          quality_step config rest (filtered ++ [record]) filter_rejected
        else quality_step config rest filtered (S filter_rejected)
      else quality_step config rest filtered filter_rejected
  end.

(** The answer of a chat record: the content of its third message. *)
Definition answer_of (record : value) : option string :=
  match record with
  | VDict d =>
      match dict_get "messages" (VList []) d with
      | VList ms =>
          match nth_error ms 2 with
          | Some (VDict m) =>
              match dict_get "content" (VStr "") m with
              | VStr t => Some t
              | _ => None
              end
          | _ => None
          end
      | _ => None
      end
  | _ => None
  end.

(** A record as [convert_batch] makes them: a dict whose [messages] is a
    list, the third message, if there is one, being a dict whose content
    is a string. *)
Definition converted (record : value) : Prop :=
  exists d ms,
    record = VDict d
    /\ dict_get "messages" (VList []) d = VList ms
    /\ (3 <= List.length ms -> exists t, answer_of record = Some t).

(** The record has an answer that [filter_record] accepts under
    [min_length = min_answer_length]. *)
Definition passes (config : FilterConfig) (record : value) : bool :=
  match answer_of record with
  | Some t =>
      fst (filter_record t (Some config) (Some (min_answer_length config)))
  | None => false
  end.

(** The record has an answer that [filter_record] rejects. *)
Definition fails (config : FilterConfig) (record : value) : bool :=
  match answer_of record with
  | Some t =>
      negb (fst (filter_record t (Some config) (Some (min_answer_length config))))
  | None => false
  end.

End Runner.

(** ** [pipeline/validator.py]: the format check and [validate_all] *)

Module ValidatorFormat.
Import Py Validator.

(** The double quote. *)
Definition dquote : ascii := ascii_of_nat 34.

(** The backslash. *)
Definition backslash : ascii := ascii_of_nat 92.

(** [needle in s] on two strings. *)
Fixpoint contains (needle s : string) : bool :=
  String.prefix needle s
  || match s with
     | EmptyString => false
     | String _ r => contains needle r
     end.

Fixpoint has_char (c : ascii) (s : string) : bool :=
  match s with
  | EmptyString => false
  | String a r => Ascii.eqb a c || has_char c r
  end.

Definition hex_digit (n : nat) : ascii :=
  if n <? 10 then ascii_of_nat (48 + n) else ascii_of_nat (87 + n).

(** One character of [repr(s)], [q] being the quote that encloses it. *)
Definition repr_char (q c : ascii) : string :=
  let n := nat_of_ascii c in
  if Ascii.eqb c backslash then String backslash (String backslash "")
  else if Ascii.eqb c q then String backslash (String q "")
  else if n =? 10 then String backslash "n"
  else if n =? 13 then String backslash "r"
  else if n =? 9 then String backslash "t"
  else if (n <? 32) || (n =? 127) then
    String backslash
      (String "x" (String (hex_digit (n / 16)) (String (hex_digit (n mod 16)) "")))
  else String c "".

Fixpoint repr_chars (q : ascii) (s : string) : string :=
  match s with
  | EmptyString => EmptyString
  | String c r => (repr_char q c ++ repr_chars q r)%string
  end.

(** [repr(s)] of a string: in single quotes, unless it has a single and
    no double quote. *)
Definition repr_str (s : string) : string :=
  let q := if has_char "'" s && negb (has_char dquote s) then dquote else "'"%char in
  String q (repr_chars q s ++ String q "")%string.

(** [repr(v)]. *)
Fixpoint repr (v : value) : string :=
  match v with
  | VNone => "None"
  | VBool true => "True"
  | VBool false => "False"
  | VInt z => str_Z z
  | VStr s => repr_str s
  | VList l => ("[" ++ String.concat ", " (List.map repr l) ++ "]")%string
  | VDict d =>
      ("{" ++ String.concat ", "
                (List.map (fun kv => (repr_str (fst kv) ++ ": " ++ repr (snd kv))%string) d)
           ++ "}")%string
  end.

(** [str(v)], which an f-string puts for [{v}]. *)
Definition str (v : value) : string :=
  match v with
  | VStr s => s
  | _ => repr v
  end.

(** [str(n)] of an index or a length. *)
Definition str_nat (n : nat) : string := str_N (N.of_nat n).

(** [actual_role != expected_role], the second being a string. *)
Definition differs (actual_role : value) (expected_role : string) : bool :=
  match actual_role with
  | VStr s => negb (String.eqb s expected_role)
  | _ => true
  end.

(** The loop over [expected_roles], from message [j] on. *)
Fixpoint check_roles (i j : nat) (expected : list string) (messages : list value)
    (result : ValidationResult) : res ValidationResult :=
  match expected, messages with
  | expected_role :: expected', msg :: messages' =>
      let* actual_role := get "role" (VStr "") msg in
      let result :=
        if differs actual_role expected_role then
          add_format_error
            ("Record " ++ str_nat i ++ ": message " ++ str_nat j
             ++ " role is '" ++ str actual_role ++ "', expected '"
             ++ expected_role ++ "'")
            result
        else result in
      check_roles i (S j) expected' messages' result
  | _, _ => ret result
  end.

(** [not content or not content.strip()]. *)
Definition is_empty_content (content : value) : res bool :=
  if negb (truthy content) then ret true
  else match content with
       | VStr s => ret (String.eqb (strip s) "")
       | _ => raise AttributeError
       end.

(** The loop over the contents of the messages, from message [j] on. *)
Fixpoint check_contents (i j : nat) (messages : list value)
    (result : ValidationResult) : res ValidationResult :=
  match messages with
  | [] => ret result
  | msg :: messages' =>
      let* content := get "content" (VStr "") msg in
      let* empty := is_empty_content content in
      let result :=
        if empty then
          add_format_error
            ("Record " ++ str_nat i ++ ": message " ++ str_nat j
             ++ " has empty content") result
        else result in
      check_contents i (S j) messages' result
  end.

(** [needle not in v]. *)
Definition not_in (needle : string) (v : value) : res bool :=
  match v with
  | VStr s => ret (negb (contains needle s))
  | VList l => ret (negb (existsb (member_eqb (VStr needle)) l))
  | VDict d => ret (negb (existsb (fun kv => String.eqb (fst kv) needle) d))
  | _ => raise TypeError
  end.

(** The body of the loop of [_validate_format] for record [i]. *)
Definition check_record (v : DataValidator) (i : nat) (record : dict)
    (result : ValidationResult) : res ValidationResult :=
  match dict_get "messages" VNone record with
  | VList messages =>
      if List.length messages <? 3 then
        ret (add_format_error
               ("Record " ++ str_nat i ++ ": needs >= 3 messages, got "
                ++ str_nat (List.length messages)) result)
      else
        let* result := check_roles i 0 ["system"; "user"; "assistant"] messages result in
        let* result := check_contents i 0 messages result in
        let* first := getitem 0 (VList messages) in
        let* system_content := get "content" (VStr "") first in
        let* missing := not_in (required_system_prompt_substring v) system_content in
        let result :=
          if missing then
            add_quality_warning
              ("Record " ++ str_nat i ++ ": system prompt missing '"
               ++ required_system_prompt_substring v ++ "'") result
          else result in
        if negb (truthy (dict_get "source" VNone record)) then
          ret (add_quality_warning
                 ("Record " ++ str_nat i ++ ": missing 'source' field") result)
        else ret result
  | _ =>
      ret (add_format_error
             ("Record " ++ str_nat i ++ ": 'messages' is not a list") result)
  end.

(** [_validate_format(records, result)], from record [i] on. *)
Fixpoint validate_format_from (v : DataValidator) (i : nat) (records : list dict)
    (result : ValidationResult) : res ValidationResult :=
  match records with
  | [] => ret result
  | record :: rest =>
      let* result := check_record v i record result in
      validate_format_from v (S i) rest result
  end.

Definition _validate_format (v : DataValidator) (records : list dict)
    (result : ValidationResult) : res ValidationResult :=
  validate_format_from v 0 records result.

(** [result.passed = len(result.format_errors) == 0]. *)
Definition set_passed (result : ValidationResult) : ValidationResult :=
  {| passed := match format_errors result with [] => true | _ => false end;
     total_records := total_records result;
     format_errors := format_errors result;
     quality_warnings := quality_warnings result;
     comparison_notes := comparison_notes result;
     stats := stats result |}.

(** [validate_all(records)], called without [existing_path]. *)
Definition validate_all (v : DataValidator) (records : list dict)
  : res ValidationResult :=
  let result := new_result (List.length records) in
  let* result := _validate_format v records result in
  let* result := _validate_quality v records result in
  ret (set_passed result).

(** [later] is [earlier] with more format errors and quality warnings,
    and nothing else changed. *)
Definition extends (earlier later : ValidationResult) : Prop :=
  (exists errors, format_errors later = format_errors earlier ++ errors)
  /\ (exists warnings,
        quality_warnings later = quality_warnings earlier ++ warnings)
  /\ stats later = stats earlier
  /\ total_records later = total_records earlier
  /\ comparison_notes later = comparison_notes earlier
  /\ passed later = passed earlier.

(** A message with the given role and a content that is a string with
    more than white space in it. *)
Definition sound_message (role : string) (msg : value) : Prop :=
  exists m content,
    msg = VDict m
    /\ dict_get "role" (VStr "") m = VStr role
    /\ dict_get "content" (VStr "") m = VStr content
    /\ strip content <> "".

(** A message whose content is a string with more than white space in
    it. *)
Definition filled_message (msg : value) : Prop :=
  exists m content,
    msg = VDict m
    /\ dict_get "content" (VStr "") m = VStr content
    /\ strip content <> "".

(** A record in the chat format that the validator asks for. *)
Definition sound_record (v : DataValidator) (record : dict) : Prop :=
  exists m0 m1 m2 more,
    dict_get "messages" VNone record = VList (m0 :: m1 :: m2 :: more)
    /\ sound_message "system" m0
    /\ sound_message "user" m1
    /\ sound_message "assistant" m2
    /\ Forall filled_message more
    /\ (exists m content,
          m0 = VDict m /\ dict_get "content" (VStr "") m = VStr content
          /\ contains (required_system_prompt_substring v) content = true)
    /\ truthy (dict_get "source" VNone record) = true.

End ValidatorFormat.

(** ** More sample data *)

Module MoreSamples.
Import Py.

(** [make_valid_record] of [tests/test_validator.py], with an answer and
    a source. *)
Definition sound_chat (answer source : string) : dict :=
  [("messages",
    VList [VDict [("role", VStr "system");
                  ("content", VStr "You are a CMMC and cybersecurity compliance expert.")];
           VDict [("role", VStr "user"); ("content", VStr "What is CMMC?")];
           VDict [("role", VStr "assistant"); ("content", VStr answer)]]);
   ("source", VStr source)].

Definition three_sound : list dict :=
  [sound_chat Samples.answer_1 "nist_csrc"; sound_chat Samples.answer_2 "ecfr";
   sound_chat Samples.answer_1 "nist_csrc"].

End MoreSamples.

(** * Properties *)

(** ** Facts about the Python primitives *)

Module PyFacts.
Import Py.

Example int_v042 : Py.int (Py.lstrip (Ascii.eqb "v") "v042") = inr 42%Z.
Proof. reflexivity. Qed.

Example int_spaces : Py.int " -1_0 " = inr (-10)%Z.
Proof. reflexivity. Qed.

Example int_bad : Py.int "1__0" = inl (Py.ValueError "invalid literal for int() with base 10").
Proof. reflexivity. Qed.

Example format_7 : Py.format_03d 7 = "007".
Proof. reflexivity. Qed.

Example format_1234 : Py.format_03d 1234 = "1234".
Proof. reflexivity. Qed.

Example format_neg : Py.format_03d (-6) = "-06".
Proof. reflexivity. Qed.

Lemma digit_not_space (c : ascii) : is_digit c = true -> is_space c = false.
Proof.
  unfold is_digit, is_space. intros Hd.
  apply andb_true_iff in Hd as [Hlo Hhi].
  apply Nat.leb_le in Hlo. apply Nat.leb_le in Hhi.
  apply orb_false_iff; split; apply andb_false_iff.
  - right. apply Nat.leb_gt. lia.
  - right. apply Nat.leb_gt. lia.
Qed.

Lemma all_digits_cons c r :
  all_digits (String c r) <-> is_digit c = true /\ all_digits r.
Proof. unfold all_digits; simpl. apply andb_true_iff. Qed.

Lemma rstrip_digits s : all_digits s -> rstrip is_space s = s.
Proof.
  induction s as [|c r IH]; [reflexivity|].
  intros [Hc Hr]%all_digits_cons. simpl. rewrite (IH Hr).
  destruct r; [now rewrite (digit_not_space _ Hc)|reflexivity].
Qed.

Lemma lstrip_digits s : all_digits s -> lstrip is_space s = s.
Proof.
  destruct s as [|c r]; [reflexivity|].
  intros [Hc _]%all_digits_cons. simpl. now rewrite (digit_not_space _ Hc).
Qed.

Lemma strip_digits s : all_digits s -> strip s = s.
Proof.
  intros Hs. unfold strip. rewrite (lstrip_digits _ Hs). now apply rstrip_digits.
Qed.

(** On a non-empty string of digits, [int] is the value of the digits. *)
Lemma int_digits s n :
  all_digits s -> digits_val 0 false s = Some n -> int s = inr (Z.of_N n).
Proof.
  intros Hs Hv. unfold int. rewrite (strip_digits _ Hs).
  destruct s as [|c r]; [discriminate|].
  apply all_digits_cons in Hs as [Hc _].
  destruct c as [[] [] [] [] [] [] [] []]; try discriminate Hc;
    now rewrite Hv.
Qed.

Lemma all_digits_uint d : all_digits (NilEmpty.string_of_uint d).
Proof. induction d; simpl; try reflexivity; apply all_digits_cons; now split. Qed.

Lemma all_digits_str_N n : all_digits (str_N n).
Proof.
  unfold str_N, NilZero.string_of_uint.
  destruct (N.to_uint n) eqn:E; try reflexivity; rewrite <- E;
    apply all_digits_uint.
Qed.

Lemma digits_val_uint d acc seen :
  d <> Nil ->
  digits_val acc seen (NilEmpty.string_of_uint d)
  = Some (acc * 10 ^ Unsigned.usize d + Unsigned.of_lu (Decimal.rev d))%N.
Proof.
  revert acc seen.
  induction d as [|d IH|d IH|d IH|d IH|d IH|d IH|d IH|d IH|d IH|d IH];
    intros acc seen Hd; [congruence| ..];
    cbn [NilEmpty.string_of_uint digits_val];
    change (is_digit _) with true; cbn iota;
    match goal with
    | |- context [digit_val ?c] =>
        let v := eval vm_compute in (digit_val c) in
        change (digit_val c) with v
    end;
    (destruct (uint_eq_dec d Nil) as [->|Hn];
     [ cbn [NilEmpty.string_of_uint digits_val Unsigned.usize Unsigned.of_lu
            Decimal.rev revapp];
       rewrite N.pow_succ_r', N.pow_0_r; f_equal; lia
     | rewrite IH by exact Hn;
       f_equal; unfold Decimal.rev at 2; cbn [revapp];
       rewrite Unsigned.of_lu_revapp; cbn [Unsigned.usize Unsigned.of_lu];
       rewrite N.pow_succ_r'; fold (Decimal.rev d); lia ]).
Qed.

(** Printing a natural number and reading the digits back. *)
Lemma digits_val_str_N n seen : digits_val 0 seen (str_N n) = Some n.
Proof.
  unfold str_N, NilZero.string_of_uint.
  destruct (N.to_uint n) eqn:E;
    try (rewrite <- E, digits_val_uint by (rewrite E; discriminate);
         rewrite <- Unsigned.of_uint_alt;
         change (Pos.of_uint (N.to_uint n)) with (N.of_uint (N.to_uint n));
         rewrite DecimalN.Unsigned.of_to; f_equal; lia).
  pose proof (DecimalN.Unsigned.of_to n) as Hn. rewrite E in Hn.
  cbn in Hn. subst n. reflexivity.
Qed.

Lemma str_N_nonempty n : str_N n <> "".
Proof.
  intros E. pose proof (digits_val_str_N n false) as H. now rewrite E in H.
Qed.

Lemma zeros_S k : zeros (S k) = String "0" (zeros k).
Proof.
  unfold zeros. cbn [List.repeat String.concat].
  destruct (List.repeat "0" k) eqn:E; [|reflexivity].
  destruct k; [reflexivity|discriminate].
Qed.

Lemma all_digits_app s t : all_digits s -> all_digits t -> all_digits (s ++ t).
Proof.
  induction s as [|c r IH]; [easy|].
  intros [Hc Hr]%all_digits_cons Ht. cbn. apply all_digits_cons. auto.
Qed.

Lemma all_digits_zeros k : all_digits (zeros k).
Proof.
  induction k as [|k IH]; [reflexivity|].
  rewrite zeros_S. apply all_digits_cons. now split.
Qed.

Lemma all_digits_zfill w s : all_digits s -> all_digits (zfill w s).
Proof. intros Hs. apply all_digits_app; [apply all_digits_zeros|exact Hs]. Qed.

Lemma zfill_nonempty w s : s <> "" -> zfill w s <> "".
Proof.
  unfold zfill. fold (zeros (w - String.length s)).
  destruct (w - String.length s) as [|k]; [easy|].
  rewrite zeros_S. discriminate.
Qed.

Lemma digits_val_zfill w n seen :
  digits_val 0 seen (zfill w (str_N n)) = Some n.
Proof.
  unfold zfill. fold (zeros (w - String.length (str_N n))).
  generalize (w - String.length (str_N n)) as k. intros k. revert seen.
  induction k as [|k IH]; intros seen.
  - apply digits_val_str_N.
  - rewrite zeros_S. cbn. apply IH.
Qed.

(** [int] reads [format(n, "03d")] back as [n]. *)
Lemma int_format_03d (n : N) : int (format_03d (Z.of_N n)) = inr (Z.of_N n).
Proof.
  assert (format_03d (Z.of_N n) = zfill 3 (str_N n)) as ->.
  { unfold format_03d. destruct n; [reflexivity|]. cbn [Z.of_N].
    now rewrite Z2N.inj_pos. }
  apply int_digits.
  - apply all_digits_zfill, all_digits_str_N.
  - apply digits_val_zfill.
Qed.

Lemma format_03d_digits (n : N) :
  exists c r, format_03d (Z.of_N n) = String c r /\ is_digit c = true.
Proof.
  assert (format_03d (Z.of_N n) = zfill 3 (str_N n)) as ->.
  { unfold format_03d. destruct n; [reflexivity|]. cbn [Z.of_N].
    now rewrite Z2N.inj_pos. }
  pose proof (all_digits_zfill 3 _ (all_digits_str_N n)) as Hd.
  pose proof (zfill_nonempty 3 _ (str_N_nonempty n)) as Hne.
  destruct (zfill 3 (str_N n)) as [|c r]; [congruence|].
  apply all_digits_cons in Hd as [Hc _]. eauto.
Qed.

(** [max_int] is the largest element of the list. *)
Lemma max_int_spec (first : Z) (rest : list Z) :
  In (max_int first rest) (first :: rest)
  /\ Forall (fun z => (z <= max_int first rest)%Z) (first :: rest).
Proof.
  unfold max_int. revert first.
  induction rest as [|z rest IH]; intros first; cbn [fold_left].
  - split; [now left|]. repeat constructor. lia.
  - destruct (IH (Z.max first z)) as [Hin Hall].
    apply Forall_cons in Hall as [Hmax Hall]. split.
    + destruct Hin as [Hin|Hin]; [|now right; right].
      rewrite <- Hin.
      destruct (Z.max_spec first z) as [[_ E]|[_ E]]; rewrite E;
        [right; left|left]; reflexivity.
    + repeat (apply Forall_cons; split); [lia|lia|exact Hall].
Qed.

Lemma max_int_upto (a n : nat) :
  max_int (Z.of_nat a) (List.map Z.of_nat (seq (S a) n)) = Z.of_nat (a + n).
Proof.
  unfold max_int. revert a.
  induction n as [|n IH]; intros a; cbn [seq List.map fold_left].
  - f_equal. lia.
  - replace (Z.max (Z.of_nat a) (Z.of_nat (S a))) with (Z.of_nat (S a)) by lia.
    rewrite IH. f_equal. lia.
Qed.

End PyFacts.

(** ** The version store *)

Module VersioningProps.
Import Py Jsonl Versioning PyFacts Samples.

Lemma version_number_version_id (n : nat) :
  version_number (version_id n) = inr (Z.of_nat n).
Proof.
  unfold version_number, version_id.
  rewrite <- nat_N_Z.
  destruct (format_03d_digits (N.of_nat n)) as (c & r & E & Hc).
  pose proof (int_format_03d (N.of_nat n)) as Hint.
  rewrite E in *.
  destruct c as [[] [] [] [] [] [] [] []]; try discriminate Hc; exact Hint.
Qed.

Lemma mapM_version_ids (l : list nat) :
  mapM version_number (List.map version_id l) = inr (List.map Z.of_nat l).
Proof.
  induction l as [|n l IH]; [reflexivity|].
  cbn [List.map mapM]. rewrite version_number_version_id. cbn [bind].
  now rewrite IH.
Qed.

Lemma version_id_1 : version_id 1 = "v001".
Proof. reflexivity. Qed.

(** With the ids [v001 .. v00k] in the manifest, the next id is the
    one numbered [k+1]. *)
Lemma next_version_after (k : nat) (st : Store) :
  List.map version (versions (manifest st)) = List.map version_id (seq 1 k) ->
  _next_version st = inr (version_id (S k)).
Proof.
  intros Hids. unfold _next_version. rewrite Hids.
  destruct k as [|k]; [reflexivity|].
  cbn [seq List.map]. rewrite version_number_version_id, mapM_version_ids.
  cbn [bind ret]. rewrite max_int_upto.
  unfold version_id. do 3 f_equal. lia.
Qed.

Lemma create_snapshot_after (k : nat) records descr srcs now (st : Store) :
  List.map version (versions (manifest st)) = List.map version_id (seq 1 k) ->
  exists st',
    create_snapshot records descr srcs now st = (inr (version_id (S k)), st')
    /\ List.map version (versions (manifest st'))
       = List.map version_id (seq 1 (S k))
    /\ current (manifest st') = Some (version_id (S k)).
Proof.
  intros Hids. unfold create_snapshot. rewrite (next_version_after k st Hids).
  eexists; split; [reflexivity|]. split; [|reflexivity].
  cbn [manifest with_manifest versions].
  rewrite List.map_app, Hids. cbn [List.map version].
  rewrite seq_S, List.map_app. reflexivity.
Qed.

Lemma create_snapshots_after (calls : list SnapshotCall) (k : nat) (st : Store) :
  List.map version (versions (manifest st)) = List.map version_id (seq 1 k) ->
  exists st',
    create_snapshots calls st
    = (inr (List.map version_id (seq (S k) (List.length calls))), st').
Proof.
  revert k st. induction calls as [|c calls IH]; intros k st Hids.
  - eexists; reflexivity.
  - cbn [create_snapshots].
    destruct (create_snapshot_after k (call_records c) (call_description c)
                (call_sources c) (call_now c) st Hids) as (st1 & -> & Hids1 & _).
    destruct (IH (S k) st1 Hids1) as (st2 & ->).
    eexists; reflexivity.
Qed.

(** The next id follows the largest suffix, not the number of entries. *)
Example next_version_after_deletion :
  _next_version
    (init None (Some {| versions := [info_v001;
                                     {| version := "v007"; created_at := "t";
                                        description := ""; record_count := 0;
                                        sources := []; parent_version := None |}];
                        current := Some "v007" |}) ∅ ∅)
  = inr "v008".
Proof. reflexivity. Qed.

(** Three digits are a minimum, not a maximum. *)
Example version_id_1000 : version_id 1000 = "v1000".
Proof. vm_compute. reflexivity. Qed.

(** An entry whose suffix is not a number makes the allocation raise. *)
Example next_version_not_numeric :
  _next_version
    (init None (Some {| versions := [{| version := "snapshot"; created_at := "t";
                                        description := ""; record_count := 0;
                                        sources := []; parent_version := None |}];
                        current := None |}) ∅ ∅)
  = inl (ValueError "invalid literal for int() with base 10").
Proof. reflexivity. Qed.

(** [test_rollback]: the list of versions still has both entries. *)
Example rollback_is_not_destructive :
  list_versions (snd (rollback "v001" two_version_store)) = [info_v001; info_v002].
Proof. reflexivity. Qed.

(** [test_delete_version]. *)
Example delete_other_version :
  List.map version (list_versions (snd (delete_version "v001" two_version_store)))
  = ["v002"]
  /\ version_dirs (snd (delete_version "v001" two_version_store)) !! "v001" = None.
Proof. split; reflexivity. Qed.

Lemma read_write_records (records : list value) :
  read_records (write_records records) = inr records.
Proof.
  induction records as [|r rs IH]; [reflexivity|].
  cbn. unfold write_records in IH. now rewrite IH.
Qed.

Lemma backup_is_not_destination (v : string) : backup_name v <> train_jsonl.
Proof. discriminate. Qed.


Lemma delete_version_keeps (st : Store) (v c : string) :
  c <> v ->
  (exists i, In i (versions (manifest st)) /\ version i = c) ->
  exists i,
    In i (List.filter (fun i => negb (String.eqb (version i) v))
                      (versions (manifest st)))
    /\ version i = c.
Proof.
  intros Hne (i & Hin & Hi). exists i. split; [|exact Hi].
  apply filter_In. split; [exact Hin|].
  apply negb_true_iff, String.eqb_neq. congruence.
Qed.

(** The manifest after [delete_version]: the one before, or the one
    before without the entries of the version. *)
Lemma delete_version_manifest (st : Store) (v : string) :
  manifest (snd (delete_version v st)) = manifest st
  \/ (current (manifest st) <> Some v
      /\ manifest (snd (delete_version v st))
         = {| versions :=
                List.filter (fun i => negb (String.eqb (version i) v))
                            (versions (manifest st));
              current := current (manifest st) |}).
Proof.
  unfold delete_version.
  destruct (decide (current (manifest st) = Some v)) as [|Hne]; [now left|].
  destruct (place v) as [| |name]; cbn [exists_ rmtree];
    match goal with
    | |- context [if ?b then _ else _] => destruct b
    end; cbn; auto.
Qed.

Lemma place_version_name (v : string) :
  is_version_name v = true -> place v = Entry v.
Proof.
  unfold is_version_name, place.
  destruct (String.eqb v "" || String.eqb v ".");
    [rewrite andb_false_r; discriminate|].
  destruct (String.eqb v ".."); [rewrite andb_false_r; discriminate|reflexivity].
Qed.

(** C1 (as amended).  From a state in which [current] is null or the
    version of a manifest entry, [create_snapshot], [delete_version] and
    [merge_to_training] lead to such a state again, and so does a
    [rollback] that raises, which changes nothing.  A [rollback] that
    succeeds leads to such a state exactly when its target is the version
    of a manifest entry: it asks for the target's directory, not for its
    entry. *)
Theorem C1_manifest_invariant (st : Store) :
  manifest_ok (manifest st) ->
  (forall records descr srcs now,
      manifest_ok (manifest (snd (create_snapshot records descr srcs now st))))
  /\ (forall v, manifest_ok (manifest (snd (delete_version v st))))
  /\ (forall v, manifest_ok (manifest (snd (merge_to_training v st))))
  /\ (forall target,
        (forall e, fst (rollback target st) = inl e ->
                   snd (rollback target st) = st)
        /\ (forall records, fst (rollback target st) = inr records ->
              (manifest_ok (manifest (snd (rollback target st)))
               <-> In target (List.map version (versions (manifest st)))))).
Proof.
  intros Hok. repeat split.
  - intros records descr srcs now. unfold create_snapshot.
    destruct (_next_version st) as [e|v]; [exact Hok|].
    cbn. eexists. split; [apply in_or_app; right; left; reflexivity|reflexivity].
  - intros v.
    destruct (delete_version_manifest st v) as [->|[Hne ->]]; [exact Hok|].
    unfold manifest_ok in *. cbn.
    destruct (current (manifest st)) as [c|]; [|exact I].
    apply delete_version_keeps; [congruence|exact Hok].
  - intros v. unfold merge_to_training.
    destruct (training_data_dir st); [|exact Hok].
    destruct (version_or_current v st) as [[|a ver]|]; try exact Hok.
    destruct (_load_version_records (String a ver) st) as [e|[|r rs]];
      try exact Hok.
    destruct (training_files st !! train_jsonl) as [lines|];
      [destruct (read_records lines)|]; exact Hok.
  - intros e. unfold rollback.
    destruct (version_dirs st !! target); [|reflexivity].
    destruct (_load_version_records target st); [reflexivity|discriminate].
  - unfold rollback in *.
    destruct (version_dirs st !! target); [|discriminate].
    destruct (_load_version_records target st); [discriminate|].
    cbn. intros (i & Hin & Hi). apply in_map_iff. eauto.
  - unfold rollback in *.
    destruct (version_dirs st !! target); [|discriminate].
    destruct (_load_version_records target st); [discriminate|].
    cbn. intros (i & Hi & Hin)%in_map_iff. eauto.
Qed.

Lemma C1_manifest_invariant_witness :
  manifest_ok (manifest (snd (create_snapshot [sample_record "3"] "third" None
                                              "t" two_version_store)))
  /\ manifest_ok (manifest (snd (delete_version "v001" two_version_store)))
  /\ manifest_ok (manifest (snd (rollback "v001" two_version_store))).
Proof.
  assert (manifest_ok (manifest two_version_store)) as Hok.
  { exists info_v002. split; [right; left; reflexivity|reflexivity]. }
  destruct (C1_manifest_invariant two_version_store Hok) as (Hc & Hd & _ & Hr).
  split; [apply Hc|]. split; [apply Hd|].
  destruct (Hr "v001") as [_ Hs].
  apply (Hs [sample_record "0"; sample_record "1"]); [reflexivity|].
  left; reflexivity.
Defined.

(** C1, the claim as stated, fails for [rollback]: on a store whose
    [versions/] holds a directory [v001] with no manifest entry, the
    invariant holds, [rollback("v001")] succeeds, and afterwards
    [current] is [v001] while the version list is still empty. *)
Lemma C1_rollback_to_unlisted_directory :
  manifest_ok (manifest orphan_store)
  /\ rollback "v001" orphan_store
     = (inr [sample_record "0"],
        with_manifest {| versions := []; current := Some "v001" |} orphan_store)
  /\ ~ manifest_ok (manifest (snd (rollback "v001" orphan_store))).
Proof.
  split; [exact I|]. split; [reflexivity|].
  intros (i & Hin & _). exact Hin.
Qed.

(** C4.  [delete_version] called with the current version raises
    [ValueError("Cannot delete the current version. Rollback first.")]
    and leaves the store as it was: the manifest in memory and on disk,
    every version directory with its record file, and the training
    files. *)
Theorem C4_delete_current_guard (st : Store) (v : string) :
  current (manifest st) = Some v ->
  delete_version v st
  = (inl (ValueError "Cannot delete the current version. Rollback first."), st).
Proof.
  intros Hcur. unfold delete_version.
  destruct (decide (current (manifest st) = Some v)); [reflexivity|contradiction].
Qed.

Lemma C4_delete_current_guard_witness :
  delete_version "v002" two_version_store
  = (inl (ValueError "Cannot delete the current version. Rollback first."),
     two_version_store)
  /\ is_Some (version_dirs two_version_store !! "v002").
Proof.
  split; [apply (C4_delete_current_guard two_version_store "v002"); reflexivity|].
  eexists; reflexivity.
Defined.







(** What [merge_to_training] does when the destination has no
    [train.jsonl] yet: it writes the version's records and no backup. *)
Lemma merge_without_destination_file (st : Store) (v : option string)
    (dir ver : string) (records : list value) :
  training_data_dir st = Some dir ->
  version_or_current v st = Some ver ->
  ver <> "" ->
  _load_version_records ver st = inr records ->
  records <> [] ->
  training_files st !! train_jsonl = None ->
  merge_to_training v st
  = (inr (dir ++ "/" ++ train_jsonl)%string,
     with_training_files
       (<[train_jsonl := write_records records]> (training_files st)) st).
Proof.
  intros Hdir Hver Hne Hrecs Hnonempty Hold.
  unfold merge_to_training. rewrite Hdir, Hver.
  destruct ver as [|a ver]; [congruence|].
  rewrite Hrecs. destruct records as [|r rs]; [congruence|].
  now rewrite Hold.
Qed.

(** C8.  The next version id is a function of the manifest alone.  It is
    [v001] when the version list is empty; when the list is not empty
    and every entry has a numeric suffix, it is [v] followed by the
    largest suffix plus one, zero-padded to three digits, the largest
    suffix being the suffix of an entry that no suffix of an entry
    exceeds, wherever in the list that entry stands.  Hence
    snapshots created one after the other on a store with an empty
    version list get the ids [v001], [v002], ..., the N-th being
    [f"v{N:03d}"], and none of these calls raises.  A [create_snapshot]
    that is given the id [v] returns it and leaves [current] at [v]; a
    [rollback] whose target directory exists and whose records are read
    leaves [current] at the target. *)
Theorem C8_version_numbering :
  (forall st st', manifest st = manifest st' ->
     _next_version st = _next_version st')
  /\ (forall st, versions (manifest st) = [] -> _next_version st = inr "v001")
  /\ (forall st n ns,
        mapM version_number (List.map version (versions (manifest st)))
        = inr (n :: ns) ->
        exists largest,
          In largest (n :: ns)
          /\ (forall k, In k (n :: ns) -> (k <= largest)%Z)
          /\ _next_version st
             = inr ("v" ++ format_03d (largest + 1)%Z)%string)
  /\ (forall calls st,
        versions (manifest st) = [] ->
        exists st',
          create_snapshots calls st
          = (inr (List.map version_id (seq 1 (List.length calls))), st'))
  /\ (forall records descr srcs now st v,
        _next_version st = inr v ->
        exists st',
          create_snapshot records descr srcs now st = (inr v, st')
          /\ current (manifest st') = Some v)
  /\ (forall target st records,
        is_Some (version_dirs st !! target) ->
        _load_version_records target st = inr records ->
        exists st',
          rollback target st = (inr records, st')
          /\ current (manifest st') = Some target).
Proof.
  repeat split.
  - intros st st' E. unfold _next_version. now rewrite E.
  - intros st E. unfold _next_version. now rewrite E.
  - intros st n ns E. exists (max_int n ns).
    destruct (max_int_spec n ns) as [Hin Hmax].
    split; [exact Hin|]. split.
    + intros k Hk. rewrite Forall_forall in Hmax.
      apply Hmax. now apply list_elem_of_In.
    + unfold _next_version.
      destruct (List.map version (versions (manifest st))) as [|i rest];
        [discriminate|].
      cbn [mapM bind ret] in E |- *.
      destruct (version_number i) as [e|n']; [discriminate|].
      destruct (mapM version_number rest) as [e|ns']; [discriminate|].
      now injection E as -> ->.
  - intros calls st E. apply (create_snapshots_after calls 0 st). now rewrite E.
  - intros records descr srcs now st v E. unfold create_snapshot. rewrite E.
    eexists. split; reflexivity.
  - intros target st records [d Hd] E. unfold rollback. rewrite Hd, E.
    eexists. split; reflexivity.
Qed.

Lemma C8_version_numbering_witness :
  _next_version fresh_store = inr "v001"
  /\ _next_version two_version_store = inr "v003"
  /\ _next_version unordered_store = inr "v006"
  /\ (exists st',
        create_snapshots three_calls fresh_store
        = (inr ["v001"; "v002"; "v003"], st'))
  /\ (exists st',
        rollback "v001" two_version_store
        = (inr [sample_record "0"; sample_record "1"], st')
        /\ current (manifest st') = Some "v001").
Proof.
  destruct C8_version_numbering as (_ & Hempty & Hmax & Hrun & _ & Hroll).
  split; [apply Hempty; reflexivity|].
  split.
  { destruct (Hmax two_version_store 1%Z [2%Z] eq_refl)
      as (largest & Hin & Hle & Hnext).
    assert (largest = 2%Z) as ->; [|exact Hnext].
    specialize (Hle 2%Z ltac:(right; left; reflexivity)).
    destruct Hin as [E|[E|[]]]; lia. }
  split.
  { destruct (Hmax unordered_store 5%Z [2%Z] eq_refl)
      as (largest & Hin & Hle & Hnext).
    assert (largest = 5%Z) as ->; [|exact Hnext].
    specialize (Hle 5%Z ltac:(left; reflexivity)).
    destruct Hin as [E|[E|[]]]; lia. }
  split; [apply (Hrun three_calls fresh_store); reflexivity|].
  apply Hroll; [eexists; reflexivity|reflexivity].
Defined.

End VersioningProps.

(** ** The deduplication index *)

Module DedupProps.
Import Py Jsonl Dedup.

Section WithSketch.
Context `{Sketch}.

Lemma dedup_loop_app (l1 l2 : list dict) key kept stats idx :
  dedup_loop (l1 ++ l2) key kept stats idx
  = match dedup_loop l1 key kept stats idx with
    | (inr (kept', stats'), idx') => dedup_loop l2 key kept' stats' idx'
    | (inl e, idx') => (inl e, idx')
    end.
Proof.
  revert kept stats idx.
  induction l1 as [|r l1 IH]; intros kept stats idx; [reflexivity|].
  cbn [app dedup_loop].
  destruct (negb (truthy (dict_get key (VStr "") r))); [apply IH|].
  destruct (is_duplicate _ idx) as [e|[is_dup reason]]; [reflexivity|].
  destruct (is_dup && String.eqb reason "exact"); [apply IH|].
  destruct (is_dup && String.eqb reason "near"); [apply IH|].
  destruct (_add_to_index _ None idx) as [[e|u] idx1]; [reflexivity|apply IH].
Qed.

Lemma dedup_loop_skip r rest key kept stats idx :
  truthy (content_of key r) = false ->
  dedup_loop (r :: rest) key kept stats idx = dedup_loop rest key kept stats idx.
Proof. unfold content_of. intros E. cbn [dedup_loop]. now rewrite E. Qed.

Lemma truthy_text (t : string) : t <> "" -> truthy (VStr t) = true.
Proof. intros Hne. cbn. apply negb_true_iff, String.eqb_neq, Hne. Qed.

Lemma is_duplicate_known (t : string) idx :
  xxh64_hexdigest t ∈ exact_hashes idx ->
  is_duplicate (VStr t) idx = inr (true, "exact").
Proof.
  intros Hin. unfold is_duplicate. cbn [encode bind ret].
  now rewrite bool_decide_eq_true_2.
Qed.

Lemma dedup_loop_known r rest key kept stats idx (t : string) :
  content_of key r = VStr t -> t <> "" ->
  xxh64_hexdigest t ∈ exact_hashes idx ->
  dedup_loop (r :: rest) key kept stats idx
  = dedup_loop rest key kept (count_exact stats) idx.
Proof.
  unfold content_of. intros E Hne Hin. cbn [dedup_loop]. rewrite E.
  rewrite (truthy_text t Hne). cbn [negb].
  now rewrite (is_duplicate_known t idx Hin).
Qed.

Lemma add_to_index_text (t : string) key idx :
  exists idx',
    _add_to_index (VStr t) key idx = (inr tt, idx')
    /\ exact_hashes idx' = {[xxh64_hexdigest t]} ∪ exact_hashes idx.
Proof.
  unfold _add_to_index. cbn [encode ret].
  destruct (lsh_insert _ _ (lsh idx)); eexists; split; reflexivity.
Qed.

Lemma add_to_index_grows content key idx h :
  h ∈ exact_hashes idx -> h ∈ exact_hashes (snd (_add_to_index content key idx)).
Proof.
  intros Hin. unfold _add_to_index.
  destruct (encode content) as [e|t]; [exact Hin|].
  destruct (lsh_insert _ _ (lsh idx)); cbn; set_solver.
Qed.

Lemma dedup_loop_more_exact l key kept stats idx :
  dedup_loop l key kept (count_exact stats) idx
  = one_more_exact (dedup_loop l key kept stats idx).
Proof.
  revert kept stats idx.
  induction l as [|r l IH]; intros kept stats idx; [reflexivity|].
  cbn [dedup_loop].
  destruct (negb (truthy (dict_get key (VStr "") r))); [apply IH|].
  destruct (is_duplicate _ idx) as [e|[is_dup reason]]; [reflexivity|].
  destruct (is_dup && String.eqb reason "exact"); [apply (IH _ (count_exact stats))|].
  destruct (is_dup && String.eqb reason "near"); [apply (IH _ (count_near stats))|].
  destruct (_add_to_index _ None idx) as [[e|u] idx1]; [reflexivity|].
  apply (IH _ (count_unique stats)).
Qed.

(** The hashes of an index are still there after the loop has run. *)
Lemma dedup_loop_grows l key kept stats idx h :
  h ∈ exact_hashes idx ->
  h ∈ exact_hashes (snd (dedup_loop l key kept stats idx)).
Proof.
  revert kept stats idx.
  induction l as [|r l IH]; intros kept stats idx Hin; [exact Hin|].
  cbn [dedup_loop].
  destruct (negb (truthy (dict_get key (VStr "") r))); [now apply IH|].
  destruct (is_duplicate _ idx) as [e|[is_dup reason]]; [exact Hin|].
  destruct (is_dup && String.eqb reason "exact"); [now apply IH|].
  destruct (is_dup && String.eqb reason "near"); [now apply IH|].
  pose proof (add_to_index_grows (dict_get key (VStr "") r) None idx h Hin) as Hg.
  destruct (_add_to_index _ None idx) as [[e|u] idx1]; [exact Hg|].
  now apply IH.
Qed.

(** The records kept so far stay at the front of the list returned. *)
Lemma dedup_loop_extends l key kept stats idx kept' stats' idx' :
  dedup_loop l key kept stats idx = (inr (kept', stats'), idx') ->
  exists extra, kept' = kept ++ extra.
Proof.
  revert kept stats idx.
  induction l as [|r l IH]; intros kept stats idx.
  - cbn. intros [= <- _ _]. exists []. now rewrite app_nil_r.
  - cbn [dedup_loop].
    destruct (negb (truthy (dict_get key (VStr "") r))); [apply IH|].
    destruct (is_duplicate _ idx) as [e|[is_dup reason]]; [discriminate|].
    destruct (is_dup && String.eqb reason "exact"); [apply IH|].
    destruct (is_dup && String.eqb reason "near"); [apply IH|].
    destruct (_add_to_index _ None idx) as [[e|u] idx1]; [discriminate|].
    intros E. destruct (IH _ _ _ E) as [extra ->].
    exists (r :: extra). now rewrite <- app_assoc.
Qed.


Lemma without_content_cons key r l :
  List.length (without_content key (r :: l))
  = (if truthy (content_of key r) then 0 else 1)
    + List.length (without_content key l).
Proof.
  unfold without_content. cbn [List.filter].
  destruct (truthy (content_of key r)); reflexivity.
Qed.

(** The counters and the list kept move together: every record is kept,
    counted as a duplicate, or has no content. *)
Lemma dedup_loop_accounts l key kept stats idx kept' stats' idx' :
  dedup_loop l key kept stats idx = (inr (kept', stats'), idx') ->
  List.length kept' + unique stats = List.length kept + unique stats'
  /\ total_input stats' = total_input stats
  /\ exact_dupes stats' + near_dupes stats' + unique stats'
     + List.length (without_content key l)
     = exact_dupes stats + near_dupes stats + unique stats + List.length l.
Proof.
  revert kept stats idx.
  induction l as [|r l IH]; intros kept stats idx.
  - cbn. intros [= <- <- _]. lia.
  - rewrite without_content_cons. cbn [dedup_loop List.length].
    fold (content_of key r).
    destruct (truthy (content_of key r)); cbn [negb].
    2:{ intros E. destruct (IH _ _ _ E) as (H1 & H2 & H3). lia. }
    destruct (is_duplicate _ idx) as [e|[is_dup reason]]; [discriminate|].
    destruct (is_dup && String.eqb reason "exact").
    { intros E. destruct (IH _ _ _ E) as (H1 & H2 & H3). cbn in *. lia. }
    destruct (is_dup && String.eqb reason "near").
    { intros E. destruct (IH _ _ _ E) as (H1 & H2 & H3). cbn in *. lia. }
    destruct (_add_to_index _ None idx) as [[e|u] idx1]; [discriminate|].
    intros E. destruct (IH _ _ _ E) as (H1 & H2 & H3).
    rewrite length_app in H1. cbn in *. lia.
Qed.

(** Only records with content are added to the list kept. *)
Lemma dedup_loop_keeps_content l key kept stats idx kept' stats' idx' :
  Forall (fun r => truthy (content_of key r) = true) kept ->
  dedup_loop l key kept stats idx = (inr (kept', stats'), idx') ->
  Forall (fun r => truthy (content_of key r) = true) kept'.
Proof.
  revert kept stats idx.
  induction l as [|r l IH]; intros kept stats idx Hkept.
  - cbn. now intros [= <- _ _].
  - cbn [dedup_loop]. fold (content_of key r).
    destruct (truthy (content_of key r)) eqn:Et; cbn [negb]; [|now apply IH].
    destruct (is_duplicate _ idx) as [e|[is_dup reason]]; [discriminate|].
    destruct (is_dup && String.eqb reason "exact"); [now apply IH|].
    destruct (is_dup && String.eqb reason "near"); [now apply IH|].
    destruct (_add_to_index _ None idx) as [[e|u] idx1]; [discriminate|].
    apply IH. apply Forall_app. split; [exact Hkept|]. now constructor.
Qed.

(** On such records the loop raises nothing. *)
Lemma dedup_loop_returns l key kept stats idx :
  Forall (text_or_nothing key) l ->
  exists kept' stats' idx',
    dedup_loop l key kept stats idx = (inr (kept', stats'), idx').
Proof.
  revert kept stats idx.
  induction l as [|r l IH]; intros kept stats idx Hl.
  - cbn. eauto.
  - apply Forall_cons in Hl as [Hr Hl].
    cbn [dedup_loop]. fold (content_of key r).
    destruct (truthy (content_of key r)) eqn:Et; cbn [negb]; [|now apply IH].
    destruct Hr as [[t Ht]|Hf]; [|congruence]. rewrite Ht.
    unfold is_duplicate. cbn [encode bind ret].
    destruct (bool_decide _); [cbn -[dedup_loop]; now apply IH|].
    destruct (lsh_query _ _); cbn -[dedup_loop _add_to_index].
    + destruct (add_to_index_text t None idx) as (idx1 & -> & _).
      now apply IH.
    + now apply IH.
Qed.


(** A record whose text is new to the index is kept and indexed. *)
Lemma dedup_loop_fresh r rest key kept stats idx (t : string) :
  content_of key r = VStr t -> t <> "" ->
  is_duplicate (VStr t) idx = inr (false, "") ->
  dedup_loop (r :: rest) key kept stats idx
  = dedup_loop rest key (kept ++ [r]) (count_unique stats)
      (snd (_add_to_index (VStr t) None idx))
  /\ xxh64_hexdigest t ∈ exact_hashes (snd (_add_to_index (VStr t) None idx)).
Proof.
  unfold content_of. intros E Hne Hdup.
  destruct (add_to_index_text t None idx) as (idx1 & Hadd & Hhash).
  rewrite Hadd. cbn [snd].
  split; [|rewrite Hhash; apply elem_of_union_l, elem_of_singleton; reflexivity].
  cbn [dedup_loop]. rewrite E, (truthy_text t Hne), Hdup, Hadd. reflexivity.
Qed.

(** Once the hash of a text is in the index, a record with that text,
    wherever it comes later in the batch, adds one to [exact_dupes] and
    changes nothing else. *)
Lemma later_copy_is_exact mid r post key kept stats idx (t : string) :
  content_of key r = VStr t -> t <> "" ->
  xxh64_hexdigest t ∈ exact_hashes idx ->
  dedup_loop (mid ++ r :: post) key kept stats idx
  = one_more_exact (dedup_loop (mid ++ post) key kept stats idx).
Proof.
  intros E Hne Hin. rewrite !dedup_loop_app.
  pose proof (dedup_loop_grows mid key kept stats idx _ Hin) as Hg.
  destruct (dedup_loop mid key kept stats idx) as [[e|[kept1 stats1]] idx1];
    [reflexivity|].
  rewrite (dedup_loop_known r post key kept1 stats1 idx1 t E Hne Hg).
  apply dedup_loop_more_exact.
Qed.

(** C9 (as amended).  On an empty index, the batch made of two records
    with the same non-empty text returns the first record alone, with one
    exact duplicate and one unique record counted.  In any batch and from
    any state of the index, when a record with a non-empty text is found
    to be no duplicate, it is kept, and a later record with the same text
    is rejected as an exact duplicate: it adds one to [exact_dupes] and
    has no other effect on the outcome.  (The query of an empty LSH
    index is taken to return nothing, as [datasketch] does.) *)
Theorem C9_first_occurrence_kept :
  (forall perm threshold shingle key r1 r2 (t : string),
      (forall m, lsh_query m (lsh_new threshold perm) = []) ->
      t <> "" -> content_of key r1 = VStr t -> content_of key r2 = VStr t ->
      fst (deduplicate_batch [r1; r2] key (new perm threshold shingle))
      = inr ([r1], {| total_input := 2; exact_dupes := 1;
                      near_dupes := 0; unique := 1 |}))
  /\ (forall key r1 mid r2 post (t : string) kept stats idx,
        t <> "" -> content_of key r1 = VStr t -> content_of key r2 = VStr t ->
        is_duplicate (VStr t) idx = inr (false, "") ->
        dedup_loop (r1 :: mid ++ r2 :: post) key kept stats idx
        = one_more_exact (dedup_loop (r1 :: mid ++ post) key kept stats idx)
        /\ (forall kept' stats' idx',
              dedup_loop (r1 :: mid ++ r2 :: post) key kept stats idx
              = (inr (kept', stats'), idx') ->
              exists extra, kept' = kept ++ r1 :: extra)).
Proof.
  split.
  - intros perm threshold shingle key r1 r2 t Hempty Hne E1 E2.
    unfold deduplicate_batch.
    assert (is_duplicate (VStr t) (new perm threshold shingle) = inr (false, ""))
      as Hfresh.
    { unfold is_duplicate. cbn [encode bind ret new exact_hashes lsh].
      rewrite bool_decide_eq_false_2 by set_solver. now rewrite Hempty. }
    destruct (dedup_loop_fresh r1 [r2] key []
                {| total_input := 2; exact_dupes := 0;
                   near_dupes := 0; unique := 0 |}
                (new perm threshold shingle) t E1 Hne Hfresh) as [Hstep Hin].
    cbn [List.length]. rewrite Hstep.
    rewrite (dedup_loop_known r2 [] key _ _ _ t E2 Hne Hin). reflexivity.
  - intros key r1 mid r2 post t kept stats idx Hne E1 E2 Hfresh.
    destruct (dedup_loop_fresh r1 (mid ++ r2 :: post) key kept stats idx t
                E1 Hne Hfresh) as [-> Hin].
    destruct (dedup_loop_fresh r1 (mid ++ post) key kept stats idx t
                E1 Hne Hfresh) as [-> _].
    split; [now apply (later_copy_is_exact mid r2 post key _ _ _ t)|].
    intros kept' stats' idx' Hrun.
    destruct (dedup_loop_extends _ _ _ _ _ _ _ _ Hrun) as [extra ->].
    exists extra. now rewrite <- app_assoc.
Qed.


(** C10.  A record whose content under [content_key] is missing or
    empty leaves the loop as it found it: the outcome of a batch is the
    same with or without the record.  Whenever [deduplicate_batch]
    returns, the list returned is as long as [unique] says, holds no
    record without content, [total_input] is the length of the batch,
    and the three counters add up to [total_input] less the number of
    records without content, hence to strictly less as soon as there is
    one.  It returns on every batch whose contents are strings or
    missing. *)
Theorem C10_empty_content_dropped :
  (forall key r pre post kept stats idx,
      truthy (content_of key r) = false ->
      dedup_loop (pre ++ r :: post) key kept stats idx
      = dedup_loop (pre ++ post) key kept stats idx)
  /\ (forall records key idx kept stats idx',
        deduplicate_batch records key idx = (inr (kept, stats), idx') ->
        List.length kept = unique stats
        /\ Forall (fun r => truthy (content_of key r) = true) kept
        /\ total_input stats = List.length records
        /\ exact_dupes stats + near_dupes stats + unique stats
           + List.length (without_content key records) = total_input stats
        /\ (without_content key records <> [] ->
            exact_dupes stats + near_dupes stats + unique stats
            < total_input stats))
  /\ (forall records key idx,
        Forall (text_or_nothing key) records ->
        exists kept stats idx',
          deduplicate_batch records key idx = (inr (kept, stats), idx')).
Proof.
  split; [|split].
  - intros key r pre post kept stats idx Hr. rewrite !dedup_loop_app.
    destruct (dedup_loop pre key kept stats idx) as [[e|[kept1 stats1]] idx1];
      [reflexivity|].
    now apply dedup_loop_skip.
  - intros records key idx kept stats idx' Hrun. unfold deduplicate_batch in Hrun.
    assert (Forall (fun r => truthy (content_of key r) = true) kept) as Hkept.
    { apply (dedup_loop_keeps_content _ _ _ _ _ _ _ _
               ltac:(constructor) Hrun). }
    apply dedup_loop_accounts in Hrun as (H1 & H2 & H3). cbn in H1, H2, H3.
    repeat split; [lia|exact Hkept|exact H2|lia|].
    intros Hsome. destruct (without_content key records); [congruence|].
    cbn in H3. lia.
  - intros records key idx Hok. now apply dedup_loop_returns.
Qed.

Lemma load_lines_app (l1 l2 : list Line) loaded idx :
  load_lines (l1 ++ l2) loaded idx
  = match load_lines l1 loaded idx with
    | (inr n, idx') => load_lines l2 n idx'
    | (inl e, idx') => (inl e, idx')
    end.
Proof.
  revert loaded idx.
  induction l1 as [|l l1 IH]; intros loaded idx; [reflexivity|].
  cbn [app load_lines].
  destruct (load_line l loaded idx) as [[e|n] idx1]; [reflexivity|apply IH].
Qed.

Lemma load_line_not_json bad loaded idx :
  loads bad = inl JSONDecodeError ->
  load_line bad loaded idx = (inl JSONDecodeError, idx).
Proof. intros E. unfold load_line. now rewrite E. Qed.

Lemma load_existing_files corpus idx :
  load_existing corpus idx
  = match load_file "train.jsonl" corpus 0 idx with
    | (inr n, idx') => load_file "validation.jsonl" corpus n idx'
    | (inl e, idx') => (inl e, idx')
    end.
Proof.
  unfold load_existing. cbn [fold_left].
  destruct (load_file "train.jsonl" corpus 0 idx) as [[e|n] idx1]; reflexivity.
Qed.

Lemma load_line_chat line loaded idx :
  chat_line line -> exists n idx', load_line line loaded idx = (inr n, idx').
Proof.
  intros (d & ms & -> & Hms & Hthird). unfold load_line.
  cbn [loads get bind ret]. rewrite Hms. cbn [len bind ret].
  destruct (3 <=? List.length ms) eqn:E; [|eauto].
  apply Nat.leb_le in E. destruct (Hthird E) as (m & t & Hnth & Hcontent).
  cbn [getitem]. rewrite Hnth. cbn [bind ret get]. rewrite Hcontent.
  destruct (add_to_index_text t
              (Some ("existing_" ++ str_N (N.of_nat loaded))%string) idx)
    as (idx1 & -> & _).
  eauto.
Qed.

Lemma load_lines_chat lines loaded idx :
  Forall chat_line lines ->
  exists n idx', load_lines lines loaded idx = (inr n, idx').
Proof.
  revert loaded idx. induction lines as [|l lines IH]; intros loaded idx Hl.
  - cbn. eauto.
  - apply Forall_cons in Hl as [Hc Hl]. cbn [load_lines].
    destruct (load_line_chat l loaded idx Hc) as (n & idx1 & ->).
    now apply IH.
Qed.

Lemma load_file_chat name corpus loaded idx :
  (forall lines, corpus !! name = Some lines -> Forall chat_line lines) ->
  exists n idx', load_file name corpus loaded idx = (inr n, idx').
Proof.
  intros Hl. unfold load_file.
  destruct (corpus !! name) as [lines|]; [|eauto].
  apply load_lines_chat. now apply Hl.
Qed.

(** C2 (as amended).  [load_existing] stops at the first line that is
    not valid JSON and lets the decoding error of [json.loads] escape:
    the lines before it have been indexed, the line itself is not
    skipped, and neither the lines nor the file after it are read.  This
    holds for such a line of [train.jsonl] and for one of
    [validation.jsonl].  On files whose lines all hold chat records the
    method raises nothing. *)
Theorem C2_load_existing_stops_at_bad_line :
  (forall pre raw post loaded idx n idx1,
      load_lines pre loaded idx = (inr n, idx1) ->
      load_lines (pre ++ Garbage raw :: post) loaded idx
      = (inl JSONDecodeError, idx1))
  /\ (forall corpus pre raw post idx n idx1,
        corpus !! "train.jsonl" = Some (pre ++ Garbage raw :: post) ->
        load_lines pre 0 idx = (inr n, idx1) ->
        load_existing corpus idx = (inl JSONDecodeError, idx1))
  /\ (forall corpus pre raw post idx m idx0 n idx1,
        load_file "train.jsonl" corpus 0 idx = (inr m, idx0) ->
        corpus !! "validation.jsonl" = Some (pre ++ Garbage raw :: post) ->
        load_lines pre m idx0 = (inr n, idx1) ->
        load_existing corpus idx = (inl JSONDecodeError, idx1))
  /\ (forall corpus idx,
        (forall lines, corpus !! "train.jsonl" = Some lines ->
                       Forall chat_line lines) ->
        (forall lines, corpus !! "validation.jsonl" = Some lines ->
                       Forall chat_line lines) ->
        exists n idx', load_existing corpus idx = (inr n, idx')).
Proof.
  assert (forall pre raw post loaded idx n idx1,
             load_lines pre loaded idx = (inr n, idx1) ->
             load_lines (pre ++ Garbage raw :: post) loaded idx
             = (inl JSONDecodeError, idx1)) as Hline.
  { intros pre raw post loaded idx n idx1 Hpre.
    rewrite load_lines_app, Hpre. cbn [load_lines].
    now rewrite (load_line_not_json (Garbage raw) n idx1 eq_refl). }
  split; [exact Hline|]. split; [|split].
  - intros corpus pre raw post idx n idx1 Hfile Hpre.
    rewrite load_existing_files. unfold load_file at 1. rewrite Hfile.
    now rewrite (Hline pre raw post 0 idx n idx1 Hpre).
  - intros corpus pre raw post idx m idx0 n idx1 Htrain Hfile Hpre.
    rewrite load_existing_files, Htrain. unfold load_file. rewrite Hfile.
    exact (Hline pre raw post m idx0 n idx1 Hpre).
  - intros corpus idx Htrain Hvalid. rewrite load_existing_files.
    destruct (load_file_chat "train.jsonl" corpus 0 idx Htrain)
      as (m & idx0 & ->).
    now apply load_file_chat.
Qed.

End WithSketch.

(** [test_batch_dedup]. *)
Example batch_dedup :
  fst (deduplicate_batch Samples.dedup_batch "text" Samples.empty_index)
  = inr ([List.nth 0 Samples.dedup_batch []; List.nth 2 Samples.dedup_batch []],
         {| total_input := 3; exact_dupes := 1; near_dupes := 0; unique := 2 |}).
Proof. vm_compute. reflexivity. Qed.

Lemma C9_first_occurrence_kept_witness :
  fst (deduplicate_batch [Samples.text_record "same words"; Samples.text_record "same words"]
         "text" Samples.empty_index)
  = inr ([Samples.text_record "same words"],
         {| total_input := 2; exact_dupes := 1; near_dupes := 0; unique := 1 |}).
Proof.
  destruct (@C9_first_occurrence_kept exact_sketch) as [Hpair _].
  apply (Hpair 128 Samples.float_0_8 5 "text" _ _ "same words");
    [reflexivity|discriminate|reflexivity|reflexivity].
Defined.

(** C9, the claim as stated, fails when the first of the two identical
    records is itself a near-duplicate of an earlier record of the batch.
    With the two near-duplicate texts of the test suite, the batch
    [text 1, text 2, text 2] keeps the first record only: both copies of
    text 2 are rejected as near-duplicates, none is kept and no exact
    duplicate is counted. *)
Lemma C9_near_duplicate_first_occurrence :
  fst (deduplicate_batch
         [Samples.text_record Samples.near_text_1;
          Samples.text_record Samples.near_text_2;
          Samples.text_record Samples.near_text_2]
         "text" Samples.empty_index)
  = inr ([Samples.text_record Samples.near_text_1],
         {| total_input := 3; exact_dupes := 0; near_dupes := 2; unique := 1 |}).
Proof. vm_compute. reflexivity. Qed.


Lemma C10_empty_content_dropped_witness :
  fst (deduplicate_batch
         [Samples.text_record Samples.answer_1;
          [("text", VStr "")];
          [("body", VStr Samples.answer_2)]]
         "text" Samples.empty_index)
  = inr ([Samples.text_record Samples.answer_1],
         {| total_input := 3; exact_dupes := 0; near_dupes := 0; unique := 1 |})
  /\ 0 + 0 + 1 < 3.
Proof.
  destruct (@C10_empty_content_dropped exact_sketch) as (_ & Hcount & _).
  destruct (deduplicate_batch
              [Samples.text_record Samples.answer_1;
               [("text", VStr "")];
               [("body", VStr Samples.answer_2)]]
              "text" Samples.empty_index) as [out idx'] eqn:Hrun.
  assert (out = inr ([Samples.text_record Samples.answer_1],
                     {| total_input := 3; exact_dupes := 0;
                        near_dupes := 0; unique := 1 |})) as ->.
  { change out with (fst (out, idx')). rewrite <- Hrun. vm_compute. reflexivity. }
  split; [reflexivity|].
  destruct (Hcount _ _ _ _ _ _ Hrun) as (_ & _ & _ & _ & Hless).
  apply Hless. discriminate.
Defined.

Lemma C2_load_existing_stops_at_bad_line_witness :
  fst (load_existing Samples.broken_corpus Samples.empty_index)
  = inl JSONDecodeError
  /\ (exists n idx',
        load_existing Samples.sound_corpus Samples.empty_index = (inr n, idx')).
Proof.
  destruct (@C2_load_existing_stops_at_bad_line exact_sketch)
    as (_ & Htrain & _ & Hsound).
  split.
  - destruct (load_lines [Json (Samples.chat_record Samples.answer_1)] 0
                Samples.empty_index) as [out idx1] eqn:Hpre.
    assert (out = inr 1) as ->.
    { change out with (fst (out, idx1)). rewrite <- Hpre. vm_compute. reflexivity. }
    rewrite (Htrain Samples.broken_corpus
               [Json (Samples.chat_record Samples.answer_1)]
               "not json"
               [Json (Samples.chat_record Samples.answer_2)]
               Samples.empty_index 1 idx1); [reflexivity|reflexivity|exact Hpre].
  - apply Hsound; intros lines Hlookup;
      vm_compute in Hlookup; injection Hlookup as <-.
    + repeat constructor; eexists _, _; (split; [reflexivity|]);
        (split; [reflexivity|]); intros _; eexists _, _; split; reflexivity.
    + repeat constructor. eexists _, _. split; [reflexivity|].
      split; [reflexivity|]. cbn. lia.
Defined.

(** C2, the claim as stated, fails: with a line that is not JSON between
    two records of [train.jsonl], [load_existing] raises the decoding
    error; the record before the line is in the index, the record after
    it is not. *)
Lemma C2_bad_line_aborts_the_load :
  fst (load_existing Samples.broken_corpus Samples.empty_index)
  = inl JSONDecodeError
  /\ is_duplicate (VStr Samples.answer_1)
       (snd (load_existing Samples.broken_corpus Samples.empty_index))
     = inr (true, "exact")
  /\ is_duplicate (VStr Samples.answer_2)
       (snd (load_existing Samples.broken_corpus Samples.empty_index))
     = inr (false, "").
Proof. vm_compute. repeat split. Qed.

End DedupProps.

(** ** The quality filter *)

Module QualityFilterProps.
Import Py QualityFilter.

(** [count = k] copies of the character [c]. *)
Lemma length_repeat_string (c : ascii) (k : nat) :
  String.length (string_of_list_ascii (List.repeat c k)) = k.
Proof. induction k as [|k IH]; [reflexivity|]. cbn. now rewrite IH. Qed.

(** The cases of [tests/test_quality_filter.py]. *)
Example passes_good_content : filter_record Samples.good_text None None = (true, "").
Proof. vm_compute. reflexivity. Qed.

Example rejects_section_number : filter_record "3.2.1" None None = (false, "too_short").
Proof. reflexivity. Qed.

Example rejects_table_borders :
  filter_record Samples.borders_text None None = (false, "table_borders_only").
Proof. vm_compute. reflexivity. Qed.

Example rejects_table_heavy :
  filter_record Samples.table_text None None = (false, "table_heavy").
Proof. vm_compute. reflexivity. Qed.

Example rejects_low_alpha :
  filter_record Samples.digits_text None None = (false, "low_alpha").
Proof. vm_compute. reflexivity. Qed.

Example custom_config_passes :
  filter_record (Samples.times "abc 123 " 10) (Some Samples.custom_config) None
  = (true, "").
Proof. vm_compute. reflexivity. Qed.

(** C5 (as amended).  With the default configuration and no [min_length]
    given, the lower bound is [min_content_length = 100] and the upper
    bound [max_answer_length = 8000]: a text shorter than 100 characters
    is rejected as [too_short], a longer text of more than 8000
    characters as [too_long].  The bound [min_answer_length = 200]
    applies when the caller passes it as [min_length], as the pipeline
    does: then a text shorter than 200 characters is rejected as
    [too_short]. *)
Theorem C5_default_length_bounds (text : string) :
  let n := Z.of_nat (String.length text) in
  ((n < 100)%Z ->
   filter_record text None None = (false, "too_short"))
  /\ ((8000 < n)%Z ->
      filter_record text None None = (false, "too_long"))
  /\ ((n < 200)%Z ->
      filter_record text None (Some (min_answer_length default_config))
      = (false, "too_short"))
  /\ ((8000 < n)%Z ->
      filter_record text None (Some (min_answer_length default_config))
      = (false, "too_long")).
Proof.
  unfold filter_record.
  cbn [default default_config length_threshold min_content_length
       min_answer_length max_answer_length Z.eqb negb andb].
  repeat split; intros.
  - destruct (Z.ltb_spec (Z.of_nat (String.length text)) 100); [reflexivity|lia].
  - destruct (Z.ltb_spec (Z.of_nat (String.length text)) 100); [lia|].
    destruct (Z.ltb_spec 8000 (Z.of_nat (String.length text))); [reflexivity|lia].
  - destruct (Z.ltb_spec (Z.of_nat (String.length text)) 200); [reflexivity|lia].
  - destruct (Z.ltb_spec (Z.of_nat (String.length text)) 200); [lia|].
    destruct (Z.ltb_spec 8000 (Z.of_nat (String.length text))); [reflexivity|lia].
Qed.

Lemma C5_default_length_bounds_witness :
  filter_record "Too short" None None = (false, "too_short")
  /\ filter_record (string_of_list_ascii (List.repeat "a"%char 150)) None
       (Some 200%Z) = (false, "too_short").
Proof.
  destruct (C5_default_length_bounds "Too short") as (Hshort & _).
  destruct (C5_default_length_bounds
              (string_of_list_ascii (List.repeat "a"%char 150)))
    as (_ & _ & Hanswer & _).
  split; [apply Hshort; cbn; lia|].
  apply Hanswer. rewrite length_repeat_string. lia.
Defined.

(** C5, the claim as stated, fails: with the default configuration and no
    override, the text of 150 letters of [test_custom_min_length] is
    shorter than 200 characters and is accepted. *)
Lemma C5_text_of_150_is_accepted :
  String.length (string_of_list_ascii (List.repeat "a"%char 150)) = 150
  /\ filter_record (string_of_list_ascii (List.repeat "a"%char 150)) None None
     = (true, "").
Proof. split; vm_compute; reflexivity. Qed.

End QualityFilterProps.

(** ** The validator *)

Module ValidatorProps.
Import Py Validator.

Lemma existsb_member_text (s : string) (ms : list string) :
  existsb (member_eqb (VStr s)) (List.map VStr ms) = true <-> s ∈ ms.
Proof.
  induction ms as [|m ms IH]; cbn [List.map existsb].
  - split; [discriminate|]. intros Hin. inversion Hin.
  - rewrite orb_true_iff, IH, elem_of_cons. cbn [member_eqb].
    rewrite String.eqb_eq. tauto.
Qed.

(** Over records whose source is a string, the set built by the loop is
    the set of these strings, each once. *)
Lemma collect_sources_texts (records : list dict) (ms : list string) :
  Forall has_text_source records -> NoDup ms ->
  exists ms',
    collect_sources records (List.map VStr ms) = inr (List.map VStr ms')
    /\ NoDup ms'
    /\ (list_to_set ms' : gset string)
       = list_to_set ms ∪ list_to_set (List.map source_text records).
Proof.
  revert ms. induction records as [|r records IH]; intros ms Hsrc Hnd.
  - exists ms. cbn. repeat split; [exact Hnd|set_solver].
  - apply Forall_cons in Hsrc as [[s Hs] Hsrc].
    cbn [collect_sources List.map]. unfold source_text at 1. rewrite Hs.
    cbn [set_add].
    destruct (existsb (member_eqb (VStr s)) (List.map VStr ms)) eqn:E.
    + apply existsb_member_text in E. cbn [bind ret].
      destruct (IH ms Hsrc Hnd) as (ms' & -> & Hnd' & Hset).
      exists ms'. repeat split; [exact Hnd'|]. rewrite Hset. set_solver.
    + assert (s ∉ ms) as Hnot.
      { intros Hin. apply existsb_member_text in Hin. congruence. }
      cbn [bind ret]. change [VStr s] with (List.map VStr [s]).
      rewrite <- List.map_app.
      destruct (IH (ms ++ [s]) Hsrc) as (ms' & -> & Hnd' & Hset).
      { apply NoDup_app. repeat split; [exact Hnd| |apply NoDup_singleton].
        intros x Hx Hx'. apply list_elem_of_singleton in Hx'. now subst. }
      exists ms'. repeat split; [exact Hnd'|]. rewrite Hset.
      rewrite list_to_set_app_L. set_solver.
Qed.

Lemma all_some_texts (ms : list string) :
  all_some (List.map as_string (List.map VStr ms)) = Some ms.
Proof.
  induction ms as [|m ms IH]; [reflexivity|].
  cbn [List.map all_some as_string]. now rewrite IH.
Qed.

Lemma sorted_texts (ms : list string) :
  exists ordered, sorted (List.map VStr ms) = inr ordered.
Proof.
  destruct ms as [|a [|b ms]]; [eexists; reflexivity..|].
  unfold sorted. rewrite all_some_texts. cbn [List.map]. eauto.
Qed.

Lemma length_stats_keeps v lengths r :
  format_errors (length_stats v lengths r) = format_errors r.
Proof.
  unfold length_stats. destruct lengths as [|k ks]; [reflexivity|].
  repeat (match goal with |- context [if ?b then _ else _] => destruct b end);
    reflexivity.
Qed.

(** [test_answer_length_stats]: ten answers of 500 characters. *)
Example answer_length_stats :
  exists result,
    _validate_quality default_validator
      (List.repeat (Samples.chat_dict (Samples.times "x" 500) "test_source") 10)
      (new_result 10) = inr result
    /\ stats result !! "avg_answer_length" = Some (VInt 500)
    /\ stats result !! "unique_sources" = Some (VInt 1)
    /\ stats result !! "source_list" = Some (VList [VStr "test_source"])
    /\ quality_warnings result = [].
Proof. eexists. split; [vm_compute; reflexivity|]. repeat split. Qed.

(** C6 (as amended).  A batch with fewer records than the configured
    minimum gets the format error of the volume check and nothing else:
    [_validate_quality] returns before it computes the length statistics
    or the source diversity, and the stats are as they were.  A batch
    that meets the minimum, whose answer lengths can be taken and whose
    sources are strings, gets under [unique_sources] the number of
    distinct values of [source], a record without the field counting as
    ["unknown"]; the format errors found by other checks do not matter
    and are left as they are. *)
Theorem C6_source_diversity :
  (forall v records result,
      List.length records < min_records v ->
      exists msg,
        _validate_quality v records result = inr (add_format_error msg result)
        /\ stats (add_format_error msg result) = stats result)
  /\ (forall v records result lengths,
        min_records v <= List.length records ->
        answer_lengths records = inr lengths ->
        Forall has_text_source records ->
        exists result',
          _validate_quality v records result = inr result'
          /\ stats result' !! "unique_sources"
             = Some (VInt (Z.of_nat
                    (size (list_to_set (List.map source_text records)
                           : gset string))))
          /\ format_errors result' = format_errors result).
Proof.
  split.
  - intros v records result Hfew. unfold _validate_quality.
    apply Nat.ltb_lt in Hfew. rewrite Hfew. eexists. split; reflexivity.
  - intros v records result lengths Hmany Hlengths Hsrc.
    unfold _validate_quality.
    apply Nat.ltb_ge in Hmany. rewrite Hmany, Hlengths. cbn [bind].
    destruct (collect_sources_texts records [] Hsrc NoDup_nil_2)
      as (ms & Hcollect & Hnd & Hset).
    cbn [List.map] in Hcollect. rewrite Hcollect. cbn [bind].
    destruct (sorted_texts ms) as (ordered & ->). cbn [bind ret].
    eexists. split; [reflexivity|].
    cbn [stats set_stat format_errors]. split.
    + rewrite lookup_insert_ne by discriminate. rewrite lookup_insert_eq.
      do 3 f_equal. rewrite length_map.
      rewrite <- (size_list_to_set (C:=gset string) ms Hnd), Hset.
      f_equal. set_solver.
    + apply length_stats_keeps.
Qed.

Lemma C6_source_diversity_witness :
  exists result',
    _validate_quality Samples.small_validator Samples.three_chats
      (add_format_error "Record 0: message 1 has empty content" (new_result 3))
    = inr result'
    /\ stats result' !! "unique_sources" = Some (VInt 2)
    /\ format_errors result' = ["Record 0: message 1 has empty content"].
Proof.
  destruct C6_source_diversity as [_ Hmany].
  edestruct (Hmany Samples.small_validator Samples.three_chats
               (add_format_error "Record 0: message 1 has empty content"
                                 (new_result 3)))
    as (result' & Hrun & Hcount & Herrors).
  - cbn. lia.
  - vm_compute. reflexivity.
  - repeat constructor; eexists; reflexivity.
  - exists result'. split; [exact Hrun|]. split; [|exact Herrors].
    rewrite Hcount. reflexivity.
Defined.

(** C6, the claim as stated, fails on a batch below the minimum: with the
    default minimum of ten records, a batch of one valid record comes
    back with the volume error and with empty stats, [unique_sources]
    not among them. *)
Lemma C6_small_batch_reports_no_sources :
  _validate_quality default_validator
    [Samples.chat_dict Samples.answer_1 "nist_csrc"] (new_result 1)
  = inr (add_format_error "Too few records: 1 < minimum 10" (new_result 1))
  /\ stats (add_format_error "Too few records: 1 < minimum 10" (new_result 1))
       !! "unique_sources" = None.
Proof. split; reflexivity. Qed.

End ValidatorProps.

(** ** More about the version store *)

Module VersionStoreProps.
Import Py Jsonl Versioning VersionDiff PyFacts Samples VersioningProps.

Lemma strip_negative (s : string) :
  all_digits s -> strip (String "-" s) = String "-" s.
Proof.
  intros Hs. unfold strip. cbn [lstrip].
  change (is_space "-") with false. cbn iota. cbn [rstrip].
  rewrite (rstrip_digits s Hs). destruct s; reflexivity.
Qed.

(** [int] reads [format(z, "03d")] back as [z], whatever the sign. *)
Lemma int_format_03d_any (z : Z) : int (format_03d z) = inr z.
Proof.
  destruct z as [|p|p].
  - reflexivity.
  - change (Z.pos p) with (Z.of_N (N.pos p)). apply int_format_03d.
  - unfold format_03d, int.
    rewrite strip_negative by apply all_digits_zfill, all_digits_str_N.
    now rewrite digits_val_zfill.
Qed.

Lemma format_03d_head (z : Z) :
  exists c r, format_03d z = String c r /\ Ascii.eqb "v" c = false.
Proof.
  destruct z as [|p|p].
  - eexists _, _. split; reflexivity.
  - change (Z.pos p) with (Z.of_N (N.pos p)).
    destruct (format_03d_digits (N.pos p)) as (c & r & E & Hc).
    exists c, r. split; [exact E|].
    destruct c as [[] [] [] [] [] [] [] []]; try discriminate Hc; reflexivity.
  - eexists _, _. split; reflexivity.
Qed.

Lemma version_number_format (z : Z) :
  version_number ("v" ++ format_03d z) = inr z.
Proof.
  unfold version_number.
  destruct (format_03d_head z) as (c & r & E & Hc).
  pose proof (int_format_03d_any z) as Hint. rewrite E in *.
  change ("v" ++ String c r)%string with (String "v" (String c r)).
  cbn [lstrip]. change (Ascii.eqb "v" "v") with true. cbn iota.
  now rewrite Hc.
Qed.

Lemma mapM_In {A B} (f : A -> res B) (l : list A) (ys : list B) (x : A) :
  mapM f l = inr ys -> In x l -> exists y, f x = inr y /\ In y ys.
Proof.
  revert ys. induction l as [|a l IH]; intros ys Hm Hin; [contradiction|].
  cbn [mapM] in Hm.
  destruct (f a) as [e|b] eqn:Ea; [discriminate|]. cbn [bind] in Hm.
  destruct (mapM f l) as [e|bs]; [discriminate|]. injection Hm as <-.
  destruct Hin as [<-|Hin].
  - exists b. split; [exact Ea|now left].
  - destruct (IH bs eq_refl Hin) as (y & Hy & Hin'). exists y.
    split; [exact Hy|now right].
Qed.

(** The id that [_next_version] allocates is the id of no entry of the
    manifest. *)
Lemma next_version_is_fresh (st : Store) (v : string) :
  _next_version st = inr v -> ~ In v (version_ids st).
Proof.
  unfold _next_version, version_ids.
  destruct (List.map version (versions (manifest st))) as [|i rest] eqn:E;
    [intros _ []|].
  destruct (version_number i) as [e|n] eqn:Hn; [discriminate|]. cbn [bind].
  destruct (mapM version_number rest) as [e|ns] eqn:Hns; [discriminate|].
  cbn [bind ret]. intros [= <-] Hin.
  assert (mapM version_number (i :: rest) = inr (n :: ns)) as Hall.
  { cbn [mapM]. now rewrite Hn, Hns. }
  destruct (mapM_In _ _ _ _ Hall Hin) as (y & Hy & Hy').
  rewrite version_number_format in Hy. injection Hy as <-.
  destruct (max_int_spec n ns) as [_ Hmax].
  rewrite Forall_forall in Hmax. apply list_elem_of_In in Hy'.
  specialize (Hmax _ Hy'). lia.
Qed.


Lemma next_version_nonempty (st : Store) (v : string) :
  _next_version st = inr v -> exists r, v = String "v" r.
Proof.
  unfold _next_version.
  destruct (List.map version (versions (manifest st))) as [|i rest].
  - intros [= <-]. eexists; reflexivity.
  - destruct (version_number i) as [e|n]; [discriminate|]. cbn [bind].
    destruct (mapM version_number rest) as [e|ns]; [discriminate|].
    cbn [bind ret]. intros [= <-]. eexists; reflexivity.
Qed.

(** X1.  What [create_snapshot] has written is what the store gives
    back: after a snapshot of [records], [get_current_records] returns
    [records], a [rollback] to the new version returns [records] and
    changes nothing, and the last entry of [list_versions] is the new
    version with [record_count = len(records)] and the former [current]
    as its parent. *)
Theorem X1_snapshot_round_trip records descr srcs now (st st' : Store) v :
  create_snapshot records descr srcs now st = (inr v, st') ->
  get_current_records st' = inr records
  /\ rollback v st' = (inr records, st')
  /\ exists info,
       list_versions st' = list_versions st ++ [info]
       /\ version info = v
       /\ record_count info = List.length records
       /\ parent_version info = current (manifest st)
       /\ (version_dirs st' !! v
           = Some {| records_jsonl := Some (write_records records);
                     version_info_json := Some info |}).
Proof.
  unfold create_snapshot.
  destruct (_next_version st) as [e|v0] eqn:Hnext; [discriminate|].
  intros [= <- <-].
  destruct (next_version_nonempty st v0 Hnext) as [r ->].
  assert (_load_version_records (String "v" r)
            (with_manifest
               {| versions := versions (manifest st) ++
                    [{| version := String "v" r; created_at := now;
                        description := descr;
                        record_count := List.length records;
                        sources := default [] srcs;
                        parent_version := current (manifest st) |}];
                  current := Some (String "v" r) |}
               (with_version_dir (String "v" r)
                  {| records_jsonl := Some (write_records records);
                     version_info_json :=
                       Some {| version := String "v" r; created_at := now;
                               description := descr;
                               record_count := List.length records;
                               sources := default [] srcs;
                               parent_version := current (manifest st) |} |}
                  st))
          = inr records) as Hload.
  { unfold _load_version_records. cbn [version_dirs with_manifest with_version_dir].
    rewrite lookup_insert_eq. apply read_write_records. }
  split; [|split].
  - unfold get_current_records. cbn [manifest with_manifest current].
    change (String.eqb (String "v" r) "") with false. cbn iota. exact Hload.
  - unfold rollback. cbn [version_dirs with_manifest with_version_dir].
    rewrite lookup_insert_eq.
    cbn [version_dirs with_manifest with_version_dir] in Hload |- *.
    rewrite Hload. reflexivity.
  - eexists. split; [reflexivity|]. repeat split.
    cbn [version_dirs with_manifest with_version_dir].
    apply lookup_insert_eq.
Qed.

Lemma X1_snapshot_round_trip_witness :
  get_current_records
    (snd (create_snapshot [sample_record "0"; sample_record "1"] "first" None
                          "t" fresh_store))
  = inr [sample_record "0"; sample_record "1"].
Proof.
  destruct (create_snapshot [sample_record "0"; sample_record "1"] "first" None
                            "t" fresh_store) as [out st'] eqn:Hrun.
  assert (out = inr "v001") as ->.
  { change out with (fst (out, st')). rewrite <- Hrun. reflexivity. }
  apply (X1_snapshot_round_trip _ _ _ _ _ _ _ Hrun).
Defined.

(** X2.  The manifest on disk follows the manifest in memory: a store
    that has just been opened, and a store after any call of
    [create_snapshot], [rollback] or [merge_to_training], whether the
    call returns or raises, is such that a new [VersionManager] over the
    same files starts with the very manifest the old one has.  So it is
    after [delete_version] of a name of one path component, with one
    exception: [delete_version("..")], when [versions_dir] is there and
    [".."] is not the current version, removes [manifest.json] with all
    that [base_dir] holds, and a new [VersionManager] starts with the
    empty manifest whatever the old one has in memory. *)
Theorem X2_manifest_is_persisted :
  (forall training on_disk dirs files,
      manifest (reopen (init training on_disk dirs files))
      = manifest (init training on_disk dirs files))
  /\ (forall st : Store,
        manifest (reopen st) = manifest st ->
        (forall records descr srcs now,
            let st' := snd (create_snapshot records descr srcs now st) in
            manifest (reopen st') = manifest st')
        /\ (forall target,
              let st' := snd (rollback target st) in
              manifest (reopen st') = manifest st')
        /\ (forall v,
              one_component v = true ->
              v <> ".." \/ versions_dir_exists st = false ->
              let st' := snd (delete_version v st) in
              manifest (reopen st') = manifest st')
        /\ (forall v,
              let st' := snd (merge_to_training v st) in
              manifest (reopen st') = manifest st'))
  /\ (forall st : Store,
        versions_dir_exists st = true ->
        current (manifest st) <> Some ".." ->
        fst (delete_version ".." st) = inl FileNotFoundError
        /\ manifest (snd (delete_version ".." st)) = manifest st
        /\ manifest (reopen (snd (delete_version ".." st))) = empty_manifest).
Proof.
  split; [reflexivity|]. split.
  2:{ intros st Hex Hcur. unfold delete_version.
      destruct (decide (current (manifest st) = Some "..")); [contradiction|].
      cbn [place String.eqb Ascii.eqb Bool.eqb orb exists_]. rewrite Hex.
      repeat split. }
  intros st Hsync. repeat split.
  - intros records descr srcs now. unfold create_snapshot.
    destruct (_next_version st); [exact Hsync|reflexivity].
  - intros target. unfold rollback.
    destruct (version_dirs st !! target); [|exact Hsync].
    destruct (_load_version_records target st); [exact Hsync|reflexivity].
  - intros v _ Hv. unfold delete_version.
    destruct (decide (current (manifest st) = Some v)); [exact Hsync|].
    unfold place.
    destruct (String.eqb v "" || String.eqb v "."); cbn [exists_ rmtree].
    { destruct (versions_dir_exists st); reflexivity. }
    destruct (String.eqb v "..") eqn:Edots; cbn [exists_ rmtree].
    + apply String.eqb_eq in Edots. destruct Hv as [Hv| ->]; [contradiction|].
      reflexivity.
    + destruct (bool_decide (is_Some (version_dirs st !! v))); reflexivity.
  - intros v. unfold merge_to_training.
    destruct (training_data_dir st); [|exact Hsync].
    destruct (version_or_current v st) as [[|a ver]|]; try exact Hsync.
    destruct (_load_version_records (String a ver) st) as [e|[|r rs]];
      try exact Hsync.
    destruct (training_files st !! train_jsonl) as [lines|];
      [destruct (read_records lines)|]; exact Hsync.
Qed.

Lemma X2_manifest_is_persisted_witness :
  manifest (reopen (snd (delete_version "v001" two_version_store)))
  = {| versions := [info_v002]; current := Some "v002" |}
  /\ manifest (snd (delete_version ".." two_version_store)) = manifest_two
  /\ manifest (reopen (snd (delete_version ".." two_version_store)))
     = empty_manifest.
Proof.
  destruct X2_manifest_is_persisted as (_ & Hkeep & Hlost).
  destruct (Hkeep two_version_store eq_refl) as (_ & _ & Hdelete & _).
  destruct (Hlost two_version_store eq_refl) as (_ & Hmem & Hdisk);
    [discriminate|].
  split; [|split; [exact Hmem|exact Hdisk]].
  rewrite (Hdelete "v001"); [reflexivity|reflexivity|left; discriminate].
Defined.

(** X3.  When [create_snapshot], [rollback] or [merge_to_training]
    raises, the store, in memory and on disk, is the one before the
    call.  [delete_version] of a name of one path component raises in
    two cases only.  For the current version it raises before it has
    done anything, and the store is the one before the call.  For
    [".."], when [versions_dir] is there, it raises [FileNotFoundError]
    out of [shutil.rmtree], after the removal: no version directory, no
    [versions_dir] and no [manifest.json] are left, while the manifest
    in memory and the training files are as before. *)
Theorem X3_raise_leaves_store (st : Store) :
  (forall records descr srcs now e,
      fst (create_snapshot records descr srcs now st) = inl e ->
      snd (create_snapshot records descr srcs now st) = st)
  /\ (forall target e,
        fst (rollback target st) = inl e -> snd (rollback target st) = st)
  /\ (forall v e,
        one_component v = true ->
        fst (delete_version v st) = inl e ->
        (current (manifest st) = Some v
         /\ e = ValueError "Cannot delete the current version. Rollback first."
         /\ snd (delete_version v st) = st)
        \/ (v = ".."
            /\ e = FileNotFoundError
            /\ versions_dir_exists st = true
            /\ manifest (snd (delete_version v st)) = manifest st
            /\ manifest_json (snd (delete_version v st)) = None
            /\ version_dirs (snd (delete_version v st)) = ∅
            /\ versions_dir_exists (snd (delete_version v st)) = false
            /\ training_files (snd (delete_version v st)) = training_files st))
  /\ (forall v e,
        fst (merge_to_training v st) = inl e ->
        snd (merge_to_training v st) = st).
Proof.
  split; [|split; [|split]].
  - intros records descr srcs now e. unfold create_snapshot.
    destruct (_next_version st); [reflexivity|discriminate].
  - intros target e. unfold rollback.
    destruct (version_dirs st !! target); [|reflexivity].
    destruct (_load_version_records target st); [reflexivity|discriminate].
  - intros v e _. unfold delete_version.
    destruct (decide (current (manifest st) = Some v)) as [Hcur|Hcur].
    { intros [= <-]. left. repeat split. exact Hcur. }
    unfold place.
    destruct (String.eqb v "" || String.eqb v "."); cbn [exists_ rmtree].
    { destruct (versions_dir_exists st); discriminate. }
    destruct (String.eqb v "..") eqn:Edots; cbn [exists_ rmtree].
    + apply String.eqb_eq in Edots.
      destruct (versions_dir_exists st) eqn:Hex; [|discriminate].
      intros [= <-]. right. repeat split. exact Edots.
    + destruct (bool_decide (is_Some (version_dirs st !! v))); discriminate.
  - intros v e. unfold merge_to_training.
    destruct (training_data_dir st); [|reflexivity].
    destruct (version_or_current v st) as [[|a ver]|]; try reflexivity.
    destruct (_load_version_records (String a ver) st) as [e'|[|r rs]];
      try reflexivity.
    destruct (training_files st !! train_jsonl) as [lines|];
      [destruct (read_records lines)|]; try reflexivity; discriminate.
Qed.

Lemma X3_raise_leaves_store_witness :
  snd (merge_to_training (Some "v404") two_version_store) = two_version_store
  /\ snd (rollback "v001" torn_store) = torn_store
  /\ version_dirs (snd (delete_version ".." two_version_store)) = ∅
  /\ manifest_json (snd (delete_version ".." two_version_store)) = None.
Proof.
  destruct (X3_raise_leaves_store two_version_store)
    as (_ & _ & Hdelete & Hmerge).
  destruct (X3_raise_leaves_store torn_store) as (_ & Hroll & _).
  split; [|split].
  - apply (Hmerge (Some "v404") (ValueError "No records in version v404")).
    reflexivity.
  - apply (Hroll "v001" JSONDecodeError). reflexivity.
  - destruct (Hdelete ".." FileNotFoundError)
      as [(Hcur & _)|(_ & _ & _ & _ & Hjson & Hdirs & _)];
      [reflexivity|reflexivity|discriminate Hcur|].
    split; [exact Hdirs|exact Hjson].
Defined.


Lemma NoDup_map_filter {A B} (f : A -> B) (keep : A -> bool) (l : list A) :
  NoDup (List.map f l) -> NoDup (List.map f (List.filter keep l)).
Proof.
  induction l as [|a l IH]; [easy|].
  cbn [List.map List.filter]. intros Hnd. apply NoDup_cons in Hnd as [Ha Hl].
  destruct (keep a); [|now apply IH].
  cbn [List.map]. apply NoDup_cons. split; [|now apply IH].
  intros Hin. apply Ha. apply list_elem_of_In in Hin. apply list_elem_of_In.
  apply in_map_iff in Hin as (x & <- & Hx). apply filter_In in Hx as [Hx _].
  apply in_map_iff. eauto.
Qed.

(** X4.  No id is given twice.  The id that [_next_version] allocates
    is the id of no entry of the manifest, deleted versions with smaller
    numbers or not; and when the ids of the manifest are pairwise
    distinct they are so after [create_snapshot], [rollback],
    [delete_version] and [merge_to_training]. *)
Theorem X4_version_ids_distinct (st : Store) :
  (forall v, _next_version st = inr v -> ~ In v (version_ids st))
  /\ (NoDup (version_ids st) ->
      (forall records descr srcs now,
          NoDup (version_ids (snd (create_snapshot records descr srcs now st))))
      /\ (forall target, NoDup (version_ids (snd (rollback target st))))
      /\ (forall v, NoDup (version_ids (snd (delete_version v st))))
      /\ (forall v, NoDup (version_ids (snd (merge_to_training v st))))).
Proof.
  split; [apply next_version_is_fresh|].
  intros Hnd. repeat split.
  - intros records descr srcs now. unfold create_snapshot.
    destruct (_next_version st) as [e|v] eqn:Hnext; [exact Hnd|].
    unfold version_ids in *. cbn [snd manifest with_manifest versions].
    rewrite List.map_app. cbn [List.map version].
    apply NoDup_app. split; [exact Hnd|]. split; [|apply NoDup_singleton].
    intros x Hx Hx'. apply list_elem_of_singleton in Hx'. subst x.
    apply (next_version_is_fresh st v Hnext). now apply list_elem_of_In.
  - intros target. unfold rollback.
    destruct (version_dirs st !! target); [|exact Hnd].
    destruct (_load_version_records target st); exact Hnd.
  - intros v. unfold version_ids in *.
    destruct (delete_version_manifest st v) as [->|[_ ->]]; [exact Hnd|].
    cbn [versions]. now apply NoDup_map_filter.
  - intros v. unfold merge_to_training.
    destruct (training_data_dir st); [|exact Hnd].
    destruct (version_or_current v st) as [[|a ver]|]; try exact Hnd.
    destruct (_load_version_records (String a ver) st) as [e|[|r rs]];
      try exact Hnd.
    destruct (training_files st !! train_jsonl) as [lines|];
      [destruct (read_records lines)|]; exact Hnd.
Qed.

Lemma X4_version_ids_distinct_witness :
  ~ In "v003" (version_ids two_version_store)
  /\ NoDup (version_ids (snd (create_snapshot [] "" None "t" two_version_store))).
Proof.
  destruct (X4_version_ids_distinct two_version_store) as [Hfresh Hkeep].
  split; [apply Hfresh; reflexivity|].
  apply Hkeep. repeat constructor; cbn; rewrite ?elem_of_cons; try easy.
  intros [H|H]; [discriminate|inversion H].
Defined.

(** X5.  Deleting a version other than the current one, under the
    name of a directory of [versions_dir] (one path component other than
    [""], ["."] and [".."]), removes the entries with that id and the
    version's directory and touches nothing else: the other entries keep
    their order, [current], the other directories and the training
    files are as before.  Afterwards the version is gone for good:
    [rollback] to it raises "not found". *)
Theorem X5_delete_then_rollback (st : Store) (v : string) :
  is_version_name v = true ->
  current (manifest st) <> Some v ->
  exists st',
    delete_version v st = (inr tt, st')
    /\ version_ids st' = List.filter (fun i => negb (String.eqb i v)) (version_ids st)
    /\ ~ In v (version_ids st')
    /\ current (manifest st') = current (manifest st)
    /\ version_dirs st' !! v = None
    /\ (forall other, other <> v ->
          version_dirs st' !! other = version_dirs st !! other)
    /\ training_files st' = training_files st
    /\ rollback v st'
       = (inl (ValueError ("Version " ++ v ++ " not found")%string), st').
Proof.
  intros Hname Hcur. unfold delete_version.
  destruct (decide (current (manifest st) = Some v)); [contradiction|].
  rewrite (place_version_name v Hname). cbn [exists_ rmtree].
  assert (forall l, List.map version
                      (List.filter (fun i => negb (String.eqb (version i) v)) l)
                    = List.filter (fun i => negb (String.eqb i v))
                                  (List.map version l)) as Hmap.
  { induction l as [|i l IH]; [reflexivity|]. cbn [List.map List.filter].
    destruct (negb (String.eqb (version i) v)); cbn [List.map]; now rewrite IH. }
  destruct (bool_decide (is_Some (version_dirs st !! v))) eqn:Hex.
  - eexists. split; [reflexivity|]. unfold version_ids.
    cbn [manifest with_manifest with_version_dirs versions current version_dirs
         training_files].
    repeat split.
    + apply Hmap.
    + rewrite Hmap. intros [_ Hv]%filter_In.
      now rewrite String.eqb_refl in Hv.
    + apply lookup_delete_eq.
    + intros other Hother. now apply lookup_delete_ne.
    + unfold rollback. cbn [version_dirs with_manifest with_version_dirs].
      now rewrite lookup_delete_eq.
  - apply bool_decide_eq_false in Hex.
    assert (version_dirs st !! v = None) as Hnone.
    { destruct (version_dirs st !! v) eqn:E; [|reflexivity].
      exfalso. apply Hex. eexists; reflexivity. }
    eexists. split; [reflexivity|]. unfold version_ids.
    cbn [manifest with_manifest versions current version_dirs training_files].
    repeat split.
    + apply Hmap.
    + rewrite Hmap. intros [_ Hv]%filter_In.
      now rewrite String.eqb_refl in Hv.
    + exact Hnone.
    + unfold rollback. cbn [version_dirs with_manifest]. now rewrite Hnone.
Qed.

Lemma X5_delete_then_rollback_witness :
  exists st',
    delete_version "v001" two_version_store = (inr tt, st')
    /\ version_ids st' = ["v002"]
    /\ rollback "v001" st' = (inl (ValueError "Version v001 not found"), st').
Proof.
  destruct (X5_delete_then_rollback two_version_store "v001")
    as (st' & Hrun & Hids & _ & _ & _ & _ & _ & Hroll);
    [reflexivity|discriminate|].
  exists st'. split; [exact Hrun|]. split; [|exact Hroll].
  rewrite Hids. reflexivity.
Defined.

Lemma map_version_filter (v : string) (l : list VersionInfo) :
  List.map version (List.filter (fun i => negb (String.eqb (version i) v)) l)
  = List.filter (fun i => negb (String.eqb i v)) (List.map version l).
Proof.
  induction l as [|i l IH]; [reflexivity|]. cbn [List.map List.filter].
  destruct (negb (String.eqb (version i) v)); cbn [List.map]; now rewrite IH.
Qed.

(** X24.  [delete_version("")] and [delete_version(".")] delete
    [versions_dir] itself.  When neither is the current version and
    [versions_dir] is there, the call returns; no version directory is
    left, whatever its name; the manifest, written out, keeps the
    entries of all versions but those with the id given, and keeps
    [current]; the training files are as before.  Afterwards every
    [rollback] to a name of one path component raises "not found", the
    versions that the manifest lists included. *)
Theorem X24_delete_versions_dir (st : Store) (v : string) :
  v = "" \/ v = "." ->
  current (manifest st) <> Some v ->
  versions_dir_exists st = true ->
  exists st',
    delete_version v st = (inr tt, st')
    /\ version_dirs st' = ∅
    /\ versions_dir_exists st' = false
    /\ version_ids st'
       = List.filter (fun i => negb (String.eqb i v)) (version_ids st)
    /\ current (manifest st') = current (manifest st)
    /\ manifest_json st' = Some (manifest st')
    /\ training_files st' = training_files st
    /\ (forall target,
          one_component target = true ->
          rollback target st'
          = (inl (ValueError ("Version " ++ target ++ " not found")%string), st')).
Proof.
  intros Hv Hcur Hex. unfold delete_version.
  destruct (decide (current (manifest st) = Some v)); [contradiction|].
  assert (place v = VersionsDir) as ->
      by (destruct Hv as [-> | ->]; reflexivity).
  cbn [exists_]. rewrite Hex. cbn [rmtree].
  eexists. split; [reflexivity|]. unfold version_ids.
  cbn [manifest with_manifest versions current version_dirs training_files
       versions_dir_exists manifest_json].
  repeat split. apply map_version_filter.
Qed.

Lemma X24_delete_versions_dir_witness :
  exists st',
    delete_version "" two_version_store = (inr tt, st')
    /\ version_ids st' = ["v001"; "v002"]
    /\ version_dirs st' !! "v001" = None
    /\ rollback "v001" st' = (inl (ValueError "Version v001 not found"), st').
Proof.
  destruct (X24_delete_versions_dir two_version_store "")
    as (st' & Hrun & Hdirs & _ & Hids & _ & _ & _ & Hroll);
    [left; reflexivity|discriminate|reflexivity|].
  exists st'. split; [exact Hrun|]. split; [rewrite Hids; reflexivity|].
  split; [now rewrite Hdirs|]. apply Hroll. reflexivity.
Defined.

(** The outcome of a merge that goes through. *)
Lemma merge_to_training_runs (st : Store) (v : option string) (dir ver : string)
    (lines : list Line) (existing records : list value) :
  training_data_dir st = Some dir ->
  version_or_current v st = Some ver ->
  ver <> "" ->
  _load_version_records ver st = inr records ->
  records <> [] ->
  training_files st !! train_jsonl = Some lines ->
  read_records lines = inr existing ->
  merge_to_training v st
  = (inr (dir ++ "/" ++ train_jsonl)%string,
     with_training_files
       (<[train_jsonl := write_records (existing ++ records)]>
          (<[backup_name ver := lines]> (training_files st))) st).
Proof.
  intros Hdir Hver Hne Hrecs Hnonempty Hold Hread.
  unfold merge_to_training. rewrite Hdir, Hver.
  destruct ver as [|a ver]; [congruence|].
  rewrite Hrecs. destruct records as [|r rs]; [congruence|].
  now rewrite Hold, Hread.
Qed.

(** X6.  Merging is not idempotent.  A second [merge_to_training] of the
    same version appends its records once more, so that [train.jsonl]
    holds [existing ++ records ++ records], and overwrites the backup of
    the first merge: [train.jsonl.bak.<version>] then holds the merged
    file, and the lines from before the first merge are in no file. *)
Theorem X6_merge_twice (st st1 : Store) (v : option string) (dir ver path : string)
    (lines : list Line) (existing records : list value) :
  training_data_dir st = Some dir ->
  version_or_current v st = Some ver ->
  ver <> "" ->
  _load_version_records ver st = inr records ->
  records <> [] ->
  training_files st !! train_jsonl = Some lines ->
  read_records lines = inr existing ->
  merge_to_training v st = (inr path, st1) ->
  exists st2,
    merge_to_training v st1 = (inr path, st2)
    /\ training_files st2 !! train_jsonl
       = Some (write_records (existing ++ records ++ records))
    /\ training_files st2 !! backup_name ver
       = Some (write_records (existing ++ records)).
Proof.
  intros Hdir Hver Hne Hrecs Hnonempty Hold Hread Hfirst.
  rewrite (merge_to_training_runs st v dir ver lines existing records)
    in Hfirst by assumption.
  injection Hfirst as <- <-.
  erewrite (merge_to_training_runs _ v dir ver
              (write_records (existing ++ records))
              (existing ++ records) records);
    [| exact Hdir | exact Hver | exact Hne | exact Hrecs | exact Hnonempty
     | apply lookup_insert_eq | apply read_write_records ].
  eexists. split; [reflexivity|].
  cbn [training_files with_training_files]. split.
  - rewrite lookup_insert_eq. now rewrite <- app_assoc.
  - rewrite lookup_insert_ne by (apply not_eq_sym, backup_is_not_destination).
    apply lookup_insert_eq.
Qed.

Lemma X6_merge_twice_witness :
  exists st2,
    merge_to_training None (snd (merge_to_training None two_version_store))
    = (inr "training/train.jsonl", st2)
    /\ training_files st2 !! "train.jsonl"
       = Some [Json (sample_record "old"); Json (sample_record "2");
               Json (sample_record "2")].
Proof.
  destruct (merge_to_training None two_version_store) as [out st1] eqn:Hfirst.
  assert (out = inr "training/train.jsonl") as ->.
  { change out with (fst (out, st1)). rewrite <- Hfirst. reflexivity. }
  destruct (X6_merge_twice two_version_store st1 None "training" "v002"
              "training/train.jsonl" [Json (sample_record "old"); Blank]
              [sample_record "old"] [sample_record "2"])
    as (st2 & Hsecond & Htrain & _);
    try reflexivity; try discriminate; [exact Hfirst|].
  exists st2. split; [exact Hsecond|exact Htrain].
Defined.








(** X8.  [diff_versions] read the other way round is the mirror image:
    when [diff_versions(a, b)] returns, so does [diff_versions(b, a)],
    with the two record counts exchanged, the opposite [delta], and the
    new sources of the one as the removed sources of the other;
    [delta] is the second count less the first. *)
Theorem X8_diff_mirror (st : Store) (a b : string) (d : Diff) :
  diff_versions a b st = inr d ->
  diff_versions b a st
  = inr {| diff_version_a := b;
           diff_version_b := a;
           records_a := records_b d;
           records_b := records_a d;
           delta := (- delta d)%Z;
           new_sources := removed_sources d;
           removed_sources := new_sources d |}
  /\ delta d = (Z.of_nat (records_b d) - Z.of_nat (records_a d))%Z.
Proof.
  unfold diff_versions.
  destruct (_load_version_records a st) as [e|ra]; [discriminate|].
  destruct (_load_version_records b st) as [e|rb]; [discriminate|].
  cbn [bind].
  destruct (version_sources ra []) as [e|sa]; [discriminate|].
  destruct (version_sources rb []) as [e|sb]; [discriminate|].
  cbn [bind ret]. intros [= <-]. cbn. split; [|reflexivity].
  do 2 f_equal. lia.
Qed.

Lemma X8_diff_mirror_witness :
  exists d,
    diff_versions "v001" "v002" two_version_store = inr d
    /\ delta d = (-1)%Z
    /\ diff_versions "v002" "v001" two_version_store
       = inr {| diff_version_a := "v002"; diff_version_b := "v001";
                records_a := 1; records_b := 2; delta := 1;
                new_sources := [VStr "test_0"; VStr "test_1"];
                removed_sources := [VStr "test_2"] |}.
Proof.
  destruct (diff_versions "v001" "v002" two_version_store) as [e|d] eqn:Hrun;
    [discriminate Hrun|].
  exists d. destruct (X8_diff_mirror _ _ _ _ Hrun) as [Hmirror Hdelta].
  vm_compute in Hrun. injection Hrun as <-.
  split; [reflexivity|]. split; [reflexivity|exact Hmirror].
Defined.



End VersionStoreProps.

(** ** More about the deduplication index *)

Module DedupIndexProps.
Import Py Jsonl Dedup IndexFile DedupProps.

Section WithSketch.
Context `{Sketch}.

(** X10.  Admission makes a text an exact duplicate: after
    [_add_to_index(text)], with or without a key, and also when the LSH
    index refuses the key as already present, [is_duplicate(text)]
    answers [(True, "exact")]; and every text that was an exact
    duplicate before still is. *)
Theorem X10_indexed_text_is_exact (idx : DedupIndex) (t : string)
    (key : option string) :
  is_duplicate (VStr t) (snd (_add_to_index (VStr t) key idx))
  = inr (true, "exact")
  /\ (forall u : string,
        is_duplicate (VStr u) idx = inr (true, "exact") ->
        is_duplicate (VStr u) (snd (_add_to_index (VStr t) key idx))
        = inr (true, "exact")).
Proof.
  destruct (add_to_index_text t key idx) as (idx1 & Hadd & Hhash).
  rewrite Hadd. cbn [snd]. split.
  - apply is_duplicate_known. rewrite Hhash.
    apply elem_of_union_l, elem_of_singleton. reflexivity.
  - intros u Hu. apply is_duplicate_known. rewrite Hhash.
    apply elem_of_union_r.
    unfold is_duplicate in Hu. cbn [encode bind ret] in Hu.
    destruct (bool_decide (xxh64_hexdigest u ∈ exact_hashes idx)) eqn:E.
    + now apply bool_decide_eq_true in E.
    + destruct (lsh_query _ _); discriminate.
Qed.

(** On records whose text is known to the index, the loop counts exact
    duplicates and does nothing else. *)
Lemma dedup_loop_all_known (l : list dict) key kept stats idx :
  Forall (known_text key idx) l ->
  dedup_loop l key kept stats idx
  = (inr (kept, more_exact (List.length l) stats), idx).
Proof.
  revert stats. induction l as [|r l IH]; intros stats Hl.
  - cbn. now destruct stats.
  - apply Forall_cons in Hl as [(t & Ht & Hne & Hin) Hl].
    rewrite (dedup_loop_known r l key kept stats idx t Ht Hne Hin).
    rewrite (IH _ Hl). unfold more_exact, count_exact.
    cbn [total_input exact_dupes near_dupes unique List.length].
    replace (List.length l + S (exact_dupes stats))
      with (S (List.length l) + exact_dupes stats) by lia.
    reflexivity.
Qed.

Lemma known_text_grows key idx idx' r :
  exact_hashes idx ⊆ exact_hashes idx' ->
  known_text key idx r -> known_text key idx' r.
Proof.
  intros Hsub (t & Ht & Hne & Hin). exists t. repeat split; auto.
Qed.

Lemma dedup_loop_hashes_grow l key kept stats idx :
  exact_hashes idx ⊆ exact_hashes (snd (dedup_loop l key kept stats idx)).
Proof.
  intros h Hin. now apply dedup_loop_grows.
Qed.

(** The records that the loop adds are taken from the batch in its
    order, and their texts are known to the index it leaves. *)
Lemma dedup_loop_adds l key kept stats idx kept' stats' idx' :
  dedup_loop l key kept stats idx = (inr (kept', stats'), idx') ->
  exists extra,
    kept' = kept ++ extra
    /\ sublist extra l
    /\ Forall (known_text key idx') extra.
Proof.
  revert kept stats idx.
  induction l as [|r l IH]; intros kept stats idx.
  - cbn. intros [= <- _ _]. exists []. rewrite app_nil_r.
    repeat split; constructor.
  - cbn [dedup_loop]. fold (content_of key r).
    destruct (truthy (content_of key r)) eqn:Et; cbn [negb].
    2:{ intros E. destruct (IH _ _ _ E) as (extra & -> & Hsub & Hk).
        exists extra. repeat split; [now apply sublist_cons|exact Hk]. }
    destruct (is_duplicate (content_of key r) idx) as [e|[is_dup reason]] eqn:Ed;
      [discriminate|].
    destruct (is_dup && String.eqb reason "exact").
    { intros E. destruct (IH _ _ _ E) as (extra & -> & Hsub & Hk).
      exists extra. repeat split; [now apply sublist_cons|exact Hk]. }
    destruct (is_dup && String.eqb reason "near").
    { intros E. destruct (IH _ _ _ E) as (extra & -> & Hsub & Hk).
      exists extra. repeat split; [now apply sublist_cons|exact Hk]. }
    unfold is_duplicate in Ed.
    destruct (encode (content_of key r)) as [e|t] eqn:Ee; [discriminate|].
    assert (content_of key r = VStr t) as Ht.
    { destruct (content_of key r); try discriminate. now injection Ee as ->. }
    rewrite Ht in *.
    destruct (add_to_index_text t None idx) as (idx1 & Hadd & Hhash).
    rewrite Hadd. intros E.
    pose proof (dedup_loop_hashes_grow l key (kept ++ [r]) (count_unique stats) idx1)
      as Hgrow.
    rewrite E in Hgrow. cbn [snd] in Hgrow.
    destruct (IH _ _ _ E) as (extra & -> & Hsub & Hk).
    exists (r :: extra). rewrite <- app_assoc. repeat split.
    + now apply sublist_skip.
    + constructor; [|exact Hk]. exists t. split; [exact Ht|]. split.
      * cbn in Et. apply negb_true_iff, String.eqb_neq in Et. exact Et.
      * apply Hgrow. rewrite Hhash.
        apply elem_of_union_l, elem_of_singleton. reflexivity.
Qed.

(** X11.  [deduplicate_batch] selects and does not reorder: the list it
    returns is a sub-list of the batch, in the order of the batch.  And
    the selection is stable: given the list it returned and the index it
    left, [deduplicate_batch] keeps nothing, counts every record as an
    exact duplicate and leaves the index as it is. *)
Theorem X11_kept_is_stable_selection (records : list dict) (key : string)
    (idx idx' : DedupIndex) (kept : list dict) (stats : DedupStats) :
  deduplicate_batch records key idx = (inr (kept, stats), idx') ->
  sublist kept records
  /\ deduplicate_batch kept key idx'
     = (inr ([], {| total_input := List.length kept;
                    exact_dupes := List.length kept;
                    near_dupes := 0;
                    unique := 0 |}), idx').
Proof.
  unfold deduplicate_batch. intros Hrun.
  destruct (dedup_loop_adds _ _ _ _ _ _ _ _ Hrun) as (extra & Hk & Hsub & Hknown).
  cbn [app] in Hk. subst extra. split; [exact Hsub|].
  rewrite (dedup_loop_all_known kept key [] _ idx' Hknown).
  unfold more_exact. cbn [total_input exact_dupes near_dupes unique].
  now rewrite Nat.add_0_r.
Qed.


(** X12.  The exact hashes survive a round trip through the file of
    [save_index]: [load_index] of the file that [save_index] wrote gives
    the loading index the set of hashes of the saving one, so that every
    text that was an exact duplicate for the one is an exact duplicate
    for the other.  The set is replaced, not merged, and the LSH index,
    the MinHashes and the counter of the loading index are left as they
    are.  Loading from a path that holds no file changes nothing. *)
Theorem X12_index_file_round_trip (path : string)
    (files : gmap string (list string)) (saved loading : DedupIndex) :
  let restored := load_index path (save_index path saved files) loading in
  exact_hashes restored = exact_hashes saved
  /\ lsh restored = lsh loading
  /\ minhashes restored = minhashes loading
  /\ _counter restored = _counter loading
  /\ (forall t : string,
        is_duplicate (VStr t) saved = inr (true, "exact") ->
        is_duplicate (VStr t) restored = inr (true, "exact"))
  /\ (forall other, files !! other = None ->
        load_index other files loading = loading).
Proof.
  cbn zeta. unfold load_index, save_index. rewrite lookup_insert_eq.
  cbn [exact_hashes lsh minhashes _counter].
  rewrite list_to_set_elements_L. repeat split.
  - intros t Ht. apply is_duplicate_known. cbn [exact_hashes].
    unfold is_duplicate in Ht. cbn [encode bind ret] in Ht.
    destruct (bool_decide (xxh64_hexdigest t ∈ exact_hashes saved)) eqn:E.
    + now apply bool_decide_eq_true in E.
    + destruct (lsh_query _ _); discriminate.
  - intros other ->. reflexivity.
Qed.

Lemma load_line_chat_spec line loaded idx :
  chat_line line ->
  exists idx',
    load_line line loaded idx
    = (inr (loaded + List.length (omap indexed_text [line])), idx')
    /\ exact_hashes idx'
       = list_to_set (xxh64_hexdigest <$> omap indexed_text [line])
         ∪ exact_hashes idx.
Proof.
  intros (d & ms & -> & Hms & Hthird). unfold load_line.
  cbn [loads get bind ret omap list_omap indexed_text]. rewrite Hms.
  cbn [len bind ret].
  destruct (3 <=? List.length ms) eqn:E.
  - apply Nat.leb_le in E. destruct (Hthird E) as (m & t & Hnth & Hcontent).
    cbn [getitem]. rewrite Hnth. cbn [bind ret get]. rewrite Hcontent.
    destruct (add_to_index_text t
                (Some ("existing_" ++ str_N (N.of_nat loaded))%string) idx)
      as (idx1 & -> & Hhash).
    exists idx1. cbn. split; [do 2 f_equal; lia|].
    rewrite Hhash. set_solver.
  - exists idx. cbn. split; [do 2 f_equal; lia|]. set_solver.
Qed.

Lemma load_lines_chat_spec lines loaded idx :
  Forall chat_line lines ->
  exists idx',
    load_lines lines loaded idx
    = (inr (loaded + List.length (omap indexed_text lines)), idx')
    /\ exact_hashes idx'
       = list_to_set (xxh64_hexdigest <$> omap indexed_text lines)
         ∪ exact_hashes idx.
Proof.
  revert loaded idx. induction lines as [|l lines IH]; intros loaded idx Hl.
  - exists idx. cbn. split; [do 2 f_equal; lia|set_solver].
  - apply Forall_cons in Hl as [Hc Hl]. cbn [load_lines].
    destruct (load_line_chat_spec l loaded idx Hc) as (idx1 & -> & Hh1).
    destruct (IH (loaded + List.length (omap indexed_text [l])) idx1 Hl)
      as (idx2 & -> & Hh2).
    exists idx2. change (l :: lines) with ([l] ++ lines).
    rewrite omap_app, fmap_app, list_to_set_app_L, length_app.
    split; [do 2 f_equal; lia|]. rewrite Hh2, Hh1. set_solver.
Qed.

(** X13.  Over a corpus whose lines hold chat records,
    [load_existing] indexes the answer of every record with three
    messages or more, of [train.jsonl] and of [validation.jsonl]: it
    returns, the number it reports is the number of these records, each
    of their answers is an exact duplicate afterwards, and so is every
    text that was one before.  A file that does not exist counts as a
    file without lines. *)
Theorem X13_load_existing_indexes (corpus : gmap string (list Line))
    (idx : DedupIndex) :
  Forall chat_line (corpus_lines "train.jsonl" corpus) ->
  Forall chat_line (corpus_lines "validation.jsonl" corpus) ->
  let texts :=
    omap indexed_text (corpus_lines "train.jsonl" corpus
                       ++ corpus_lines "validation.jsonl" corpus) in
  exists idx',
    load_existing corpus idx = (inr (List.length texts), idx')
    /\ (forall t, In t texts -> is_duplicate (VStr t) idx' = inr (true, "exact"))
    /\ (forall t : string,
          is_duplicate (VStr t) idx = inr (true, "exact") ->
          is_duplicate (VStr t) idx' = inr (true, "exact")).
Proof.
  intros Htrain Hvalid. cbn zeta.
  assert (forall name loaded i,
             load_file name corpus loaded i
             = load_lines (corpus_lines name corpus) loaded i) as Hfile.
  { intros name loaded i. unfold load_file, corpus_lines.
    destruct (corpus !! name); reflexivity. }
  rewrite load_existing_files, Hfile.
  destruct (load_lines_chat_spec _ 0 idx Htrain) as (idx1 & -> & Hh1).
  rewrite Hfile.
  destruct (load_lines_chat_spec _ (0 + List.length (omap indexed_text
                (corpus_lines "train.jsonl" corpus))) idx1 Hvalid)
    as (idx2 & -> & Hh2).
  exists idx2. rewrite omap_app, length_app. split; [reflexivity|].
  split.
  - intros t Ht. apply is_duplicate_known. rewrite Hh2, Hh1.
    apply in_app_or in Ht as [Ht|Ht]; apply list_elem_of_In in Ht.
    + apply elem_of_union_r, elem_of_union_l, elem_of_list_to_set.
      now apply list_elem_of_fmap_2.
    + apply elem_of_union_l, elem_of_list_to_set.
      now apply list_elem_of_fmap_2.
  - intros t Ht. apply is_duplicate_known. rewrite Hh2, Hh1.
    do 2 apply elem_of_union_r.
    unfold is_duplicate in Ht. cbn [encode bind ret] in Ht.
    destruct (bool_decide (xxh64_hexdigest t ∈ exact_hashes idx)) eqn:E.
    + now apply bool_decide_eq_true in E.
    + destruct (lsh_query _ _); discriminate.
Qed.

(** X14.  A text shorter than the shingle size has no n-gram: its
    MinHash is the one of [MinHash(num_perm)] with no update, the same
    for all such texts.  Hence, once such a text is in the index under a
    key that a query for its signature returns, every other text shorter
    than the shingle size is reported as a duplicate. *)
Theorem X14_short_texts_collide (idx : DedupIndex) (a b key : string) :
  String.length a < shingle_size idx ->
  String.length b < shingle_size idx ->
  _make_minhash a idx = minhash_new (num_perm idx)
  /\ _make_minhash b idx = _make_minhash a idx
  /\ (forall lsh',
        lsh_insert key (minhash_new (num_perm idx)) (lsh idx) = Some lsh' ->
        In key (lsh_query (minhash_new (num_perm idx)) lsh') ->
        exists reason,
          is_duplicate (VStr b) (snd (_add_to_index (VStr a) (Some key) idx))
          = inr (true, reason)).
Proof.
  intros Ha Hb.
  assert (forall t i, String.length t < shingle_size i ->
                      _make_minhash t i = minhash_new (num_perm i)) as Hshort.
  { intros t i Ht. unfold _make_minhash.
    replace (String.length t + 1 - shingle_size i) with 0 by lia. reflexivity. }
  split; [now apply Hshort|]. split; [now rewrite !Hshort|].
  intros lsh' Hins Hq. unfold _add_to_index. cbn [encode ret].
  rewrite (Hshort a idx Ha), Hins. cbn [snd].
  unfold is_duplicate. cbn [encode bind ret exact_hashes lsh].
  destruct (bool_decide _); [eexists; reflexivity|].
  assert (_make_minhash b
            {| num_perm := num_perm idx; shingle_size := shingle_size idx;
               exact_hashes := {[xxh64_hexdigest a]} ∪ exact_hashes idx;
               lsh := lsh';
               minhashes := <[key := (minhash_new (num_perm idx), String.length a)]>
                              (minhashes idx);
               _counter := _counter idx |}
          = minhash_new (num_perm idx)) as ->.
  { rewrite Hshort; [reflexivity|exact Hb]. }
  destruct (lsh_query (minhash_new (num_perm idx)) lsh'); [contradiction|].
  eexists; reflexivity.
Qed.

End WithSketch.

Lemma X10_indexed_text_is_exact_witness :
  is_duplicate (VStr Samples.answer_1)
    (snd (_add_to_index (VStr Samples.answer_1) (Some "k") Samples.empty_index))
  = inr (true, "exact").
Proof.
  destruct (@X10_indexed_text_is_exact exact_sketch Samples.empty_index
              Samples.answer_1 (Some "k")) as [Hexact _].
  exact Hexact.
Defined.

Lemma X12_index_file_round_trip_witness :
  is_duplicate (VStr Samples.answer_1)
    (load_index "dedup_index.json"
       (save_index "dedup_index.json"
          (snd (_add_to_index (VStr Samples.answer_1) None Samples.empty_index)) ∅)
       Samples.empty_index)
  = inr (true, "exact").
Proof.
  pose proof (@X12_index_file_round_trip exact_sketch "dedup_index.json" ∅
                (snd (_add_to_index (VStr Samples.answer_1) None Samples.empty_index))
                Samples.empty_index) as Hround.
  cbv zeta in Hround. destruct Hround as (_ & _ & _ & _ & Hdup & _).
  apply Hdup. vm_compute. reflexivity.
Defined.

Lemma X13_load_existing_indexes_witness :
  exists idx',
    load_existing Samples.sound_corpus Samples.empty_index = (inr 2, idx')
    /\ is_duplicate (VStr Samples.answer_2) idx' = inr (true, "exact").
Proof.
  destruct (@X13_load_existing_indexes exact_sketch Samples.sound_corpus
              Samples.empty_index) as (idx' & Hrun & Hknown & _).
  - repeat constructor; eexists _, _; (split; [reflexivity|]);
      (split; [reflexivity|]); intros _; eexists _, _; split; reflexivity.
  - repeat constructor. eexists _, _. split; [reflexivity|].
    split; [reflexivity|]. cbn. lia.
  - exists idx'. split; [exact Hrun|]. apply Hknown. right. left. reflexivity.
Defined.

Lemma X14_short_texts_collide_witness :
  exists reason,
    is_duplicate (VStr "cd")
      (snd (_add_to_index (VStr "ab") (Some "k") Samples.empty_index))
    = inr (true, reason).
Proof.
  destruct (@X14_short_texts_collide exact_sketch Samples.empty_index
              "ab" "cd" "k") as (_ & _ & Hdup); [cbn; lia|cbn; lia|].
  apply (Hdup (Samples.float_0_8, [("k", ∅)])); [reflexivity|].
  left. reflexivity.
Defined.

Lemma X11_kept_is_stable_selection_witness :
  fst (deduplicate_batch
         [List.nth 0 Samples.dedup_batch []; List.nth 2 Samples.dedup_batch []]
         "text"
         (snd (deduplicate_batch Samples.dedup_batch "text" Samples.empty_index)))
  = inr ([], {| total_input := 2; exact_dupes := 2; near_dupes := 0; unique := 0 |}).
Proof.
  destruct (deduplicate_batch Samples.dedup_batch "text" Samples.empty_index)
    as [out idx'] eqn:Hrun.
  assert (out = inr ([List.nth 0 Samples.dedup_batch [];
                      List.nth 2 Samples.dedup_batch []],
                     {| total_input := 3; exact_dupes := 1;
                        near_dupes := 0; unique := 2 |})) as ->.
  { change out with (fst (out, idx')). rewrite <- Hrun. vm_compute. reflexivity. }
  destruct (@X11_kept_is_stable_selection exact_sketch _ _ _ _ _ _ Hrun)
    as [_ Hagain].
  cbn [snd]. rewrite Hagain. reflexivity.
Defined.


End DedupIndexProps.

(** ** More about the quality filter *)

Module FilterProps.
Import Py QualityFilter FilterBatch Runner.

(** The verdict of [filter_record] is an acceptance with no reason or a
    rejection with one of the seven reasons. *)
Lemma filter_record_verdict text config min_length :
  filter_record text config min_length = (true, "")
  \/ exists reason,
       filter_record text config min_length = (false, reason)
       /\ In reason reasons.
Proof.
  unfold filter_record, reasons.
  repeat match goal with
         | |- context [if ?b then _ else _] => destruct b
         end;
    first [ now left | right; eexists; split; [reflexivity|cbn; tauto] ].
Qed.

(** What an acceptance tells about the text. *)
Lemma filter_record_accepts text config min_length reason :
  filter_record text config min_length = (true, reason) ->
  let cfg := default default_config config in
  reason = ""
  /\ (length_threshold cfg min_length <= Z.of_nat (String.length text))%Z
  /\ (max_answer_length cfg = 0%Z
      \/ (Z.of_nat (String.length text) <= max_answer_length cfg)%Z)
  /\ section_numbers_only (strip text) = false
  /\ table_borders_only (strip text) = false
  /\ (Z.of_nat (count "<!-- image -->" text) <= max_image_artifacts cfg)%Z.
Proof.
  cbn zeta. unfold filter_record.
  destruct (Z.ltb_spec (Z.of_nat (String.length text))
              (length_threshold (default default_config config) min_length));
    [discriminate|].
  destruct (Z.eqb_spec (max_answer_length (default default_config config)) 0)
    as [Hz|Hz]; cbn [negb andb].
  - destruct (section_numbers_only (strip text)); [discriminate|].
    destruct (table_borders_only (strip text)); [discriminate|].
    destruct (_ && _); [discriminate|]. destruct (_ && _); [discriminate|].
    destruct (Z.ltb_spec (max_image_artifacts (default default_config config))
                (Z.of_nat (count "<!-- image -->" text))); [discriminate|].
    intros [= <-]. repeat split; auto.
  - destruct (Z.ltb_spec (max_answer_length (default default_config config))
                (Z.of_nat (String.length text))); [discriminate|].
    destruct (section_numbers_only (strip text)); [discriminate|].
    destruct (table_borders_only (strip text)); [discriminate|].
    destruct (_ && _); [discriminate|]. destruct (_ && _); [discriminate|].
    destruct (Z.ltb_spec (max_image_artifacts (default default_config config))
                (Z.of_nat (count "<!-- image -->" text))); [discriminate|].
    intros [= <-]. repeat split; auto.
Qed.

(** X15.  [filter_record] answers in one of eight ways: [(True, "")],
    or [False] with one of the seven reasons [too_short], [too_long],
    [section_numbers_only], [table_borders_only], [table_heavy],
    [low_alpha], [image_artifacts]; there is no acceptance with a reason
    and no rejection without one. *)
Theorem X15_verdicts_of_filter_record (text : string)
    (config : option FilterConfig) (min_length : option Z) :
  filter_record text config min_length = (true, "")
  \/ exists reason,
       filter_record text config min_length = (false, reason)
       /\ In reason reasons /\ reason <> "".
Proof.
  destruct (filter_record_verdict text config min_length)
    as [Hok|(reason & Hno & Hin)]; [now left|].
  right. exists reason. repeat split; [exact Hno|exact Hin|].
  intros ->. cbn in Hin. intuition discriminate.
Qed.

(** X16.  What [filter_record] never accepts: a text shorter than the
    length threshold in force, a text longer than a non-zero
    [max_answer_length], a text made of digits and dots only or of table
    borders only once stripped, a text with more image markers than
    [max_image_artifacts]. *)
Theorem X16_accepted_text_is_within_bounds (text : string)
    (config : option FilterConfig) (min_length : option Z) :
  filter_record text config min_length = (true, "") ->
  let cfg := default default_config config in
  (length_threshold cfg min_length <= Z.of_nat (String.length text))%Z
  /\ (max_answer_length cfg = 0%Z
      \/ (Z.of_nat (String.length text) <= max_answer_length cfg)%Z)
  /\ section_numbers_only (strip text) = false
  /\ table_borders_only (strip text) = false
  /\ (Z.of_nat (count "<!-- image -->" text) <= max_image_artifacts cfg)%Z.
Proof.
  intros Hok. apply (filter_record_accepts text config min_length "" Hok).
Qed.

Lemma X16_accepted_text_is_within_bounds_witness :
  (100 <= Z.of_nat (String.length Samples.good_text))%Z
  /\ section_numbers_only (strip Samples.good_text) = false.
Proof.
  destruct (X16_accepted_text_is_within_bounds Samples.good_text None None)
    as (Hlen & _ & Hsec & _); [vm_compute; reflexivity|].
  split; [exact Hlen|exact Hsec].
Defined.

(** X17.  Zero is no bound.  [min_length = 0] does not mean "no
    minimum": it is the same as no [min_length], so
    [min_content_length] applies.  [max_answer_length = 0] switches the
    upper bound off: no text is [too_long].  And the empty text is
    [too_short] as soon as the threshold in force is positive. *)
Theorem X17_zero_is_no_bound (text : string) (config : option FilterConfig) :
  filter_record text config (Some 0%Z) = filter_record text config None
  /\ (forall min_length,
        max_answer_length (default default_config config) = 0%Z ->
        snd (filter_record text config min_length) <> "too_long")
  /\ (forall min_length,
        (0 < length_threshold (default default_config config) min_length)%Z ->
        filter_record "" config min_length = (false, "too_short")).
Proof.
  split; [reflexivity|]. split.
  - intros min_length Hz. unfold filter_record. rewrite Hz.
    cbn [Z.eqb negb andb].
    repeat match goal with
           | |- context [if ?b then _ else _] => destruct b
           end; cbn; discriminate.
  - intros min_length Hpos. unfold filter_record. cbn [String.length].
    change (Z.of_nat 0) with 0%Z.
    destruct (Z.ltb_spec 0 (length_threshold (default default_config config)
                                             min_length)); [reflexivity|lia].
Qed.

Lemma X17_zero_is_no_bound_witness :
  filter_record "" None None = (false, "too_short")
  /\ snd (filter_record Samples.good_text
            (Some {| min_content_length := 100; min_answer_length := 200;
                     max_answer_length := 0; max_table_ratio := float_0_3;
                     min_alpha_ratio := float_0_3; max_image_artifacts := 2 |})
            None) <> "too_long".
Proof.
  destruct (X17_zero_is_no_bound "" None) as (_ & _ & Hempty).
  destruct (X17_zero_is_no_bound Samples.good_text
              (Some {| min_content_length := 100; min_answer_length := 200;
                       max_answer_length := 0; max_table_ratio := float_0_3;
                       min_alpha_ratio := float_0_3; max_image_artifacts := 2 |}))
    as (_ & Hlong & _).
  split; [apply Hempty; cbn; lia|apply Hlong; reflexivity].
Defined.


Lemma filter_record_value_verdict text config min_length verdict :
  filter_record_value text config min_length = inr verdict ->
  verdict = (true, "")
  \/ exists reason, verdict = (false, reason) /\ In reason reasons.
Proof.
  unfold filter_record_value.
  destruct text as [|b|z|s|l|d]; try discriminate.
  - intros [= <-]. apply filter_record_verdict.
  - cbn [len bind ret].
    repeat match goal with
           | |- context [if ?b then _ else _] => destruct b
           end; try discriminate; intros [= <-]; right; eexists;
      (split; [reflexivity|cbn; tauto]).
  - cbn [len bind ret].
    repeat match goal with
           | |- context [if ?b then _ else _] => destruct b
           end; try discriminate; intros [= <-]; right; eexists;
      (split; [reflexivity|cbn; tauto]).
Qed.

Lemma count_rejected_counts reason stats :
  In reason reasons ->
  rejected (count_rejected reason stats) = S (rejected stats)
  /\ passed (count_rejected reason stats) = passed stats
  /\ total (count_rejected reason stats) = total stats.
Proof.
  unfold reasons. cbn [In].
  intros [<-|[<-|[<-|[<-|[<-|[<-|[<-|[]]]]]]]]; unfold rejected; cbn; lia.
Qed.

Lemma filter_loop_accounts l config key kept stats kept' stats' :
  filter_loop l config key kept stats = inr (kept', stats') ->
  total stats' = total stats + List.length l
  /\ passed stats' + List.length kept = passed stats + List.length kept'
  /\ passed stats' + rejected stats'
     = passed stats + rejected stats + List.length l
  /\ exists extra, kept' = kept ++ extra /\ sublist extra l.
Proof.
  revert kept stats. induction l as [|r l IH]; intros kept stats.
  - cbn. intros [= <- <-]. repeat split; try lia.
    exists []. rewrite app_nil_r. split; [reflexivity|constructor].
  - cbn [filter_loop].
    destruct (filter_record_value _ _ _) as [e|verdict] eqn:Ev; [discriminate|].
    cbn [bind].
    destruct (filter_record_value_verdict _ _ _ _ Ev) as [->|(reason & -> & Hin)];
      cbn [fst snd].
    + intros E. destruct (IH _ _ E) as (H1 & H2 & H3 & extra & -> & Hsub).
      rewrite length_app in H2. unfold rejected in *. cbn in *.
      repeat split; try lia.
      exists (r :: extra). rewrite <- app_assoc. split; [reflexivity|].
      now apply sublist_skip.
    + intros E. destruct (IH _ _ E) as (H1 & H2 & H3 & extra & -> & Hsub).
      destruct (count_rejected_counts reason (count_total stats) Hin)
        as (Hr & Hp & Ht).
      rewrite Hr, Hp, Ht in *. unfold rejected in *. cbn in *.
      repeat split; try lia.
      exists extra. split; [reflexivity|]. now apply sublist_cons.
Qed.

Lemma filter_loop_texts l config key kept stats :
  Forall (has_text key) l ->
  exists stats',
    filter_loop l config key kept stats
    = inr (kept ++ List.filter
                     (fun r => fst (filter_record (text_of key r) (Some config) None))
                     l,
           stats').
Proof.
  revert kept stats. induction l as [|r l IH]; intros kept stats Hl.
  - exists stats. cbn. now rewrite app_nil_r.
  - apply Forall_cons in Hl as [[s Hs] Hl]. cbn [filter_loop List.filter].
    unfold text_of at 1. rewrite Hs. cbn [filter_record_value bind ret].
    destruct (fst (filter_record s (Some config) None)).
    + destruct (IH (kept ++ [r]) (count_passed (count_total stats)) Hl)
        as (stats' & ->).
      exists stats'. now rewrite <- app_assoc.
    + apply IH, Hl.
Qed.

(** X18.  The counters of [filter_batch] add up.  Whenever it returns,
    [total] is the number of records, [passed] the length of the list
    returned, every record that did not pass is counted under exactly one
    of the seven reasons, so that [passed] and the seven counters sum to
    [total], and the list returned is a sub-list of the batch in its
    order.  On records whose text is a string or missing it returns, and
    the list is the records whose text [filter_record] accepts with the
    configuration and no [min_length]: [min_answer_length] plays no part
    in it. *)
Theorem X18_filter_batch_accounts (records : list dict)
    (config : option FilterConfig) (key : string) :
  (forall kept stats,
      filter_batch records config key = inr (kept, stats) ->
      total stats = List.length records
      /\ passed stats = List.length kept
      /\ passed stats + rejected stats = total stats
      /\ sublist kept records)
  /\ (Forall (has_text key) records ->
      exists stats,
        filter_batch records config key
        = inr (List.filter
                 (fun r => fst (filter_record (text_of key r) config None))
                 records,
               stats)).
Proof.
  unfold filter_batch. split.
  - intros kept stats Hrun.
    destruct (filter_loop_accounts _ _ _ _ _ _ _ Hrun)
      as (H1 & H2 & H3 & extra & Hk & Hsub).
    cbn [app] in Hk. subst extra. cbn in H1, H2, H3.
    unfold rejected in *. cbn in H3. repeat split; try lia. exact Hsub.
  - intros Htexts.
    destruct (filter_loop_texts records (default default_config config) key
                [] no_stats Htexts) as (stats & ->).
    exists stats. cbn [app]. destruct config; reflexivity.
Qed.

Lemma X18_filter_batch_accounts_witness :
  exists stats,
    filter_batch [[("text", VStr Samples.good_text)]; [("text", VStr "short")];
                  [("body", VStr Samples.good_text)]] None "text"
    = inr ([[("text", VStr Samples.good_text)]], stats)
    /\ total stats = 3 /\ passed stats = 1 /\ rejected stats = 2.
Proof.
  destruct (X18_filter_batch_accounts
              [[("text", VStr Samples.good_text)]; [("text", VStr "short")];
               [("body", VStr Samples.good_text)]] None "text")
    as [Hcount Hrun].
  destruct Hrun as (stats & Hrun);
    [repeat constructor; eexists; reflexivity|].
  assert (List.filter
            (fun r => fst (filter_record (text_of "text" r) None None))
            [[("text", VStr Samples.good_text)]; [("text", VStr "short")];
             [("body", VStr Samples.good_text)]]
          = [[("text", VStr Samples.good_text)]]) as Hkept
      by (vm_compute; reflexivity).
  rewrite Hkept in Hrun.
  exists stats. split; [exact Hrun|].
  destruct (Hcount _ _ Hrun) as (Ht & Hp & Hsum & _).
  cbn in Ht, Hp. repeat split; [exact Ht|exact Hp|lia].
Defined.

Lemma quality_step_survivors config l filtered rejected filtered' rejected' :
  quality_step config l filtered rejected = inr (filtered', rejected') ->
  exists extra,
    filtered' = filtered ++ extra
    /\ sublist extra l
    /\ List.length extra + (rejected' - rejected) <= List.length l
    /\ rejected <= rejected'
    /\ Forall
         (fun r =>
            exists t,
              answer_of r = Some t
              /\ filter_record t (Some config) (Some (min_answer_length config))
                 = (true, ""))
         extra.
Proof.
  revert filtered rejected. induction l as [|r l IH]; intros filtered rejected.
  - cbn. intros [= <- <-]. exists []. rewrite app_nil_r.
    split; [reflexivity|]. split; [apply sublist_nil|].
    split; [cbn; lia|]. split; [lia|constructor].
  - cbn [quality_step].
    destruct (get "messages" (VList []) r) as [e|messages] eqn:Eg; [discriminate|].
    cbn [bind]. destruct (len messages) as [e|n] eqn:En; [discriminate|].
    cbn [bind]. destruct (3 <=? n) eqn:E3.
    2:{ intros E. destruct (IH _ _ E) as (extra & -> & Hsub & Hlen & Hle & Hall).
        exists extra. repeat split; auto; [now apply sublist_cons|cbn; lia]. }
    destruct (getitem 2 messages) as [e|third] eqn:Et; [discriminate|].
    cbn [bind]. destruct (get "content" (VStr "") third) as [e|content] eqn:Ec;
      [discriminate|].
    cbn [bind].
    destruct (filter_record_value content (Some config)
                (Some (min_answer_length config))) as [e|[ok reason]] eqn:Ev;
      [discriminate|].
    cbn [bind fst]. destruct ok.
    + intros E. destruct (IH _ _ E) as (extra & -> & Hsub & Hlen & Hle & Hall).
      exists (r :: extra). rewrite <- app_assoc.
      repeat split; auto; [now apply sublist_skip|cbn; lia|].
      constructor; [|exact Hall].
      destruct content as [|b|z|s|cl|cd]; try discriminate.
      * exists s. split.
        -- destruct r as [|b|z|s0|rl|d]; try discriminate.
           cbn [get ret] in Eg. injection Eg as Eg.
           unfold answer_of. rewrite Eg.
           destruct messages as [|b|z|s0|ms|md]; try discriminate.
           ++ cbn in Et. destruct (String.get 2 s0); [|discriminate].
              injection Et as <-. discriminate.
           ++ cbn [getitem] in Et.
              destruct (nth_error ms 2) as [x|]; [|discriminate].
              injection Et as ->.
              destruct third as [|b|z|s0|tl|td]; try discriminate.
              cbn [get ret] in Ec. injection Ec as ->. reflexivity.
        -- cbn [filter_record_value ret] in Ev. injection Ev as Ev.
           destruct (filter_record_accepts _ _ _ _ Ev) as [-> _]. exact Ev.
      * cbn [filter_record_value len bind ret] in Ev.
        repeat match type of Ev with
               | context [if ?b then _ else _] => destruct b
               end; discriminate.
      * cbn [filter_record_value len bind ret] in Ev.
        repeat match type of Ev with
               | context [if ?b then _ else _] => destruct b
               end; discriminate.
    + intros E. destruct (IH _ _ E) as (extra & -> & Hsub & Hlen & Hle & Hall).
      exists extra. repeat split; auto; [now apply sublist_cons|cbn; lia|lia].
Qed.

(** The quality step on records in the chat format: it returns, with
    the records that pass and the number of those that fail. *)
Lemma quality_step_converted config l filtered rejected :
  Forall converted l ->
  quality_step config l filtered rejected
  = inr (filtered ++ List.filter (passes config) l,
         rejected + List.length (List.filter (fails config) l)).
Proof.
  revert filtered rejected. induction l as [|r l IH]; intros filtered rejected Hall.
  - cbn. now rewrite app_nil_r, Nat.add_0_r.
  - apply Forall_cons in Hall as [(d & ms & -> & Hms & Hthird) Hall].
    cbn [quality_step get ret bind]. rewrite Hms. cbn [len ret bind].
    unfold passes, fails. cbn [List.filter].
    destruct (3 <=? List.length ms) eqn:E3.
    + apply Nat.leb_le in E3. destruct (Hthird E3) as (t & Ht).
      rewrite Ht. unfold answer_of in Ht. rewrite Hms in Ht.
      cbn [getitem].
      destruct (nth_error ms 2) as [[| | | | |m]|]; try discriminate.
      cbn [get ret bind].
      destruct (dict_get "content" (VStr "") m) as [| | |s| |] eqn:Ec;
        try discriminate.
      injection Ht as ->. cbn [filter_record_value ret bind].
      destruct (fst (filter_record t (Some config)
                       (Some (min_answer_length config)))).
      * cbn [negb]. rewrite (IH _ _ Hall). cbn [app].
        now rewrite <- app_assoc.
      * cbn [negb]. rewrite (IH _ _ Hall). cbn [List.length].
        f_equal. f_equal. unfold passes, fails. lia.
    + assert (answer_of (VDict d) = None) as ->.
      { unfold answer_of. rewrite Hms.
        apply Nat.leb_gt in E3.
        destruct ms as [|a [|b [|c ms]]]; try reflexivity. cbn in E3. lia. }
      now rewrite (IH _ _ Hall).
Qed.

(** X19.  What leaves Step 3 of [run_pipeline].  The records kept are
    taken from the converted records in their order; each has a string
    as the content of its third message, and [filter_record] accepts
    this string under [min_length = min_answer_length], so that it is at
    least that long when it is not zero and at most [max_answer_length]
    long when that is not zero; and the records kept and the records
    counted as rejected are together no more than the records given, a
    record with fewer than three messages being in neither.  On records
    in the chat format the step returns, keeps exactly the records with
    three messages or more whose third message [filter_record] accepts,
    and counts exactly those whose third message it rejects. *)
Theorem X19_quality_step_survivors (config : FilterConfig)
    (all_converted : list value) :
  (forall filtered filter_rejected,
      quality_step config all_converted [] 0 = inr (filtered, filter_rejected) ->
      sublist filtered all_converted
      /\ List.length filtered + filter_rejected <= List.length all_converted
      /\ Forall
           (fun r =>
              exists t,
                answer_of r = Some t
                /\ filter_record t (Some config) (Some (min_answer_length config))
                   = (true, "")
                /\ (length_threshold config (Some (min_answer_length config))
                    <= Z.of_nat (String.length t))%Z
                /\ (max_answer_length config = 0%Z
                    \/ (Z.of_nat (String.length t) <= max_answer_length config)%Z))
           filtered)
  /\ (Forall converted all_converted ->
      quality_step config all_converted [] 0
      = inr (List.filter (passes config) all_converted,
             List.length (List.filter (fails config) all_converted))).
Proof.
  split.
  - intros filtered filter_rejected Hrun.
    destruct (quality_step_survivors _ _ _ _ _ _ Hrun)
      as (extra & Hk & Hsub & Hlen & _ & Hall).
    cbn [app] in Hk. subst extra. split; [exact Hsub|]. split; [lia|].
    eapply Forall_impl; [exact Hall|].
    intros r (t & Ht & Hok). exists t. split; [exact Ht|]. split; [exact Hok|].
    destruct (filter_record_accepts _ _ _ _ Hok) as (_ & Hmin & Hmax & _).
    split; [exact Hmin|exact Hmax].
  - intros Hall.
    rewrite (quality_step_converted config all_converted [] 0 Hall).
    reflexivity.
Qed.

Lemma X19_quality_step_survivors_witness :
  quality_step default_config
    [VDict (Samples.chat_dict (Samples.times "CMMC controls " 20) "nist");
     VDict (Samples.chat_dict Samples.answer_1 "ecfr");
     VDict [("source", VStr "no messages")]] [] 0
  = inr ([VDict (Samples.chat_dict (Samples.times "CMMC controls " 20) "nist")], 1)
  /\ 1 + 1 <= 3.
Proof.
  assert (quality_step default_config
            [VDict (Samples.chat_dict (Samples.times "CMMC controls " 20) "nist");
             VDict (Samples.chat_dict Samples.answer_1 "ecfr");
             VDict [("source", VStr "no messages")]] [] 0
          = inr ([VDict (Samples.chat_dict (Samples.times "CMMC controls " 20)
                                           "nist")], 1)) as Hrun
      by (vm_compute; reflexivity).
  split; [exact Hrun|].
  destruct (X19_quality_step_survivors default_config
              [VDict (Samples.chat_dict (Samples.times "CMMC controls " 20) "nist");
               VDict (Samples.chat_dict Samples.answer_1 "ecfr");
               VDict [("source", VStr "no messages")]]) as [Hkept _].
  destruct (Hkept _ _ Hrun) as (_ & Hlen & _).
  exact Hlen.
Defined.

End FilterProps.

(** ** More about the validator *)

Module ValidatorFormatProps.
Import Py Validator ValidatorFormat ValidatorProps.

(** What an f-string prints for a value. *)
Example str_of_values :
  str VNone = "None"
  /\ str (VStr "user") = "user"
  /\ str (VList [VStr "a"; VInt (-1); VBool true]) = "['a', -1, True]"
  /\ str (VDict [("k", VList [])]) = "{'k': []}".
Proof. repeat split. Qed.

(** [test_wrong_role_order]: the first two roles are exchanged. *)
Example wrong_role_order :
  bind
    (_validate_format default_validator
       [[("messages",
          VList [VDict [("role", VStr "user"); ("content", VStr "wrong order")];
                 VDict [("role", VStr "system"); ("content", VStr "should be first")];
                 VDict [("role", VStr "assistant"); ("content", VStr "answer")]]);
         ("source", VStr "test")]]
       (new_result 1))
    (fun result => ret (format_errors result))
  = inr ["Record 0: message 0 role is 'user', expected 'system'";
         "Record 0: message 1 role is 'system', expected 'user'"].
Proof. reflexivity. Qed.

Lemma extends_refl r : extends r r.
Proof.
  repeat split; try (exists []; now rewrite app_nil_r).
Qed.

Lemma extends_trans r1 r2 r3 : extends r1 r2 -> extends r2 r3 -> extends r1 r3.
Proof.
  intros ([e1 He1] & [w1 Hw1] & Hs1 & Ht1 & Hc1 & Hp1)
         ([e2 He2] & [w2 Hw2] & Hs2 & Ht2 & Hc2 & Hp2).
  repeat split; try congruence.
  - exists (e1 ++ e2). rewrite He2, He1. now rewrite <- app_assoc.
  - exists (w1 ++ w2). rewrite Hw2, Hw1. now rewrite <- app_assoc.
Qed.

Lemma extends_error msg r : extends r (add_format_error msg r).
Proof.
  repeat split; cbn; [now exists [msg]|exists []; now rewrite app_nil_r].
Qed.

Lemma extends_warning msg r : extends r (add_quality_warning msg r).
Proof.
  repeat split; cbn; [exists []; now rewrite app_nil_r|now exists [msg]].
Qed.

Lemma check_roles_extends i j expected messages r r' :
  check_roles i j expected messages r = inr r' -> extends r r'.
Proof.
  revert j messages r. induction expected as [|e expected IH];
    intros j messages r; [cbn; intros [= <-]; apply extends_refl|].
  destruct messages as [|msg messages]; [cbn; intros [= <-]; apply extends_refl|].
  cbn [check_roles].
  destruct (get "role" (VStr "") msg) as [x|actual]; [discriminate|]. cbn [bind].
  intros E. apply IH in E. eapply extends_trans; [|exact E].
  destruct (differs actual e); [apply extends_error|apply extends_refl].
Qed.

Lemma check_contents_extends i j messages r r' :
  check_contents i j messages r = inr r' -> extends r r'.
Proof.
  revert j r. induction messages as [|msg messages IH]; intros j r;
    [cbn; intros [= <-]; apply extends_refl|].
  cbn [check_contents].
  destruct (get "content" (VStr "") msg) as [x|content]; [discriminate|].
  cbn [bind]. destruct (is_empty_content content) as [x|empty]; [discriminate|].
  cbn [bind]. intros E. apply IH in E. eapply extends_trans; [|exact E].
  destruct empty; [apply extends_error|apply extends_refl].
Qed.

Lemma check_record_extends v i record r r' :
  check_record v i record r = inr r' -> extends r r'.
Proof.
  unfold check_record.
  destruct (dict_get "messages" VNone record) as [|b|z|s|messages|d];
    try (intros [= <-]; apply extends_error).
  destruct (List.length messages <? 3); [intros [= <-]; apply extends_error|].
  destruct (check_roles i 0 _ messages r) as [x|r1] eqn:E1; [discriminate|].
  cbn [bind].
  destruct (check_contents i 0 messages r1) as [x|r2] eqn:E2; [discriminate|].
  cbn [bind].
  destruct (getitem 0 (VList messages)) as [x|first]; [discriminate|]. cbn [bind].
  destruct (get "content" (VStr "") first) as [x|sc]; [discriminate|]. cbn [bind].
  destruct (not_in _ sc) as [x|missing]; [discriminate|]. cbn [bind].
  apply check_roles_extends in E1. apply check_contents_extends in E2.
  pose proof (extends_trans _ _ _ E1 E2) as E12.
  destruct missing, (negb (truthy (dict_get "source" VNone record)));
    intros [= <-];
    repeat first [ exact E12
                 | eapply extends_trans; [|apply extends_warning] ].
Qed.

Lemma validate_format_from_extends v i records r r' :
  validate_format_from v i records r = inr r' -> extends r r'.
Proof.
  revert i r. induction records as [|record records IH]; intros i r;
    [cbn; intros [= <-]; apply extends_refl|].
  cbn [validate_format_from].
  destruct (check_record v i record r) as [x|r1] eqn:E1; [discriminate|].
  cbn [bind]. intros E. apply IH in E. apply check_record_extends in E1.
  eapply extends_trans; eassumption.
Qed.

(** X20.  [_validate_format] only adds findings: when it returns, the
    format errors and the quality warnings that the result already had
    are still there, in front of the new ones, and the stats, the record
    count, the comparison notes and the [passed] flag are untouched. *)
Theorem X20_format_check_only_adds (v : DataValidator) (records : list dict)
    (result result' : ValidationResult) :
  _validate_format v records result = inr result' ->
  extends result result'.
Proof. apply validate_format_from_extends. Qed.

Lemma X20_format_check_only_adds_witness :
  extends (add_quality_warning "earlier" (new_result 1))
    {| passed := true; total_records := 1;
       format_errors := ["Record 0: 'messages' is not a list"];
       quality_warnings := ["earlier"]; comparison_notes := [];
       stats := ∅ |}.
Proof.
  apply (X20_format_check_only_adds default_validator [[("text", VStr "no messages")]]).
  reflexivity.
Defined.


Lemma dict_get_list key record (fallback fallback' : value) l :
  dict_get key fallback record = VList l -> fallback <> VList l ->
  dict_get key fallback' record = VList l.
Proof.
  unfold dict_get. destruct (dict_lookup key record); [easy|congruence].
Qed.

Lemma is_empty_content_filled (content : string) :
  strip content <> "" -> is_empty_content (VStr content) = inr false.
Proof.
  intros Hne. unfold is_empty_content.
  assert (content <> "") as Hc by (intros ->; now apply Hne).
  cbn [truthy]. apply String.eqb_neq in Hc. rewrite Hc. cbn [negb].
  apply String.eqb_neq in Hne. now rewrite Hne.
Qed.

Lemma check_contents_filled i j messages r :
  Forall filled_message messages -> check_contents i j messages r = inr r.
Proof.
  revert j. induction messages as [|msg messages IH]; intros j Hm; [reflexivity|].
  apply Forall_cons in Hm as [(m & content & -> & Hc & Hne) Hm].
  cbn [check_contents get bind ret]. rewrite Hc.
  rewrite (is_empty_content_filled content Hne). cbn [bind]. now apply IH.
Qed.

Lemma sound_is_filled role msg : sound_message role msg -> filled_message msg.
Proof. intros (m & c & -> & _ & Hc & Hne). now exists m, c. Qed.

Lemma check_record_sound v i record r :
  sound_record v record -> check_record v i record r = inr r.
Proof.
  intros (m0 & m1 & m2 & more & Hmsgs & H0 & H1 & H2 & Hmore & Hsys & Hsrc).
  unfold check_record. rewrite Hmsgs. cbn [List.length Nat.ltb Nat.leb].
  assert (check_roles i 0 ["system"; "user"; "assistant"]
            (m0 :: m1 :: m2 :: more) r = inr r) as ->.
  { destruct H0 as (d0 & c0 & -> & Hr0 & _), H1 as (d1 & c1 & -> & Hr1 & _),
             H2 as (d2 & c2 & -> & Hr2 & _).
    cbn [check_roles get bind ret]. rewrite Hr0, Hr1, Hr2. reflexivity. }
  cbn [bind].
  rewrite check_contents_filled.
  2:{ repeat (apply Forall_cons; split); eauto using sound_is_filled. }
  cbn [bind getitem nth_error ret].
  destruct Hsys as (m & content & -> & Hc & Hin).
  cbn [get bind ret]. rewrite Hc. cbn [not_in bind ret]. rewrite Hin.
  cbn [negb]. now rewrite Hsrc.
Qed.

Lemma validate_format_sound v i records r :
  Forall (sound_record v) records -> validate_format_from v i records r = inr r.
Proof.
  revert i. induction records as [|record records IH]; intros i Hr; [reflexivity|].
  apply Forall_cons in Hr as [H1 Hr]. cbn [validate_format_from].
  rewrite (check_record_sound v i record r H1). cbn [bind]. now apply IH.
Qed.

Lemma answer_length_sound v record :
  sound_record v record -> exists k, answer_length record = inr (Some k).
Proof.
  intros (m0 & m1 & m2 & more & Hmsgs & _ & _ & H2 & _).
  unfold answer_length.
  rewrite (dict_get_list _ _ VNone (VList []) _ Hmsgs) by discriminate.
  cbn [len bind ret List.length Nat.leb getitem nth_error].
  destruct H2 as (d2 & c2 & -> & _ & Hc & _).
  cbn [get bind ret]. rewrite Hc. cbn. eauto.
Qed.

Lemma answer_lengths_sound v records :
  Forall (sound_record v) records -> exists ks, answer_lengths records = inr ks.
Proof.
  induction records as [|record records IH]; intros Hr; [eexists; reflexivity|].
  apply Forall_cons in Hr as [H1 Hr]. cbn [answer_lengths].
  destruct (answer_length_sound v record H1) as [k ->].
  destruct (IH Hr) as [ks ->]. cbn. eauto.
Qed.

(** What [_validate_quality] does to the format errors. *)
Lemma validate_quality_errors v records r r' :
  _validate_quality v records r = inr r' ->
  total_records r' = total_records r
  /\ ((List.length records < min_records v /\
       exists msg, format_errors r' = format_errors r ++ [msg])
      \/ (min_records v <= List.length records /\
          format_errors r' = format_errors r)).
Proof.
  unfold _validate_quality.
  destruct (Nat.ltb_spec (List.length records) (min_records v)).
  - intros [= <-]. split; [reflexivity|]. left. split; [assumption|].
    eexists; reflexivity.
  - destruct (answer_lengths records) as [e|lengths]; [discriminate|]. cbn [bind].
    destruct (collect_sources records []) as [e|sources]; [discriminate|].
    cbn [bind]. destruct (sorted sources) as [e|ordered]; [discriminate|].
    cbn [bind ret]. intros [= <-]. cbn [total_records set_stat format_errors].
    split.
    + unfold length_stats. destruct lengths; [reflexivity|].
      repeat match goal with
             | |- context [if ?b then _ else _] => destruct b
             end; reflexivity.
    + right. split; [assumption|apply length_stats_keeps].
Qed.

Lemma validate_quality_returns v records r lengths :
  min_records v <= List.length records ->
  answer_lengths records = inr lengths ->
  Forall has_text_source records ->
  exists r', _validate_quality v records r = inr r'.
Proof.
  intros Hmany Hlengths Hsrc. unfold _validate_quality.
  apply Nat.ltb_ge in Hmany. rewrite Hmany, Hlengths. cbn [bind].
  destruct (collect_sources_texts records [] Hsrc NoDup_nil_2)
    as (ms & Hcollect & _).
  cbn [List.map] in Hcollect. rewrite Hcollect. cbn [bind].
  destruct (sorted_texts ms) as (ordered & ->). cbn [bind ret]. eauto.
Qed.

(** X21.  A batch in the chat format passes.  When there are at least
    [min_records] records, each with three messages or more, the first
    three with the roles [system], [user], [assistant], every message
    with a content that is more than white space, the system prompt
    containing the required substring, and a source that is a non-empty
    string, [validate_all] returns, with [passed = True], no format
    error, and the number of records as [total_records]. *)
Theorem X21_sound_batch_passes (v : DataValidator) (records : list dict) :
  Forall (sound_record v) records ->
  Forall has_text_source records ->
  min_records v <= List.length records ->
  exists result,
    validate_all v records = inr result
    /\ passed result = true
    /\ format_errors result = []
    /\ total_records result = List.length records.
Proof.
  intros Hsound Hsrc Hmany. unfold validate_all, _validate_format.
  rewrite (validate_format_sound v 0 records _ Hsound). cbn [bind].
  destruct (answer_lengths_sound v records Hsound) as [lengths Hlengths].
  destruct (validate_quality_returns v records
              (new_result (List.length records)) lengths Hmany Hlengths Hsrc)
    as (r' & Hq).
  rewrite Hq. cbn [bind ret].
  destruct (validate_quality_errors _ _ _ _ Hq) as (Ht & [[Hfew _]|[_ He]]);
    [lia|].
  exists (set_passed r'). cbn [new_result format_errors total_records] in He, Ht.
  split; [reflexivity|]. unfold set_passed. cbn. rewrite He. auto.
Qed.

Lemma X21_sound_batch_passes_witness :
  exists result,
    validate_all Samples.small_validator MoreSamples.three_sound = inr result
    /\ passed result = true.
Proof.
  destruct (X21_sound_batch_passes Samples.small_validator MoreSamples.three_sound)
    as (result & Hrun & Hpassed & _).
  - repeat constructor; unfold sound_record;
      eexists _, _, _, _; (split; [reflexivity|]);
      repeat split; try (eexists _, _; repeat split; try reflexivity; discriminate);
      try constructor.
  - repeat constructor; eexists; reflexivity.
  - cbn. lia.
  - exists result. now split.
Defined.

(** X22.  [validate_all] passes a batch exactly when it found no format
    error, and a batch with fewer records than [min_records] is never
    passed: whenever [validate_all] returns for it, [passed] is [False]
    and the last format error is the one about the number of records,
    however well-formed its records are.  [total_records] is the number
    of records given. *)
Theorem X22_verdict_of_validate_all (v : DataValidator) (records : list dict)
    (result : ValidationResult) :
  validate_all v records = inr result ->
  total_records result = List.length records
  /\ (passed result = true <-> format_errors result = [])
  /\ (List.length records < min_records v ->
      passed result = false
      /\ exists earlier,
           format_errors result
           = earlier ++ [("Too few records: " ++ str_N (N.of_nat (List.length records))
                          ++ " < minimum " ++ str_N (N.of_nat (min_records v)))%string]).
Proof.
  unfold validate_all.
  destruct (_validate_format v records _) as [e|r1] eqn:E1; [discriminate|].
  cbn [bind].
  destruct (_validate_quality v records r1) as [e|r2] eqn:E2; [discriminate|].
  cbn [bind ret]. intros [= <-].
  apply validate_format_from_extends in E1.
  destruct (validate_quality_errors _ _ _ _ E2) as (Ht & _).
  destruct E1 as (_ & _ & _ & Ht1 & _).
  cbn [set_passed total_records format_errors passed].
  split; [rewrite Ht, Ht1; reflexivity|]. split.
  - destruct (format_errors r2); split; congruence.
  - intros Hfew. unfold _validate_quality in E2.
    apply Nat.ltb_lt in Hfew. rewrite Hfew in E2. injection E2 as <-.
    cbn [format_errors add_format_error]. split.
    + destruct (format_errors r1); reflexivity.
    + eexists; reflexivity.
Qed.

Lemma X22_verdict_of_validate_all_witness :
  exists result,
    validate_all default_validator MoreSamples.three_sound = inr result
    /\ passed result = false.
Proof.
  destruct (validate_all default_validator MoreSamples.three_sound)
    as [e|result] eqn:Hrun; [vm_compute in Hrun; discriminate Hrun|].
  exists result. split; [reflexivity|].
  destruct (X22_verdict_of_validate_all _ _ _ Hrun) as (_ & _ & Hfew).
  apply Hfew. cbn. lia.
Defined.


Section Sorting.
Context {A : Type} (le : A -> A -> bool).
Hypothesis le_total : forall a b, le a b = true \/ le b a = true.

Lemma insert_by_perm (x : A) (l : list A) : insert_by le x l ≡ₚ x :: l.
Proof.
  induction l as [|y l IH]; [reflexivity|]. cbn [insert_by].
  destruct (le x y); [reflexivity|]. rewrite IH. apply Permutation_swap.
Qed.

Lemma sort_by_perm (l : list A) : sort_by le l ≡ₚ l.
Proof.
  induction l as [|x l IH]; [reflexivity|]. unfold sort_by in *.
  cbn [fold_right]. rewrite insert_by_perm. now rewrite IH.
Qed.

Lemma insert_by_sorted (x : A) (l : list A) :
  Sorted (fun a b => le a b = true) l ->
  Sorted (fun a b => le a b = true) (insert_by le x l).
Proof.
  induction l as [|y l IH]; intros Hl; cbn [insert_by].
  - repeat constructor.
  - destruct (le x y) eqn:E.
    + constructor; [exact Hl|]. now constructor.
    + apply Sorted_inv in Hl as [Hl Hy]. constructor; [now apply IH|].
      destruct l as [|z l]; cbn [insert_by].
      * constructor. destruct (le_total x y); congruence.
      * destruct (le x z).
        -- constructor. destruct (le_total x y); congruence.
        -- constructor. now apply HdRel_inv in Hy.
Qed.

Lemma sort_by_sorted (l : list A) : Sorted (fun a b => le a b = true) (sort_by le l).
Proof.
  induction l as [|x l IH]; [constructor|]. unfold sort_by in *.
  cbn [fold_right]. now apply insert_by_sorted.
Qed.

Lemma firstn_sorted (n : nat) (l : list A) :
  Sorted (fun a b => le a b = true) l ->
  Sorted (fun a b => le a b = true) (firstn n l).
Proof.
  revert l. induction n as [|n IH]; intros l Hl; [constructor|].
  destruct l as [|x l]; [constructor|]. cbn [firstn].
  apply Sorted_inv in Hl as [Hl Hx]. constructor; [now apply IH|].
  destruct l as [|y l]; [destruct n; constructor|].
  destruct n; cbn [firstn]; constructor. now apply HdRel_inv in Hx.
Qed.

End Sorting.

Lemma sort_by_texts (ms : list string) :
  sort_by (fun a b => match as_string a, as_string b with
                      | Some s, Some t => String.leb s t
                      | _, _ => true
                      end) (List.map VStr ms)
  = List.map VStr (sort_by String.leb ms).
Proof.
  unfold sort_by. induction ms as [|m ms IH]; [reflexivity|].
  cbn [List.map fold_right]. rewrite IH.
  generalize (fold_right (insert_by String.leb) [] ms) as l. intros l.
  induction l as [|y l IHl]; [reflexivity|].
  cbn [List.map insert_by as_string]. destruct (String.leb m y); [reflexivity|].
  now rewrite IHl.
Qed.

Lemma sorted_texts_spec (ms : list string) :
  exists names,
    sorted (List.map VStr ms) = inr (List.map VStr names)
    /\ names ≡ₚ ms
    /\ (2 <= List.length ms -> Sorted (fun a b => String.leb a b = true) names).
Proof.
  destruct ms as [|a [|b ms]].
  - exists []. split; [reflexivity|]. split; [reflexivity|].
    intros Hlen. cbn in Hlen. lia.
  - exists [a]. split; [reflexivity|]. split; [reflexivity|].
    intros Hlen. cbn in Hlen. lia.
  - exists (sort_by String.leb (a :: b :: ms)). split; [|split].
    + unfold sorted. rewrite all_some_texts.
      change (List.map VStr (a :: b :: ms))
        with (VStr a :: VStr b :: List.map VStr ms) at 1.
      cbv iota. change (VStr a :: VStr b :: List.map VStr ms)
        with (List.map VStr (a :: b :: ms)).
      now rewrite sort_by_texts.
    + apply sort_by_perm.
    + intros _. apply sort_by_sorted, String.leb_total.
Qed.

(** X23.  The sources that [_validate_quality] lists.  For a batch that
    meets the minimum, whose answer lengths can be taken and whose
    sources are strings, [source_list] holds sources of the batch and no
    other string, each once, in ascending order, and at most twenty of
    them; when the batch has twenty distinct sources or fewer, it holds
    them all. *)
Theorem X23_source_list (v : DataValidator) (records : list dict)
    (result : ValidationResult) (lengths : list nat) :
  min_records v <= List.length records ->
  answer_lengths records = inr lengths ->
  Forall has_text_source records ->
  exists result' names,
    _validate_quality v records result = inr result'
    /\ stats result' !! "source_list" = Some (VList (List.map VStr names))
    /\ List.length names <= 20
    /\ NoDup names
    /\ Sorted (fun a b => String.leb a b = true) names
    /\ (forall s, In s names -> In s (List.map source_text records))
    /\ (size (list_to_set (List.map source_text records) : gset string) <= 20 ->
        forall s, In s (List.map source_text records) -> In s names).
Proof.
  intros Hmany Hlengths Hsrc. unfold _validate_quality.
  apply Nat.ltb_ge in Hmany. rewrite Hmany, Hlengths. cbn [bind].
  destruct (collect_sources_texts records [] Hsrc NoDup_nil_2)
    as (ms & Hcollect & Hnd & Hset).
  cbn [List.map] in Hcollect. rewrite Hcollect. cbn [bind].
  destruct (sorted_texts_spec ms) as (names & -> & Hperm & Hsorted).
  cbn [bind ret]. eexists. exists (firstn 20 names). split; [reflexivity|].
  assert (forall s, In s ms <-> In s (List.map source_text records)) as Hmem.
  { intros s. rewrite <- !list_elem_of_In.
    rewrite <- (elem_of_list_to_set (C:=gset string) s ms), Hset.
    rewrite <- (elem_of_list_to_set (C:=gset string) s
                  (List.map source_text records)).
    set_solver. }
  assert (NoDup names) as Hnd' by now rewrite Hperm.
  assert (Sorted (fun a b => String.leb a b = true) names) as Hs.
  { destruct ms as [|a [|b ms]]; [| |apply Hsorted; cbn; lia].
    - apply Permutation_nil_r in Hperm. subst names. constructor.
    - apply Permutation_singleton_r in Hperm. subst names. repeat constructor. }
  cbn [stats set_stat]. rewrite lookup_insert_eq, <- firstn_map.
  split; [reflexivity|]. split; [rewrite length_take; lia|].
  split; [apply (sublist_NoDup _ names Hnd'), sublist_take|].
  split; [now apply firstn_sorted|]. split.
  - intros s Hin. apply Hmem. apply list_elem_of_In. rewrite <- Hperm.
    apply list_elem_of_In in Hin.
    now apply (subseteq_take 20 names).
  - intros Hsize s Hin.
    assert (List.length names <= 20) as Hle.
    { rewrite Hperm, <- (size_list_to_set (C:=gset string) ms Hnd), Hset.
      replace ((list_to_set [] : gset string)
               ∪ list_to_set (List.map source_text records))
        with (list_to_set (List.map source_text records) : gset string)
        by set_solver.
      exact Hsize. }
    rewrite (take_ge names 20 Hle).
    apply list_elem_of_In. rewrite Hperm. apply list_elem_of_In. now apply Hmem.
Qed.

Lemma X23_source_list_witness :
  exists result',
    _validate_quality Samples.small_validator MoreSamples.three_sound
      (new_result 3) = inr result'
    /\ stats result' !! "source_list" = Some (VList [VStr "ecfr"; VStr "nist_csrc"]).
Proof.
  edestruct (X23_source_list Samples.small_validator MoreSamples.three_sound
               (new_result 3))
    as (result' & names & Hrun & Hlist & _).
  - cbn. lia.
  - vm_compute. reflexivity.
  - repeat constructor; eexists; reflexivity.
  - exists result'. split; [exact Hrun|].
    vm_compute in Hrun. injection Hrun as <-. reflexivity.
Defined.

End ValidatorFormatProps.
